(** * Knowledge-decay scoring pipeline: a shallow embedding and its properties

    The development follows the JavaScript services of the repository:
    text analysis (TF-IDF vectors, cosine similarity, key statements,
    statement contradictions), the freshness evaluator, the contradiction
    detector, the version drift analyzer, the confidence scorer, the update
    generator and the decay engine (analyzeDocument, batchAnalyze).

    Conventions of the embedding.
    - A JavaScript number is a rational ([Q]); arithmetic is exact.  Where
      the source can produce NaN the model says so with an [option]
      ([None] is NaN).  [Math.round x] is [floor (x + 1/2)].
    - A JavaScript string is a [string] of ASCII characters; [undefined]
      (an absent property) is [None].  An object used as a map is the list
      of its own properties; the order of the list plays no role under
      exact arithmetic.  A property that is not an own property is looked up
      in the prototype: a table or a vector read at a name such as
      [constructor] or [__proto__] gives a member of [Object.prototype],
      which is truthy and is not a number.
    - An exception is the [Throw] case of [Result].
    - What the services take from outside the repository (the clock,
      [Math.sqrt], the TF-IDF implementation of the [natural] package, the
      embedding provider, locale date formatting, the environment
      variables) is a variable of the section that uses it. *)

From Stdlib Require Import ZArith QArith Qround Bool List Lia Lqa.
From Stdlib Require Import Ascii String DecimalString.
From Stdlib Require Import Permutation Sorted.
Import ListNotations.

Set Implicit Arguments.

(* ================================================================== *)
(** * JavaScript numbers *)
(* ================================================================== *)

Module Num.

Definition leb (a b : Q) : bool := Qle_bool a b.
Definition ltb (a b : Q) : bool := negb (Qle_bool b a).
Definition geb (a b : Q) : bool := Qle_bool b a.
Definition gtb (a b : Q) : bool := negb (Qle_bool a b).
Definition eqb (a b : Q) : bool := Qeq_bool a b.

(** [Math.min] and [Math.max] on two numbers. *)
Definition Math_min (a b : Q) : Q := if leb a b then a else b.
Definition Math_max (a b : Q) : Q := if leb a b then b else a.

(** [Math.round]: the nearest integer, halves towards plus infinity. *)
Definition Math_round (x : Q) : Z := Qfloor (x + (1 # 2)).

(** [Math.round(x * 1000) / 1000] and [Math.round(x * 100) / 100]. *)
Definition round3 (x : Q) : Q := Math_round (x * 1000) # 1000.
Definition round2 (x : Q) : Q := Math_round (x * 100) # 100.

(** Comparisons with a number that may be NaN ([None]): false on NaN. *)
Definition geNaN (a : option Q) (b : Q) : bool :=
  match a with Some x => geb x b | None => false end.
Definition gtNaN (a : option Q) (b : Q) : bool :=
  match a with Some x => gtb x b | None => false end.

End Num.

Infix "<=?" := Num.leb : Q_scope.
Infix "<?" := Num.ltb : Q_scope.
Infix ">=?" := Num.geb (at level 70) : Q_scope.
Infix ">?" := Num.gtb (at level 70) : Q_scope.

(* ================================================================== *)
(** * JavaScript strings *)
(* ================================================================== *)

Module Str.

Definition chars (s : string) : list ascii := list_ascii_of_string s.
Definition ofChars (l : list ascii) : string := string_of_list_ascii l.

Definition isUpper (c : ascii) : bool :=
  let n := nat_of_ascii c in (65 <=? n)%nat && (n <=? 90)%nat.
Definition isLower (c : ascii) : bool :=
  let n := nat_of_ascii c in (97 <=? n)%nat && (n <=? 122)%nat.
Definition isDigit (c : ascii) : bool :=
  let n := nat_of_ascii c in (48 <=? n)%nat && (n <=? 57)%nat.
(** [\s]: space, tab, line feed, vertical tab, form feed, carriage return. *)
Definition isSpace (c : ascii) : bool :=
  let n := nat_of_ascii c in (n =? 32)%nat || ((9 <=? n)%nat && (n <=? 13)%nat).
(** [\w]: letters, digits and the underscore. *)
Definition isWord (c : ascii) : bool :=
  isUpper c || isLower c || isDigit c || (nat_of_ascii c =? 95)%nat.

Definition lowerChar (c : ascii) : ascii :=
  if isUpper c then ascii_of_nat (nat_of_ascii c + 32) else c.

(** [s.toLowerCase()] *)
Definition toLowerCase (s : string) : string :=
  ofChars (map lowerChar (chars s)).

Fixpoint dropSpaces (l : list ascii) : list ascii :=
  match l with
  | c :: t => if isSpace c then dropSpaces t else l
  | [] => []
  end.

(** [s.trim()] *)
Definition trimChars (l : list ascii) : list ascii :=
  rev (dropSpaces (rev (dropSpaces l))).
Definition trim (s : string) : string := ofChars (trimChars (chars s)).

(** [s.substring(0, n)] *)
Definition prefix (n : nat) (s : string) : string := substring 0 n s.

(** [String(n)] for an integer. *)
Definition ofZ (z : Z) : string := NilZero.string_of_int (Z.to_int z).

(** [parts.join(sep)] *)
Fixpoint join (sep : string) (parts : list string) : string :=
  match parts with
  | [] => ""
  | [p] => p
  | p :: rest => (p ++ sep ++ join sep rest)%string
  end.

(** Interpolation of a property that may be absent: [`${x}`]. *)
Definition interp (x : option string) : string :=
  match x with Some s => s | None => "undefined" end.

(** [String(x)] for a number with at most three decimals, given by its
    thousandths [k]: the integer part, then the decimals without trailing
    zeros. *)
Definition ofThousandths (k : Z) : string :=
  let a := Z.abs k in
  let whole := ofZ (a / 1000) in
  let f := (a mod 1000)%Z in
  let frac :=
    if (f =? 0)%Z then ""%string
    else if (f mod 100 =? 0)%Z then ("." ++ ofZ (f / 100))%string
    else if (f mod 10 =? 0)%Z then
      ("." ++ (if (f <? 100)%Z then "0" else "") ++ ofZ (f / 10))%string
    else ("." ++ (if (f <? 10)%Z then "00" else if (f <? 100)%Z then "0" else "")
              ++ ofZ f)%string in
  ((if (k <? 0)%Z then "-" else "") ++ whole ++ frac)%string.

(** The double quote and the line feed. *)
Definition dquote : string := String "034"%char EmptyString.
Definition nl : string := String "010"%char EmptyString.

(** Truthiness of a string property: absent and empty are falsy. *)
Definition truthy (x : option string) : bool :=
  match x with Some s => negb (String.eqb s "") | None => false end.

End Str.

(* ================================================================== *)
(** * Regular expressions

    The fragment of JavaScript's regular expressions that the services
    use, with the backtracking semantics of the language: greedy
    repetition, ordered alternation, leftmost match. *)
(* ================================================================== *)

Module Regex.

Inductive regex : Type :=
| Eps
| Chr (c : ascii)
| Cls (f : ascii -> bool)
| WordB
| Seq (r1 r2 : regex)
| Alt (r1 r2 : regex)
| Star (r : regex)
| Grp (i : nat) (r : regex).

Definition Plus (r : regex) : regex := Seq r (Star r).
Definition Opt (r : regex) : regex := Alt r Eps.

Fixpoint litChars (l : list ascii) : regex :=
  match l with
  | [] => Eps
  | [c] => Chr c
  | c :: t => Seq (Chr c) (litChars t)
  end.
Definition Lit (s : string) : regex := litChars (Str.chars s).

Fixpoint alts (rs : list regex) : regex :=
  match rs with
  | [] => Eps
  | [r] => r
  | r :: t => Alt r (alts t)
  end.

Definition digit : regex := Cls Str.isDigit.
Definition space : regex := Cls Str.isSpace.

(** The position of a match attempt: the character before it (for [\b]),
    the input that remains, and the groups captured so far. *)
Record mstate : Type := MState {
  prev : option ascii;
  rest : list ascii;
  caps : list (nat * list ascii)
}.

Definition isWordOpt (c : option ascii) : bool :=
  match c with Some a => Str.isWord a | None => false end.

Definition sameChar (icase : bool) (c a : ascii) : bool :=
  if icase then Ascii.eqb (Str.lowerChar c) (Str.lowerChar a) else Ascii.eqb c a.

Definition consumed (before after : mstate) : list ascii :=
  firstn (List.length (rest before) - List.length (rest after)) (rest before).

(** [rmatch icase r st k]: match [r] at [st], then the continuation [k];
    alternatives are tried in order and the first success is kept. *)
Fixpoint rmatch (icase : bool) (r : regex) (st : mstate)
    (k : mstate -> option mstate) {struct r} : option mstate :=
  match r with
  | Eps => k st
  | Chr c =>
      match rest st with
      | a :: t => if sameChar icase c a then k (MState (Some a) t (caps st)) else None
      | [] => None
      end
  | Cls f =>
      match rest st with
      | a :: t => if f a then k (MState (Some a) t (caps st)) else None
      | [] => None
      end
  | WordB =>
      if xorb (isWordOpt (prev st)) (isWordOpt (hd_error (rest st))) then k st else None
  | Seq r1 r2 => rmatch icase r1 st (fun st1 => rmatch icase r2 st1 k)
  | Alt r1 r2 =>
      match rmatch icase r1 st k with
      | Some res => Some res
      | None => rmatch icase r2 st k
      end
  | Star r1 =>
      (fix loop (fuel : nat) (st0 : mstate) {struct fuel} : option mstate :=
         match fuel with
         | O => k st0
         | S fuel' =>
             match rmatch icase r1 st0
                     (fun st1 => if (List.length (rest st1) <? List.length (rest st0))%nat
                                 then loop fuel' st1 else None) with
             | Some res => Some res
             | None => k st0
             end
         end) (List.length (rest st)) st
  | Grp i r1 =>
      rmatch icase r1 st
        (fun st1 => k (MState (prev st1) (rest st1) ((i, consumed st st1) :: caps st1)))
  end.

(** One match: what precedes it, the matched text, the groups, what follows
    (with the character before the rest, for a later [\b]). *)
Record found : Type := Found {
  before : list ascii;
  matched : list ascii;
  groups : list (nat * list ascii);
  after : mstate
}.

(** Leftmost match from the current position ([RegExp.prototype.exec]). *)
Fixpoint exec_at (icase : bool) (r : regex) (p : option ascii)
    (s : list ascii) (skipped : list ascii) : option found :=
  let st := MState p s [] in
  match rmatch icase r st Some with
  | Some st' => Some (Found (rev skipped) (consumed st st') (caps st') st')
  | None =>
      match s with
      | [] => None
      | a :: t => exec_at icase r (Some a) t (a :: skipped)
      end
  end.

(** [r.test(s)] *)
Definition test (icase : bool) (r : regex) (s : string) : bool :=
  match exec_at icase r None (Str.chars s) [] with Some _ => true | None => false end.

(** [s.match(r)] without the global flag: the first match. *)
Definition exec (icase : bool) (r : regex) (s : string) : option found :=
  exec_at icase r None (Str.chars s) [].

Definition group (i : nat) (m : found) : option string :=
  match find (fun g => Nat.eqb (fst g) i) (groups m) with
  | Some g => Some (Str.ofChars (snd g))
  | None => None
  end.

(** All matches with the global flag; an empty match advances by one
    character.  [fuel] bounds the number of matches by the input length. *)
Fixpoint allFrom (fuel : nat) (icase : bool) (r : regex) (p : option ascii)
    (s : list ascii) : list found :=
  match fuel with
  | O => []
  | S fuel' =>
      match exec_at icase r p s [] with
      | None => []
      | Some m =>
          match matched m, rest (after m) with
          | [], [] => [m]
          | [], a :: t => m :: allFrom fuel' icase r (Some a) t
          | _ :: _, _ => m :: allFrom fuel' icase r (prev (after m)) (rest (after m))
          end
      end
  end.

(** [[...s.matchAll(r)]] *)
Definition matchAll (icase : bool) (r : regex) (s : string) : list found :=
  allFrom (S (String.length s)) icase r None (Str.chars s).

(** The text between the matches, for [replace] and [split]. *)
Fixpoint piecesFrom (fuel : nat) (icase : bool) (r : regex) (p : option ascii)
    (s : list ascii) : list (list ascii) :=
  match fuel with
  | O => [s]
  | S fuel' =>
      match exec_at icase r p s [] with
      | None => [s]
      | Some m =>
          match matched m, rest (after m) with
          | [], [] => [s]
          | [], a :: t =>
              match piecesFrom fuel' icase r (Some a) t with
              | q :: qs => (before m) :: (a :: q) :: qs
              | [] => [before m]
              end
          | _ :: _, _ =>
              before m :: piecesFrom fuel' icase r (prev (after m)) (rest (after m))
          end
      end
  end.

(** [s.replace(r, '')] with the global flag. *)
Definition removeAll (icase : bool) (r : regex) (s : string) : string :=
  Str.ofChars (List.concat (piecesFrom (S (String.length s)) icase r None (Str.chars s))).

(** [s.split(r)] for a separator that never matches the empty string. *)
Definition split (icase : bool) (r : regex) (s : string) : list string :=
  match Str.chars s with
  | [] => if test icase r "" then [] else [""%string]
  | l => map Str.ofChars (piecesFrom (S (List.length l)) icase r None l)
  end.

End Regex.


(* ================================================================== *)
(** * Data model *)
(* ================================================================== *)

(** A timestamp property as the services receive it: the property is
    absent ([undefined]), [null], a value that [new Date] cannot parse, or
    a date, given in milliseconds since the epoch. *)
Inductive DateValue : Type :=
| DUndefined
| DNull
| DInvalid
| DTime (ms : Z).

(** [new Date(v).getTime()]; [None] is NaN (an invalid date).  [new
    Date(null)] is the epoch. *)
Definition getTime (v : DateValue) : option Z :=
  match v with
  | DUndefined => None
  | DNull => Some 0%Z
  | DInvalid => None
  | DTime ms => Some ms
  end.

(** Milliseconds in a day: [1000 * 60 * 60 * 24]. *)
Definition msPerDay : Z := (1000 * 60 * 60 * 24)%Z.

(** [a || b] on timestamp properties: [undefined] and [null] are falsy. *)
Definition dateOr (a b : DateValue) : DateValue :=
  match a with
  | DUndefined | DNull => b
  | _ => a
  end.

(** [new Date(a) < new Date(b)] and [>]: false when either date is invalid. *)
Definition dateLt (a b : DateValue) : bool :=
  match getTime a, getTime b with
  | Some x, Some y => (x <? y)%Z
  | _, _ => false
  end.
Definition dateGt (a b : DateValue) : bool := dateLt b a.

(** A vector: the sparse term-to-weight object of the local TF-IDF
    fallback (properties in insertion order), or the dense array of an
    embedding provider. *)
Inductive Embedding : Type :=
| Sparse (terms : list (string * Q))
| Dense (values : list Q).

Record VersionSnapshot : Type := {
  versionNumber : option Z;
  versionContent : option string;
  versionEmbedding : option Embedding;
  summary : option string
}.

Record Document : Type := {
  id : option string;
  title : option string;
  type : option string;
  content : option string;
  currentVersion : option Z;
  updatedAt : DateValue;
  lastVerifiedAt : DateValue;
  embedding : option Embedding;
  (** [document.versions], read by [batchAnalyze]; an entry may be [null]. *)
  versions : option (list (option VersionSnapshot))
}.

(** [document.embedding = e] *)
Definition setEmbedding (d : Document) (e : Embedding) : Document :=
  {| id := id d; title := title d; type := type d; content := content d;
     currentVersion := currentVersion d; updatedAt := updatedAt d;
     lastVerifiedAt := lastVerifiedAt d; embedding := Some e;
     versions := versions d |}.

(** A related document: a document with its similarity to the subject. *)
Record RelatedDocument : Type := {
  doc : Document;
  similarity : Q
}.

Inductive ReasonType : Type :=
| time | contradiction | version_drift | low_support | error.

Record DecayReason : Type := {
  reasonType : ReasonType;
  description : string;
  sources : list (option string)
}.

Inductive RiskLevel : Type := low | medium | high.

(** Exceptions: [Throw message] is a thrown [Error] with that message. *)
Inductive Result (A : Type) : Type :=
| Ok (a : A)
| Throw (message : string).
Arguments Ok {A} a.
Arguments Throw {A} message.

Definition bind {A B : Type} (r : Result A) (f : A -> Result B) : Result B :=
  match r with
  | Ok a => f a
  | Throw m => Throw m
  end.

Notation "x <- r ;; k" := (bind r (fun x => k))
  (at level 61, r at next level, right associativity).

(** ** Results of the services *)

Module Statement.
Record result : Type := {
  isContradiction : bool;
  score : Q;
  reason : option string
}.
End Statement.

Module Freshness.
Inductive Status : Type := fresh | warning | critical.
(** The value of [DECAY_THRESHOLDS[type] || DECAY_THRESHOLDS.Notes], read
    at [warning] and [critical]: an entry of the table has both; a member
    of [Object.prototype] has neither ([None] is [undefined]). *)
Record Thresholds : Type := { warning_days : option Z; critical_days : option Z }.
Record result : Type := {
  status : Status;
  ageDays : option Z;
  thresholds : Thresholds;
  penalty : Q;
  decayReason : option DecayReason
}.
End Freshness.

Module Contradictions.
Inductive Severity : Type := sev_high | sev_medium.
Record Side : Type := {
  statement : string;
  documentId : option string;
  documentTitle : option string
}.
Record Contradiction : Type := {
  thisDocument : Side;
  conflictsWith : Side;
  severity : Severity;
  reason : option string
}.
Record result : Type := {
  hasContradictions : bool;
  contradictions : list Contradiction;
  penalty : Q;
  (** absent from the result when there are no related documents *)
  decayReasons : option (list DecayReason)
}.
End Contradictions.

Module Drift.
Inductive Severity : Type := significant | moderate.
Record Change : Type := {
  fromVersion : option Z;
  toVersion : option Z;
  changeScore : Q;
  severity : Severity;
  changeSummary : string
}.
Record result : Type := {
  hasDrift : bool;
  (** absent from the result when there are no versions *)
  hasSignificantDrift : option bool;
  driftScore : Q;
  penalty : Q;
  changes : list Change;
  decayReason : option DecayReason
}.
End Drift.

Module Changes.
Record result : Type := {
  linesAdded : nat;
  linesRemoved : nat;
  netChange : Z;
  sampleAdditions : list string;
  sampleRemovals : list string
}.
End Changes.

Module Health.
(** The status is ['healthy'] or ['error']. *)
Inductive Status : Type := healthy | in_error.
Inductive EmbeddingType : Type := dense | sparse.
Record result : Type := {
  provider : string;
  status : Status;
  (** absent from the report of a failure *)
  embeddingType : option EmbeddingType;
  (** the message of the exception; absent from a healthy report *)
  error : option string
}.
End Health.

Module Score.
Record Params : Type := {
  agePenalty : Q;
  contradictionPenalty : Q;
  driftPenalty : Q;
  supportingDocsCount : Q
}.
Record Breakdown : Type := {
  starting_confidence : Q;
  age_penalty : Q;
  contradiction_penalty : Q;
  drift_penalty : Q;
  support_penalty : Q;
  total_penalty : Q;
  final_confidence : Q
}.
Record result : Type := {
  confidence : Q;
  breakdown : Breakdown
}.
Record Signals : Type := {
  hasContradictions : bool;
  hasSignificantDrift : option bool;
  freshnessStatus : Freshness.Status
}.
End Score.

Module Update.
Inductive Priority : Type := prio_low | prio_medium | prio_high.
Record Recommendation : Type := {
  section : string;
  suggested_text : string;
  reason : string;
  priority : Priority
}.
Record result : Type := {
  recommendations : list Recommendation;
  whatChangedSummary : string
}.
End Update.

Module ErrorRecord.
Record t : Type := {
  documentId : option string;
  documentTitle : option string;
  error : string;
  decay_detected : bool;
  confidence_score : Q;
  risk_level : RiskLevel;
  decay_reasons : list DecayReason
}.
End ErrorRecord.

(** The public verdict and its audit block. *)
Record PublicRecommendation : Type := {
  rec_section : string;
  rec_suggested_text : string
}.

Record Internal : Type := {
  confidence_breakdown : Score.Breakdown;
  freshness_status : Freshness.Status;
  freshness_age_days : option Z;
  internal_contradictions : list Contradictions.Contradiction;
  drift_score : Q;
  drift_has_significant_drift : option bool
}.

Record Verdict : Type := {
  decay_detected : bool;
  confidence_score : Q;
  risk_level : RiskLevel;
  decay_reasons : list DecayReason;
  what_changed_summary : string;
  update_recommendations : list PublicRecommendation;
  citations : list string;
  _internal : Internal
}.

(** An entry of the result of [batchAnalyze]: the verdict of a document
    with its id and title, or the record of a failed analysis. *)
Inductive BatchResult : Type :=
| Analysis (documentId documentTitle : option string) (verdict : Verdict)
| Failure (record : ErrorRecord.t).

(* ================================================================== *)
(** * Vectors as JavaScript objects *)
(* ================================================================== *)

(** Own properties of a vector, in enumeration order.  The indices of an
    array are its property names, in decimal. *)
Definition entries (e : Embedding) : list (string * Q) :=
  match e with
  | Sparse terms => terms
  | Dense values =>
      combine (map (fun i => Str.ofZ (Z.of_nat i)) (seq 0 (List.length values))) values
  end.

(** [Object.keys(vec)] *)
Definition Object_keys (e : Embedding) : list string := map fst (entries e).

(** The own property of a vector under a name, if it has one. *)
Definition ownProp (e : Embedding) (term : string) : option Q :=
  match find (fun kv => String.eqb (fst kv) term) (entries e) with
  | Some kv => Some (snd kv)
  | None => None
  end.

(** The names that every object inherits from [Object.prototype]: its
    methods and the accessor [__proto__]. *)
Definition Object_prototype : list string :=
  [ "constructor"; "__defineGetter__"; "__defineSetter__"; "hasOwnProperty";
    "__lookupGetter__"; "__lookupSetter__"; "isPrototypeOf"; "propertyIsEnumerable";
    "toString"; "valueOf"; "__proto__"; "toLocaleString" ]%string.

Definition inherited (name : string) : bool :=
  existsb (String.eqb name) Object_prototype.

(** The name of an array index is written with digits only; no method has
    such a name. *)
Definition isIndexName (term : string) : bool := forallb Str.isDigit (Str.chars term).

(** What reading a property of a vector gives: nothing ([undefined]), a
    number (an own weight or element, or the length of an array), or an
    inherited member, which is a function or a prototype object and is
    given by the number it converts to in a product ([None] is NaN). *)
Inductive PropValue : Type :=
| PUndefined
| PNumber (q : Q)
| PMember (asNumber : option Q).

(** [v || 0]: [undefined] and 0 are falsy, a function or an object is
    truthy. *)
Definition orZero (v : PropValue) : PropValue :=
  match v with
  | PUndefined => PNumber 0
  | PNumber q => if Num.eqb q 0 then PNumber 0 else PNumber q
  | PMember n => PMember n
  end.

(** The number that a value is in a product; [None] is NaN. *)
Definition toNumber (v : PropValue) : option Q :=
  match v with
  | PUndefined => None
  | PNumber q => Some q
  | PMember n => n
  end.

(** [terms[term] = w] on an object under construction: the own property is
    set or created, except under the name [__proto__], where the
    assignment reaches the setter of [Object.prototype], which ignores a
    number. *)
Fixpoint setProp (term : string) (w : Q) (terms : list (string * Q)) : list (string * Q) :=
  match terms with
  | [] => [(term, w)]
  | (k, v) :: rest => if String.eqb k term then (k, w) :: rest else (k, v) :: setProp term w rest
  end.

Definition assign (term : string) (w : Q) (terms : list (string * Q)) : list (string * Q) :=
  if String.eqb term "__proto__" then terms else setProp term w terms.

(** [new Set(keys)], in insertion order. *)
Fixpoint dedupe (l : list string) : list string :=
  match l with
  | [] => []
  | x :: t => x :: filter (fun y => negb (String.eqb x y)) (dedupe t)
  end.

(** One turn of the loop of [generateTfIdfEmbedding] over the listed terms:
    a term is kept when its weight is above 0.1. *)
Definition keepTerm (terms : list (string * Q)) (item : string * Q) : list (string * Q) :=
  if (snd item >? 0.1)%Q then assign (fst item) (Num.round3 (snd item)) terms else terms.

(** The string that a member of [Object.prototype] converts to in a
    comparison: a method is printed as a native function under its own
    name ([constructor] is the function [Object]), and [__proto__] gives
    [Object.prototype] itself. *)
Definition memberSource (name : string) : string :=
  if String.eqb name "__proto__" then "[object Object]"%string
  else ("function " ++ (if String.eqb name "constructor" then "Object" else name)
        ++ "() { [native code] }")%string.

(** The value of [typeRank[type] || 1]: a number of the table, or an
    inherited member, given by the string it converts to. *)
Inductive Rank : Type :=
| RankNumber (n : Z)
| RankMember (source : string).

(** [a > b]: two numbers by their order, two members by the order of
    their strings; a member against a number is NaN against the number,
    which is false. *)
Definition rankGt (a b : Rank) : bool :=
  match a, b with
  | RankNumber x, RankNumber y => (y <? x)%Z
  | RankMember x, RankMember y => String.ltb y x
  | _, _ => false
  end.

(** The three accumulators of the similarity loops. *)
Record Sums : Type := { dotProduct : Q; norm1 : Q; norm2 : Q }.

Definition addTerm (acc : Sums) (v1 v2 : Q) : Sums :=
  {| dotProduct := dotProduct acc + v1 * v2;
     norm1 := norm1 acc + v1 * v1;
     norm2 := norm2 acc + v2 * v2 |}.

Definition zeroSums : Sums := {| dotProduct := 0; norm1 := 0; norm2 := 0 |}.

(* ================================================================== *)
(** * Patterns of the text analysis *)
(* ================================================================== *)

Import Regex.

Definition oneOf (cs : list ascii) : ascii -> bool :=
  fun c => existsb (Ascii.eqb c) cs.

Definition words (ws : list string) : regex := alts (map Lit ws).

(** The sentence separator: one or more of [.], [!], [?]. *)
Definition sentenceEnd : regex := Plus (Cls (oneOf ["."; "!"; "?"]%char)).

(** The number of the source patterns: digits, an optional point, digits
    (one or more, then [\.?], then zero or more). *)
Definition number : regex :=
  Seq (Plus digit) (Seq (Opt (Chr ".")) (Star digit)).

Definition wholeWord (r : regex) : regex := Seq WordB (Seq r WordB).

(** The factual indicators, each with its ignore-case flag. *)
Definition factualPatterns : list (bool * regex) :=
  [ (true, wholeWord (Grp 1 (words ["must"; "shall"; "should"; "will"; "always";
                                    "never"; "required"; "mandatory"]%string)));
    (true, wholeWord (Grp 1 (words ["step"; "process"; "procedure"; "method";
                                    "approach"]%string)));
    (true, wholeWord (Grp 1 (words ["version"; "release"; "update"; "deploy"]%string)));
    (false, wholeWord (Grp 1 number)) ].

Record NegationPattern : Type := { pos : regex; neg : regex }.

Definition negationPatterns : list NegationPattern :=
  [ {| pos := wholeWord (Lit "must");
       neg := Alt (wholeWord (Lit "must not")) (wholeWord (Lit "should not")) |};
    {| pos := wholeWord (Lit "always");
       neg := wholeWord (Lit "never") |};
    {| pos := wholeWord (Lit "required");
       neg := Alt (wholeWord (Lit "optional")) (wholeWord (Lit "not required")) |};
    {| pos := wholeWord (Lit "enable");
       neg := wholeWord (Lit "disable") |} ].

(** The global, ignore-case pattern of a number (group 1), optional white
    space and a unit (group 2): [days?|hours?|minutes?|weeks?|%|percent]. *)
Definition numPattern : regex :=
  Seq (Grp 1 number)
      (Seq (Star space)
           (Grp 2 (alts [ Seq (Lit "day") (Opt (Chr "s"));
                          Seq (Lit "hour") (Opt (Chr "s"));
                          Seq (Lit "minute") (Opt (Chr "s"));
                          Seq (Lit "week") (Opt (Chr "s"));
                          Chr "%";
                          Lit "percent" ]))).

(** [unit.toLowerCase().replace(/s$/, '')] *)
Definition singular (unit : string) : string :=
  let l := Str.chars (Str.toLowerCase unit) in
  match rev l with
  | c :: t => if Ascii.eqb c "s" then Str.ofChars (rev t) else Str.ofChars l
  | [] => ""
  end.

Definition opposed (p : NegationPattern) (s1 s2 : string) : bool :=
  (test false (pos p) s1 && test false (neg p) s2)
  || (test false (neg p) s1 && test false (pos p) s2).

Definition numText (m : found) : string :=
  match group 1 m with Some s => s | None => "" end.
Definition unitText (m : found) : string :=
  match group 2 m with Some s => s | None => "" end.

(** [extractKeyStatements] of utils/textAnalysis.js. *)
Definition extractKeyStatements (text : option string) : list string :=
  match text with
  | None => []
  | Some t =>
      if String.eqb t "" then []
      else
        let sentences :=
          filter (fun s => (20 <? String.length s)%nat)
                 (map Str.trim (split false sentenceEnd t)) in
        filter (fun sentence =>
                  existsb (fun pattern => test (fst pattern) (snd pattern) sentence)
                          factualPatterns)
               sentences
  end.

(* ================================================================== *)
(** * Vocabulary of the properties *)
(* ================================================================== *)

(** The order of a result sorted by similarity, highest first. *)
Definition bySimilarity (a b : RelatedDocument) : Prop := similarity b <= similarity a.

(** [m] is the greatest number of [l]. *)
Definition greatest (l : list Q) (m : Q) : Prop :=
  In m l /\ forall x, In x l -> x <= m.

(** What the properties below ask of [Math.sqrt]: it is exact on the
    squares of integers, and on a positive number its square is the number
    up to one part in ten thousand. *)
Definition sqrt_exact_on_squares (sqrt : Q -> Q) : Prop :=
  forall (k : Z) (x : Q), (0 <= k)%Z -> x == inject_Z (k * k) -> sqrt x == inject_Z k.

Definition sqrt_accurate (sqrt : Q -> Q) : Prop :=
  forall x : Q, 0 < x ->
    0 < sqrt x /\ x * 0.9999 <= sqrt x * sqrt x /\ sqrt x * sqrt x <= x * 1.0001.

(** Every weight of a sparse vector is positive. *)
Definition positiveWeights (terms : list (string * Q)) : Prop :=
  Forall (fun kv => 0 < snd kv) terms.

(** The two statements of the numeric conflict of the detector's tests, and
    what is left of either, in lower case, once its number and unit are
    removed. *)
Definition fiveMinutes : string := "Deployments must complete within 5 minutes".
Definition fifteenMinutes : string := "Deployments must complete within 15 minutes".
Definition withoutNumbers : string := "deployments must complete within ".

(** The contradiction that the two statements make between two documents. *)
Definition minutesContradiction (subject related : Document) : Contradictions.Contradiction :=
  {| Contradictions.thisDocument :=
       {| Contradictions.statement := fiveMinutes;
          Contradictions.documentId := id subject;
          Contradictions.documentTitle := None |};
     Contradictions.conflictsWith :=
       {| Contradictions.statement := fifteenMinutes;
          Contradictions.documentId := id related;
          Contradictions.documentTitle := title related |};
     Contradictions.severity := Contradictions.sev_high;
     Contradictions.reason := Some "Numerical conflict: 5 minutes vs 15 minutes"%string |}.

(** 2024-01-01 and 2024-06-01, in milliseconds since the epoch. *)
Definition jan1_2024 : DateValue := DTime 1704067200000.
Definition jun1_2024 : DateValue := DTime 1717200000000.

(** No entry of the versions of a document is [null]. *)
Definition versionsPresent (versions : list (option VersionSnapshot)) : bool :=
  forallb (fun v => match v with Some _ => true | None => false end) versions.

(** What [batchAnalyze] records for a document, given what its analysis
    returned or threw. *)
Definition recorded (document : Document) (outcome : Result Verdict) (r : BatchResult)
    : Prop :=
  match outcome with
  | Ok verdict => r = Analysis (id document) (title document) verdict
  | Throw message =>
      exists e,
        r = Failure e
        /\ ErrorRecord.documentId e = id document
        /\ ErrorRecord.documentTitle e = title document
        /\ ErrorRecord.error e = message
        /\ ErrorRecord.risk_level e = high
        /\ ErrorRecord.decay_detected e = false
        /\ ErrorRecord.confidence_score e = 0
        /\ ErrorRecord.decay_reasons e
           = [ {| reasonType := error;
                  description := ("Analysis failed: " ++ message)%string;
                  sources := [] |} ]
  end.

(* ================================================================== *)
(** * A concrete platform

    An instance of what the services take from outside, on which they can
    be run: a clock, a square root, the methods of arrays, a TF-IDF, no
    embedding provider, a date format and the default maximum penalties. *)
(* ================================================================== *)

Module Demo.

(** A square root on the rationals: the integer square root after scaling
    by [10 ^ 16], hence exact on squares and otherwise truncated to eight
    decimals. *)
Definition sqrt (x : Q) : Q :=
  Z.sqrt (Qnum x * Zpos (Qden x) * 10000000000000000) # (Qden x * 100000000).

(** The words of a text: maximal runs of letters and digits. *)
Fixpoint tokens (l : list ascii) (cur : list ascii) : list string :=
  match l with
  | [] => match cur with [] => [] | _ => [Str.ofChars (rev cur)] end
  | c :: t =>
      if Str.isLower c || Str.isUpper c || Str.isDigit c then tokens t (c :: cur)
      else match cur with
           | [] => tokens t []
           | _ => Str.ofChars (rev cur) :: tokens t []
           end
  end.

Definition count (w : string) (ws : list string) : Z :=
  Z.of_nat (List.length (filter (String.eqb w) ws)).

(** Term frequency times the inverse document frequency of a corpus of
    one document, [1 + ln (1/2)], to three decimals. *)
Definition listTerms (text : string) : list (string * Q) :=
  let ws := tokens (Str.chars text) [] in
  map (fun w => (w, inject_Z (count w ws) * 0.307)) (dedupe ws).

Definition embedContent (text : option string) : option (list Q) := None.

(** The methods of [Array.prototype] as of ECMAScript 2023. *)
Definition arrayMethod (name : string) : bool :=
  existsb (String.eqb name)
    [ "at"; "concat"; "constructor"; "copyWithin"; "entries"; "every"; "fill"; "filter";
      "find"; "findIndex"; "findLast"; "findLastIndex"; "flat"; "flatMap"; "forEach";
      "includes"; "indexOf"; "join"; "keys"; "lastIndexOf"; "map"; "pop"; "push";
      "reduce"; "reduceRight"; "reverse"; "shift"; "slice"; "some"; "sort"; "splice";
      "toLocaleString"; "toReversed"; "toSorted"; "toSpliced"; "toString"; "unshift";
      "values"; "with" ]%string.

Definition toLocaleDateString (d : DateValue) : string :=
  match getTime d with
  | Some ms => ("day " ++ Str.ofZ (ms / msPerDay))%string
  | None => "Invalid Date"
  end.

(** The clock: 2024-10-04T00:00:00Z, day 20000 of the epoch. *)
Definition now : Z := (20000 * msPerDay)%Z.

Definition daysAgo (n : Z) : DateValue := DTime (now - n * msPerDay).

(** ** Documents *)

Local Open Scope string_scope.

(** A first version without embedding, versions or verification date. *)
Definition document (i t ty c : option string) (u : DateValue) : Document :=
  {| id := i; title := t; type := ty; content := c; currentVersion := Some 1%Z;
     updatedAt := u; lastVerifiedAt := DUndefined; embedding := None;
     versions := None |}.

(** The two documents of the batch of the engine's tests: a note written
    today, and a document that has an id and [content: null] only. *)
Definition goodDoc : Document :=
  document (Some "batch-3") (Some "Good Doc") (Some "Notes") (Some "Content") (DTime now).

Definition nullContentDoc : Document :=
  {| id := Some "batch-4"%string; title := None; type := None; content := None;
     currentVersion := None; updatedAt := DUndefined; lastVerifiedAt := DUndefined;
     embedding := None; versions := None |}.

(** A note that has its vector and, among its versions, a [null] entry. *)
Definition nullVersionDoc : Document :=
  {| id := Some "batch-5"%string; title := Some "Broken History"; type := Some "Notes";
     content := Some "Content"; currentVersion := Some 2%Z;
     updatedAt := DTime now; lastVerifiedAt := DUndefined;
     embedding := Some (Sparse [("content"%string, 307 # 1000)]);
     versions := Some [None] |}.

(** The verdict of a fresh document without related documents: the
    support penalty alone, and the reason and recommendation it brings. *)
Definition unsupportedVerdict (age : option Z) : Verdict :=
  {| decay_detected := true;
     confidence_score := 90 # 100;
     risk_level := low;
     decay_reasons :=
       [ {| reasonType := low_support;
            description := "No supporting documents found for cross-validation";
            sources := [] |} ];
     what_changed_summary := "Decay signals detected. Review recommended.";
     update_recommendations :=
       [ {| rec_section := "Verification Needed";
            rec_suggested_text :=
              ("[LOW SUPPORTING EVIDENCE] This document has limited supporting documentation. Consider:"
               ++ Str.nl ++ "- Adding references to related documents"
               ++ Str.nl ++ "- Cross-referencing with team leads"
               ++ Str.nl ++ "- Documenting sources for key claims")%string |} ];
     citations := [];
     _internal :=
       {| confidence_breakdown :=
            {| Score.starting_confidence := 1;
               Score.age_penalty := 0 # 1000;
               Score.contradiction_penalty := 0 # 1000;
               Score.drift_penalty := 0 # 1000;
               Score.support_penalty := 100 # 1000;
               Score.total_penalty := 100 # 1000;
               Score.final_confidence := 90 # 100 |};
          freshness_status := Freshness.fresh;
          freshness_age_days := age;
          internal_contradictions := [];
          drift_score := 0;
          drift_has_significant_drift := None |} |}.

(** An SOP updated exactly 40 days ago. *)
Definition sop40 : Document :=
  document (Some "sop-1") (Some "Release SOP") (Some "SOP")
           (Some "Every release follows the checklist.") (daysAgo 40).

(** The two documents of the contradiction of the detector's tests. *)
Definition subject5 : Document :=
  document (Some "doc-1") None None (Some (fiveMinutes ++ "."))%string jan1_2024.

Definition related15 : Document :=
  document (Some "doc-2") (Some "New Deployment Guide") None
           (Some (fifteenMinutes ++ "."))%string jun1_2024.

(** A document with two prior versions, newest first: the newer has the
    current content, the older shares no word with it. *)
Definition versioned : Document :=
  {| id := Some "doc-6"; title := Some "Versioned Doc"; type := Some "Spec";
     content := Some "alpha beta gamma"; currentVersion := Some 3%Z;
     updatedAt := DTime now; lastVerifiedAt := DUndefined; embedding := None;
     versions := None |}.

Definition version2 : VersionSnapshot :=
  {| versionNumber := Some 2%Z; versionContent := Some "alpha beta gamma"%string;
     versionEmbedding := None; summary := None |}.

Definition version1 : VersionSnapshot :=
  {| versionNumber := Some 1%Z; versionContent := Some "delta epsilon"%string;
     versionEmbedding := None; summary := None |}.

(** A pool of candidates for [versioned]: itself, a document that shares
    two of its three words, and one that shares none. *)
Definition pool : list Document :=
  [ versioned;
    document (Some "doc-7") (Some "Near") None (Some "alpha beta delta") (DTime now);
    document (Some "doc-8") (Some "Far") None (Some "epsilon zeta") (DTime now) ].

(** Penalties of which the age penalty has three decimals. *)
Definition params133 : Score.Params :=
  {| Score.agePenalty := 0.133; Score.contradictionPenalty := 0;
     Score.driftPenalty := 0; Score.supportingDocsCount := 3 |}.

End Demo.

(* ================================================================== *)
(** * The services *)
(* ================================================================== *)

Section Services.

(** ** What comes from outside the repository *)

(** The clock: [new Date()] in milliseconds since the epoch. *)
Variable now : Z.

(** [Math.sqrt], whose values are not rational in general. *)
Variable Math_sqrt : Q -> Q.

(** Whether a name is that of a method of [Array.prototype]; the list
    depends on the version of the platform. *)
Variable arrayMethod : string -> bool.

(** [tfidf.listTerms(0)] of the [natural] package after
    [tfidf.addDocument(text)] on a fresh instance: the terms of the text
    with their TF-IDF weights. *)
Variable listTerms : string -> list (string * Q).

(** [process.env.EMBEDDING_PROVIDER] *)
Variable EMBEDDING_PROVIDER : option string.

(** The Gemini client: [result.embedding.values] of
    [model.embedContent(text)], or [None] when getting the client or the
    call throws. *)
Variable embedContent : option string -> option (list Q).

(** [new Date(date).toLocaleDateString('en-US', ...)] *)
Variable toLocaleDateString : DateValue -> string.

(** The maximum penalties, [parseFloat(process.env.WEIGHT_...) || default]. *)
Variable MAX_AGE_PENALTY : Q.
Variable MAX_CONTRADICTION_PENALTY : Q.
Variable MAX_DRIFT_PENALTY : Q.
Variable MAX_SUPPORT_PENALTY : Q.

(** ** utils/textAnalysis.js *)

Definition generateTfIdfEmbedding (text : option string) : Embedding :=
  match text with
  | None => Sparse []
  | Some t =>
      if String.eqb t "" then Sparse []
      else
        let normalizedText := Str.toLowerCase t in
        Sparse (fold_left keepTerm (listTerms normalizedText) [])
  end.

(** [vec[term]]: the own property, or else what the prototype has under
    the name.  An object inherits the members of [Object.prototype]; an
    array has its length, inherits the methods of [Array.prototype] and of
    [Object.prototype], and its [__proto__] is [Array.prototype], an empty
    array, which is 0 in a product. *)
Definition getProp (e : Embedding) (term : string) : PropValue :=
  match ownProp e term with
  | Some v => PNumber v
  | None =>
      match e with
      | Sparse _ => if inherited term then PMember None else PUndefined
      | Dense values =>
          if isIndexName term then PUndefined
          else if String.eqb term "length"
          then PNumber (inject_Z (Z.of_nat (List.length values)))
          else if String.eqb term "__proto__" then PMember (Some 0)
          else if arrayMethod term || inherited term then PMember None
          else PUndefined
      end
  end.

(** One turn of the loop of [cosineSimilarity]; [None] is NaN: a product
    with an inherited function is NaN, and so are from then on the dot
    product and the norm of the vector that inherits it. *)
Definition cosineStep (vec1 vec2 : Embedding) (acc : option Sums) (term : string)
    : option Sums :=
  let v1 := orZero (getProp vec1 term) in
  let v2 := orZero (getProp vec2 term) in
  match acc, toNumber v1, toNumber v2 with
  | Some s, Some x, Some y => Some (addTerm s x y)
  | _, _, _ => None
  end.

Definition cosineSums (vec1 vec2 : Embedding) : option Sums :=
  let allTerms := dedupe (Object_keys vec1 ++ Object_keys vec2) in
  fold_left (cosineStep vec1 vec2) allTerms (Some zeroSums).

(** [cosineSimilarity(vec1, vec2)]; [None] is NaN, which is what the
    magnitude and the quotient are when a sum is NaN. *)
Definition cosineSimilarity (vec1 vec2 : option Embedding) : option Q :=
  match vec1, vec2 with
  | Some v1, Some v2 =>
      match Object_keys v1, Object_keys v2 with
      | [], _ | _, [] => Some 0
      | _, _ =>
          match cosineSums v1 v2 with
          | Some s =>
              let magnitude := Math_sqrt (norm1 s) * Math_sqrt (norm2 s) in
              if Num.eqb magnitude 0 then Some 0
              else Some (Num.round3 (dotProduct s / magnitude))
          | None => None
          end
      end
  | _, _ => Some 0
  end.

(** The loop over the negation patterns; it returns at the first pattern
    whose two sides are found in statements that are similar enough.  A
    similarity that is NaN is above no bound. *)
Fixpoint negationCheck (patterns : list NegationPattern) (s1 s2 : string)
    : option Statement.result :=
  match patterns with
  | [] => None
  | pattern :: others =>
      if opposed pattern s1 s2 then
        let vec1 := generateTfIdfEmbedding (Some s1) in
        let vec2 := generateTfIdfEmbedding (Some s2) in
        match cosineSimilarity (Some vec1) (Some vec2) with
        | Some similarity =>
            if (similarity >? 0.3)%Q
            then Some {| Statement.isContradiction := true;
                         Statement.score := similarity;
                         Statement.reason := Some "Contradicting requirements detected"%string |}
            else negationCheck others s1 s2
        | None => negationCheck others s1 s2
        end
      else negationCheck others s1 s2
  end.

(** The inner loop over the numbers of the second statement. *)
Fixpoint numericInner (s1 s2 : string) (n1 : found) (nums2 : list found)
    : option Statement.result :=
  match nums2 with
  | [] => None
  | n2 :: others =>
      if String.eqb (singular (unitText n1)) (singular (unitText n2))
         && negb (String.eqb (numText n1) (numText n2))
      then
        let vec1 := generateTfIdfEmbedding (Some (removeAll true numPattern s1)) in
        let vec2 := generateTfIdfEmbedding (Some (removeAll true numPattern s2)) in
        match cosineSimilarity (Some vec1) (Some vec2) with
        | Some similarity =>
            if (similarity >? 0.4)%Q
            then Some {| Statement.isContradiction := true;
                         Statement.score := similarity;
                         Statement.reason :=
                           Some ("Numerical conflict: " ++ numText n1 ++ " " ++ unitText n1
                                 ++ " vs " ++ numText n2 ++ " " ++ unitText n2)%string |}
            else numericInner s1 s2 n1 others
        | None => numericInner s1 s2 n1 others
        end
      else numericInner s1 s2 n1 others
  end.

Fixpoint numericCheck (s1 s2 : string) (nums1 nums2 : list found)
    : option Statement.result :=
  match nums1 with
  | [] => None
  | n1 :: others =>
      match numericInner s1 s2 n1 nums2 with
      | Some res => Some res
      | None => numericCheck s1 s2 others nums2
      end
  end.

Definition detectStatementContradiction (stmt1 stmt2 : string) : Statement.result :=
  let s1 := Str.toLowerCase stmt1 in
  let s2 := Str.toLowerCase stmt2 in
  match negationCheck negationPatterns s1 s2 with
  | Some res => res
  | None =>
      let nums1 := matchAll true numPattern s1 in
      let nums2 := matchAll true numPattern s2 in
      match numericCheck s1 s2 nums1 nums2 with
      | Some res => res
      | None => {| Statement.isContradiction := false;
                   Statement.score := 0;
                   Statement.reason := None |}
      end
  end.

(** [calculateSemanticDifference(text1, text2)]; [None] is NaN. *)
Definition calculateSemanticDifference (text1 text2 : option string) : option Q :=
  let vec1 := generateTfIdfEmbedding text1 in
  let vec2 := generateTfIdfEmbedding text2 in
  match cosineSimilarity (Some vec1) (Some vec2) with
  | Some similarity => Some (Num.round3 (1 - similarity))
  | None => None
  end.

(** ** utils/vectorUtils.js *)

(** [process.env.EMBEDDING_PROVIDER || 'tfidf'] *)
Definition providerName : string :=
  if Str.truthy EMBEDDING_PROVIDER then Str.interp EMBEDDING_PROVIDER else "tfidf"%string.

Definition getEmbedding (text : option string) : Result Embedding :=
  let provider := providerName in
  if String.eqb provider "tfidf" then Ok (generateTfIdfEmbedding text)
  else if String.eqb provider "gemini" then
    match embedContent text with
    | Some values => Ok (Dense values)
    | None => Ok (generateTfIdfEmbedding text)
    end
  else if String.eqb provider "openai" then
    Throw "OpenAI embeddings deprecated. Use EMBEDDING_PROVIDER=gemini"
  else Throw ("Unknown embedding provider: " ++ provider).

(** The loop of the dense branch of [calculateSimilarity]; [None] is NaN,
    which an index missing from [emb2] produces. *)
Fixpoint denseSums (emb1 : list Q) (emb2 : Embedding) (i : nat) (acc : option Sums)
    : option Sums :=
  match emb1 with
  | [] => acc
  | x :: rest =>
      let acc' :=
        match acc, toNumber (getProp emb2 (Str.ofZ (Z.of_nat i))) with
        | Some s, Some y => Some (addTerm s x y)
        | _, _ => None
        end in
      denseSums rest emb2 (S i) acc'
  end.

(** [calculateSimilarity]; [None] is NaN. *)
Definition calculateSimilarity (emb1 emb2 : Embedding) : option Q :=
  match emb1 with
  | Sparse _ => cosineSimilarity (Some emb1) (Some emb2)
  | Dense a1 =>
      match denseSums a1 emb2 0 (Some zeroSums) with
      | Some s =>
          let magnitude := Math_sqrt (norm1 s) * Math_sqrt (norm2 s) in
          Some (if Num.eqb magnitude 0 then 0 else dotProduct s / magnitude)
      | None => None
      end
  end.

(** [checkEmbeddingHealth()]: the report on the configured provider. *)
Definition checkEmbeddingHealth : Health.result :=
  let provider := providerName in
  match getEmbedding (Some "health check test"%string) with
  | Ok testEmbed =>
      {| Health.provider := provider;
         Health.status := Health.healthy;
         Health.embeddingType :=
           Some (match testEmbed with
                 | Dense _ => Health.dense
                 | Sparse _ => Health.sparse
                 end);
         Health.error := None |}
  | Throw message =>
      {| Health.provider := provider;
         Health.status := Health.in_error;
         Health.embeddingType := None;
         Health.error := Some message |}
  end.

(** ** services/freshnessEvaluator.js *)

Definition thresholdsOf (w c : Z) : Freshness.Thresholds :=
  {| Freshness.warning_days := Some w; Freshness.critical_days := Some c |}.

(** A member of [Object.prototype] in the place of an entry of the table:
    it is truthy and has neither [warning] nor [critical]. *)
Definition memberThresholds : Freshness.Thresholds :=
  {| Freshness.warning_days := None; Freshness.critical_days := None |}.

(** [DECAY_THRESHOLDS[type] || DECAY_THRESHOLDS.Notes]: the entry of the
    table for one of its five types; for a type that names a member of
    [Object.prototype], that member; the entry of Notes otherwise. *)
Definition getThresholds (type : option string) : Freshness.Thresholds :=
  match type with
  | Some t =>
      if String.eqb t "SOP" then thresholdsOf 30 90
      else if String.eqb t "Policy" then thresholdsOf 60 180
      else if String.eqb t "Guide" then thresholdsOf 90 365
      else if String.eqb t "Spec" then thresholdsOf 45 120
      else if inherited t then memberThresholds
      else thresholdsOf 180 365
  | None => thresholdsOf 180 365
  end.

(** [Math.floor((now - new Date(updatedAt)) / msPerDay)]; [None] is NaN. *)
Definition calculateAgeDays (updatedAt : DateValue) : option Z :=
  match getTime updatedAt with
  | Some updated => Some ((now - updated) / msPerDay)%Z
  | None => None
  end.

(** [ageDays >= threshold], false on NaN and on [undefined]. *)
Definition ageAtLeast (ageDays : option Z) (threshold : option Z) : bool :=
  match ageDays, threshold with
  | Some a, Some t => (t <=? a)%Z
  | _, _ => false
  end.

(** A threshold in the branch that it opens, where it is a number. *)
Definition daysOf (threshold : option Z) : Z :=
  match threshold with Some t => t | None => 0%Z end.

Definition showDays (threshold : option Z) : string :=
  match threshold with Some t => Str.ofZ t | None => "undefined" end.

Definition showAge (ageDays : option Z) : string :=
  match ageDays with Some a => Str.ofZ a | None => "NaN" end.

Definition ageQ (ageDays : option Z) : Q :=
  match ageDays with Some a => inject_Z a | None => 0 end.

Definition evaluateFreshness (document : Document) : Freshness.result :=
  let thresholds := getThresholds (type document) in
  let referenceDate := dateOr (lastVerifiedAt document) (updatedAt document) in
  let ageDays := calculateAgeDays referenceDate in
  let critical := Freshness.critical_days thresholds in
  let warning := Freshness.warning_days thresholds in
  if ageAtLeast ageDays critical then
    {| Freshness.status := Freshness.critical;
       Freshness.ageDays := ageDays;
       Freshness.thresholds := thresholds;
       Freshness.penalty := Num.round3 0.3;
       Freshness.decayReason :=
         Some {| reasonType := time;
                 description :=
                   ("Document last updated " ++ showAge ageDays ++ " days ago ("
                    ++ Str.interp (type document) ++ " critical threshold: "
                    ++ showDays critical ++ " days)")%string;
                 sources := [] |} |}
  else if ageAtLeast ageDays warning then
    let range := inject_Z (daysOf critical - daysOf warning) in
    let overWarning := ageQ ageDays - inject_Z (daysOf warning) in
    {| Freshness.status := Freshness.warning;
       Freshness.ageDays := ageDays;
       Freshness.thresholds := thresholds;
       Freshness.penalty := Num.round3 (0.1 + 0.2 * (overWarning / range));
       Freshness.decayReason :=
         Some {| reasonType := time;
                 description :=
                   ("Document last updated " ++ showAge ageDays ++ " days ago ("
                    ++ Str.interp (type document) ++ " warning threshold: "
                    ++ showDays warning ++ " days)")%string;
                 sources := [] |} |}
  else
    {| Freshness.status := Freshness.fresh;
       Freshness.ageDays := ageDays;
       Freshness.thresholds := thresholds;
       Freshness.penalty := Num.round3 0;
       Freshness.decayReason := None |}.

(** ** services/confidenceScorer.js *)

(** The body of [calculateConfidence] with its last rounding step,
    [Math.round(confidence * 100) / 100], as a parameter. *)
Definition calculateConfidenceWith (finalRounding : Q -> Q) (params : Score.Params)
    : Score.result :=
  let confidence := 1 in
  let appliedAgePenalty := Num.Math_min (Score.agePenalty params) MAX_AGE_PENALTY in
  let confidence := confidence - appliedAgePenalty in
  let appliedContradictionPenalty :=
    Num.Math_min (Score.contradictionPenalty params) MAX_CONTRADICTION_PENALTY in
  let confidence := confidence - appliedContradictionPenalty in
  let appliedDriftPenalty := Num.Math_min (Score.driftPenalty params) MAX_DRIFT_PENALTY in
  let confidence := confidence - appliedDriftPenalty in
  let appliedSupportPenalty :=
    if Num.eqb (Score.supportingDocsCount params) 0 then MAX_SUPPORT_PENALTY
    else if (Score.supportingDocsCount params <? 3)%Q
         then MAX_SUPPORT_PENALTY * (1 - Score.supportingDocsCount params / 3)
         else 0 in
  let confidence := confidence - appliedSupportPenalty in
  let confidence := Num.Math_max 0 (Num.Math_min 1 confidence) in
  let confidence := finalRounding confidence in
  {| Score.confidence := confidence;
     Score.breakdown :=
       {| Score.starting_confidence := 1;
          Score.age_penalty := Num.round3 appliedAgePenalty;
          Score.contradiction_penalty := Num.round3 appliedContradictionPenalty;
          Score.drift_penalty := Num.round3 appliedDriftPenalty;
          Score.support_penalty := Num.round3 appliedSupportPenalty;
          Score.total_penalty := Num.round3 (1 - confidence);
          Score.final_confidence := confidence |} |}.

Definition calculateConfidence (params : Score.Params) : Score.result :=
  calculateConfidenceWith Num.round2 params.

Definition truthyFlag (b : option bool) : bool :=
  match b with Some true => true | _ => false end.

Definition isCritical (s : Freshness.Status) : bool :=
  match s with Freshness.critical => true | _ => false end.

Definition determineRiskLevel (confidence : Q) (signals : Score.Signals) : RiskLevel :=
  if Score.hasContradictions signals || (confidence <? 0.4)%Q then high
  else if truthyFlag (Score.hasSignificantDrift signals)
          || isCritical (Score.freshnessStatus signals)
          || (confidence <? 0.7)%Q
  then medium
  else low.

Definition isLow (r : RiskLevel) : bool :=
  match r with low => true | _ => false end.

Definition shouldFlagDecay (confidence : Q) (riskLevel : RiskLevel) : bool :=
  (confidence <? 1)%Q || negb (isLow riskLevel).

(** ** services/contradictionDetector.js *)

(** [typeRank[type] || 1]: the rank of the table for one of its five
    types; for a type that names a member of [Object.prototype], that
    member; 1 otherwise. *)
Definition typeRank (type : option string) : Rank :=
  match type with
  | Some t =>
      if String.eqb t "SOP" then RankNumber 5
      else if String.eqb t "Policy" then RankNumber 4
      else if String.eqb t "Spec" then RankNumber 3
      else if String.eqb t "Guide" then RankNumber 2
      else if String.eqb t "Notes" then RankNumber 1
      else if inherited t then RankMember (memberSource t)
      else RankNumber 1
  | None => RankNumber 1
  end.

Definition isMoreAuthoritative (doc1 doc2 : Document) : bool :=
  rankGt (typeRank (type doc1)) (typeRank (type doc2)).

Definition isHigh (s : Contradictions.Severity) : bool :=
  match s with Contradictions.sev_high => true | _ => false end.
Definition isMedium (s : Contradictions.Severity) : bool :=
  match s with Contradictions.sev_medium => true | _ => false end.

Definition countQ {A : Type} (l : list A) : Q := inject_Z (Z.of_nat (List.length l)).

Definition calculateContradictionPenalty (contradictions : list Contradictions.Contradiction)
    : Q :=
  match contradictions with
  | [] => 0
  | _ =>
      let highSeverity :=
        countQ (filter (fun c => isHigh (Contradictions.severity c)) contradictions) in
      let mediumSeverity :=
        countQ (filter (fun c => isMedium (Contradictions.severity c)) contradictions) in
      let penalty := highSeverity * 0.15 + mediumSeverity * 0.08 in
      Num.Math_min 0.4 (Num.round3 penalty)
  end.

Definition truncate (text : string) (maxLen : nat) : string :=
  if (String.length text <=? maxLen)%nat then text
  else (Str.prefix (maxLen - 3) text ++ "...")%string.

(** The two inner loops of [detectContradictions] for one related document:
    the contradictions it contributes, in discovery order. *)
Definition contradictionsWith (document relatedDoc : Document) (docStatements : list string)
    : list Contradictions.Contradiction :=
  let relatedStatements := extractKeyStatements (content relatedDoc) in
  flat_map
    (fun stmt1 =>
       flat_map
         (fun stmt2 =>
            let result := detectStatementContradiction stmt1 stmt2 in
            if Statement.isContradiction result then
              [ {| Contradictions.thisDocument :=
                     {| Contradictions.statement := stmt1;
                        Contradictions.documentId := id document;
                        Contradictions.documentTitle := None |};
                   Contradictions.conflictsWith :=
                     {| Contradictions.statement := stmt2;
                        Contradictions.documentId := id relatedDoc;
                        Contradictions.documentTitle := title relatedDoc |};
                   Contradictions.severity :=
                     if (Statement.score result >? 0.6)%Q
                     then Contradictions.sev_high else Contradictions.sev_medium;
                   Contradictions.reason := Statement.reason result |} ]
            else [])
         relatedStatements)
    docStatements.

Definition contradictionReason (c : Contradictions.Contradiction) : DecayReason :=
  {| reasonType := contradiction;
     description :=
       (Str.dquote
        ++ truncate (Contradictions.statement (Contradictions.thisDocument c)) 60
        ++ Str.dquote ++ " conflicts with " ++ Str.dquote
        ++ truncate (Contradictions.statement (Contradictions.conflictsWith c)) 60
        ++ Str.dquote ++ " in " ++ Str.dquote
        ++ Str.interp (Contradictions.documentTitle (Contradictions.conflictsWith c))
        ++ Str.dquote)%string;
     sources := [Contradictions.documentId (Contradictions.conflictsWith c)] |}.

Definition detectContradictions (document : Document) (relatedDocs : list Document)
    : Contradictions.result :=
  match relatedDocs with
  | [] =>
      {| Contradictions.hasContradictions := false;
         Contradictions.contradictions := [];
         Contradictions.penalty := 0;
         Contradictions.decayReasons := None |}
  | _ =>
      let docStatements := extractKeyStatements (content document) in
      let contradictions :=
        flat_map
          (fun relatedDoc =>
             if dateLt (updatedAt relatedDoc) (updatedAt document)
                && negb (isMoreAuthoritative relatedDoc document)
             then []
             else contradictionsWith document relatedDoc docStatements)
          relatedDocs in
      let penalty := calculateContradictionPenalty contradictions in
      let decayReasons := map contradictionReason contradictions in
      {| Contradictions.hasContradictions := (0 <? List.length contradictions)%nat;
         Contradictions.contradictions := contradictions;
         Contradictions.penalty := penalty;
         Contradictions.decayReasons := Some decayReasons |}
  end.

(** A stable sort by similarity, highest first:
    [list.sort((a, b) => b.similarity - a.similarity)]. *)
Fixpoint insertBySimilarity (x : RelatedDocument) (l : list RelatedDocument)
    : list RelatedDocument :=
  match l with
  | [] => [x]
  | y :: rest =>
      if (similarity y >? similarity x)%Q
      then y :: insertBySimilarity x rest
      else x :: y :: rest
  end.

Fixpoint sortBySimilarity (l : list RelatedDocument) : list RelatedDocument :=
  match l with
  | [] => []
  | x :: rest => insertBySimilarity x (sortBySimilarity rest)
  end.

(** [a.id === b.id] *)
Definition sameId (a b : option string) : bool :=
  match a, b with
  | Some x, Some y => String.eqb x y
  | None, None => true
  | _, _ => false
  end.

Definition embeddingOr (d : Document) : Embedding :=
  match embedding d with
  | Some e => e
  | None => generateTfIdfEmbedding (content d)
  end.

(** [{ ...d, similarity: cosineSimilarity(docEmbedding, d.embedding || ...) }]:
    a candidate with its similarity, which may be NaN ([None]). *)
Definition withSimilarity (docEmbedding : Embedding) (d : Document)
    : Document * option Q :=
  (d, cosineSimilarity (Some docEmbedding) (Some (embeddingOr d))).

(** [.filter(d => d.similarity >= threshold)] on one candidate: it is kept
    when its similarity is a number at or above the threshold. *)
Definition keepSimilar (threshold : Q) (c : Document * option Q) : list RelatedDocument :=
  match snd c with
  | Some s => if (s >=? threshold)%Q then [ {| doc := fst c; similarity := s |} ] else []
  | None => []
  end.

Definition findRelatedDocuments (document : Document) (allDocs : list Document)
    (threshold : Q) : list RelatedDocument :=
  let docEmbedding := embeddingOr document in
  sortBySimilarity
    (flat_map (keepSimilar threshold)
       (map (withSimilarity docEmbedding)
          (filter (fun d => negb (sameId (id d) (id document))) allDocs))).

(** The default of the third parameter. *)
Definition defaultThreshold : Q := 0.3.

(** ** services/versionDriftAnalyzer.js *)

Definition SIGNIFICANT_DRIFT_THRESHOLD : Q := 0.4.
Definition MODERATE_DRIFT_THRESHOLD : Q := 0.25.

Definition showVersion (v : option Z) : string :=
  match v with Some n => Str.ofZ n | None => "undefined" end.

(** The message of the TypeError raised by reading a property of [null]. *)
Definition nullPropertyError (property : string) : string :=
  ("Cannot read properties of null (reading '" ++ property ++ "')")%string.

(** The state of the loop over the versions. *)
Record DriftLoop : Type := { loopChanges : list Drift.Change; maxDrift : Q }.

(** One turn of the loop.  A drift that is NaN fails both comparisons,
    [drift > maxDrift] and [drift >= MODERATE_DRIFT_THRESHOLD], and leaves
    the state as it is. *)
Definition driftStep (document : Document) (st : DriftLoop) (version : VersionSnapshot)
    : DriftLoop :=
  match calculateSemanticDifference (content document) (versionContent version) with
  | Some drift =>
      let maxDrift' := if (drift >? maxDrift st)%Q then drift else maxDrift st in
      let changes' :=
        if (drift >=? MODERATE_DRIFT_THRESHOLD)%Q
        then loopChanges st ++
             [ {| Drift.fromVersion := versionNumber version;
                  Drift.toVersion := currentVersion document;
                  Drift.changeScore := drift;
                  Drift.severity :=
                    if (drift >=? SIGNIFICANT_DRIFT_THRESHOLD)%Q
                    then Drift.significant else Drift.moderate;
                  Drift.changeSummary :=
                    if Str.truthy (summary version) then Str.interp (summary version)
                    else ("Version " ++ showVersion (versionNumber version))%string |} ]
        else loopChanges st in
      {| loopChanges := changes'; maxDrift := maxDrift' |}
  | None => st
  end.

(** [for (const version of versions)]: a [null] entry throws when its
    [embedding] is read. *)
Fixpoint driftLoop (document : Document) (versions : list (option VersionSnapshot))
    (st : DriftLoop) : Result DriftLoop :=
  match versions with
  | [] => Ok st
  | None :: _ => Throw (nullPropertyError "embedding")
  | Some version :: rest => driftLoop document rest (driftStep document st version)
  end.

Definition isSignificant (c : Drift.Change) : bool :=
  match Drift.severity c with Drift.significant => true | _ => false end.

Definition driftReason (mostRecent : Drift.Change) : DecayReason :=
  {| reasonType := version_drift;
     description :=
       ("Significant semantic change detected from version "
        ++ showVersion (Drift.fromVersion mostRecent) ++ " to "
        ++ showVersion (Drift.toVersion mostRecent) ++ " (drift score: "
        ++ Str.ofThousandths (Num.Math_round (Drift.changeScore mostRecent * 1000))
        ++ ")")%string;
     sources := [] |}.

Definition analyzeVersionDrift (document : Document)
    (versions : list (option VersionSnapshot)) : Result Drift.result :=
  match versions with
  | [] =>
      Ok {| Drift.hasDrift := false;
            Drift.hasSignificantDrift := None;
            Drift.driftScore := 0;
            Drift.penalty := 0;
            Drift.changes := [];
            Drift.decayReason := None |}
  | _ =>
      st <- driftLoop document versions {| loopChanges := []; maxDrift := 0 |} ;;
      let changes := loopChanges st in
      let maxDrift := maxDrift st in
      let significantChanges := filter isSignificant changes in
      let hasSignificantDrift := (0 <? List.length significantChanges)%nat in
      let penalty :=
        if (maxDrift >=? SIGNIFICANT_DRIFT_THRESHOLD)%Q then 0.2
        else if (maxDrift >=? MODERATE_DRIFT_THRESHOLD)%Q then 0.1
        else 0 in
      let decayReason :=
        match significantChanges with
        | mostRecent :: _ => Some (driftReason mostRecent)
        | [] => None
        end in
      Ok {| Drift.hasDrift := (maxDrift >=? MODERATE_DRIFT_THRESHOLD)%Q;
            Drift.hasSignificantDrift := Some hasSignificantDrift;
            Drift.driftScore := Num.round3 maxDrift;
            Drift.penalty := Num.round3 penalty;
            Drift.changes := changes;
            Drift.decayReason := decayReason |}
  end.




(** [shouldMarkAsHistorical(currentDoc, version)], for a version that is an
    object. *)
Definition shouldMarkAsHistorical (currentDoc : Document) (version : VersionSnapshot)
    : bool :=
  let drift := calculateSemanticDifference (content currentDoc) (versionContent version) in
  Num.geNaN drift SIGNIFICANT_DRIFT_THRESHOLD.

(** ** services/updateGenerator.js *)

(** [/(\d+)\s*days?\s*ago/i]: digits (group 1), white space, [day] or
    [days], white space, [ago]. *)
Definition daysAgoPattern : regex :=
  Seq (Grp 1 (Plus digit))
      (Seq (Star space)
           (Seq (Lit "day") (Seq (Opt (Chr "s")) (Seq (Star space) (Lit "ago"))))).

Definition extractDays (description : string) : string :=
  match exec true daysAgoPattern description with
  | Some m => match group 1 m with Some s => s | None => "N" end
  | None => "N"
  end.

(** A quoted, non-empty run of characters other than the quote (group 1). *)
Definition quotedPattern : regex :=
  Seq (Chr "034") (Seq (Grp 1 (Plus (Cls (fun c => negb (Ascii.eqb c "034"))))) (Chr "034")).

Definition extractSection (description : string) : string :=
  match exec false quotedPattern description with
  | Some m => match group 1 m with Some s => Str.prefix 50 s | None => "Conflicting Section" end
  | None => "Conflicting Section"
  end.

Definition formatDate (date : DateValue) : string := toLocaleDateString date.

Definition generateTimeBasedUpdate (document : Document) (reason : DecayReason)
    : Update.Recommendation :=
  {| Update.section := "Document Review Required";
     Update.suggested_text :=
       ("[REVIEW NEEDED] This " ++ Str.interp (type document) ++ " was last updated "
        ++ extractDays (description reason)
        ++ " days ago. Please verify that all information is still current and accurate. Key areas to check:"
        ++ Str.nl ++ "- Process steps and procedures"
        ++ Str.nl ++ "- Referenced tools and versions"
        ++ Str.nl ++ "- Contact information and responsible parties"
        ++ Str.nl ++ "- Compliance requirements")%string;
     Update.reason := description reason;
     Update.priority := Update.prio_medium |}.

(** [sources.includes(id)] *)
Definition includesId (sources : list (option string)) (i : option string) : bool :=
  existsb (fun s => sameId s i) sources.

Definition generateContradictionUpdate (document : Document) (reason : DecayReason)
    (newerDocs : list Document) : Update.Recommendation :=
  let conflictingDoc := find (fun d => includesId (sources reason) (id d)) newerDocs in
  let suggestedText :=
    match conflictingDoc with
    | Some c =>
        ("[CONFLICT DETECTED] "
         ++ "This section may conflict with " ++ Str.dquote ++ Str.interp (title c)
         ++ Str.dquote ++ " (updated " ++ formatDate (updatedAt c) ++ "). "
         ++ "Please reconcile the following difference:" ++ Str.nl ++ Str.nl
         ++ "Current document states different information than the newer source. "
         ++ "Consider updating to align with the latest guidance.")%string
    | None =>
        ("[CONFLICT DETECTED] "
         ++ "A conflicting statement was detected. Please review and update as needed.")%string
    end in
  {| Update.section := extractSection (description reason);
     Update.suggested_text := suggestedText;
     Update.reason := description reason;
     Update.priority := Update.prio_high |}.

Definition generateDriftUpdate (document : Document) (reason : DecayReason)
    : Update.Recommendation :=
  {| Update.section := "Version History Note";
     Update.suggested_text :=
       ("[SIGNIFICANT CHANGES] This document has undergone substantial revisions. Previous versions may contain outdated information and should be considered historical reference only. Current version (v"
        ++ showVersion (currentVersion document) ++ ") is the authoritative source.")%string;
     Update.reason := description reason;
     Update.priority := Update.prio_low |}.

Definition generateSupportUpdate (document : Document) (reason : DecayReason)
    : Update.Recommendation :=
  {| Update.section := "Verification Needed";
     Update.suggested_text :=
       ("[LOW SUPPORTING EVIDENCE] This document has limited supporting documentation. Consider:"
        ++ Str.nl ++ "- Adding references to related documents"
        ++ Str.nl ++ "- Cross-referencing with team leads"
        ++ Str.nl ++ "- Documenting sources for key claims")%string;
     Update.reason := description reason;
     Update.priority := Update.prio_medium |}.

Definition hasType (t : ReasonType) (r : DecayReason) : bool :=
  match t, reasonType r with
  | time, time | contradiction, contradiction | version_drift, version_drift
  | low_support, low_support | error, error => true
  | _, _ => false
  end.

(** [titles.join(', ')]: an absent title is joined as the empty string. *)
Definition joinedTitle (t : option string) : string :=
  match t with Some s => s | None => "" end.

Definition generateWhatChangedSummary (decayReasons : list DecayReason)
    (newerDocs : list Document) : string :=
  match decayReasons with
  | [] => "No significant changes detected."
  | _ =>
      let hasTime := existsb (hasType time) decayReasons in
      let hasContradiction := existsb (hasType contradiction) decayReasons in
      let hasDrift := existsb (hasType version_drift) decayReasons in
      let parts1 :=
        if hasTime
        then ["The document has not been reviewed recently and may contain outdated information."%string]
        else [] in
      let parts2 :=
        if hasContradiction then
          let contradictions := filter (hasType contradiction) decayReasons in
          let docTitles :=
            map (fun d => joinedTitle (title d))
                (filter (fun d => existsb (fun c => includesId (sources c) (id d)) contradictions)
                        newerDocs) in
          match docTitles with
          | [] => ["Conflicting information was detected in related documents."%string]
          | _ => [("Conflicting information was found in: " ++ Str.join ", " docTitles ++ ".")%string]
          end
        else [] in
      let parts3 :=
        if hasDrift
        then ["Significant semantic changes were made in recent versions."%string]
        else [] in
      let joined := Str.join " " (parts1 ++ parts2 ++ parts3) in
      if String.eqb joined "" then "Decay signals detected. Review recommended."%string
      else joined
  end.

Definition generateUpdateRecommendations (document : Document)
    (decayReasons : list DecayReason) (newerDocs : list Document) : Update.result :=
  let recommendations :=
    flat_map
      (fun reason =>
         match reasonType reason with
         | time => [generateTimeBasedUpdate document reason]
         | contradiction => [generateContradictionUpdate document reason newerDocs]
         | version_drift => [generateDriftUpdate document reason]
         | low_support => [generateSupportUpdate document reason]
         | error => []
         end)
      decayReasons in
  {| Update.recommendations := recommendations;
     Update.whatChangedSummary := generateWhatChangedSummary decayReasons newerDocs |}.

(** ** services/decayEngine.js *)

(** [[...new Set(ids)].filter(Boolean)] *)
Fixpoint dedupeIds (l : list (option string)) : list (option string) :=
  match l with
  | [] => []
  | x :: t => x :: filter (fun y => negb (sameId x y)) (dedupeIds t)
  end.

Definition truthyIds (l : list (option string)) : list string :=
  flat_map (fun x => if Str.truthy x then [Str.interp x] else []) l.

(** The first step of [analyzeDocument]: the one assignment of the engine,
    [document.embedding = await getEmbedding(document.content)]. *)
Definition ensureEmbedding (document : Document) : Result Document :=
  match embedding document with
  | Some _ => Ok document
  | None =>
      e <- getEmbedding (content document) ;;
      Ok (setEmbedding document e)
  end.

(** Step 2 of [analyzeDocument]: the related documents supplied, or those
    found in the pool when none is supplied. *)
Definition relatedOrDiscovered (document : Document) (relatedDocs allDocs : list Document)
    : list Document :=
  match relatedDocs, allDocs with
  | [], _ :: _ => map doc (findRelatedDocuments document allDocs defaultThreshold)
  | _, _ => relatedDocs
  end.

(** Steps 4 to 10 of [analyzeDocument]: the verdict assembled from the
    results of the three detectors. *)
Definition assembleVerdict (document : Document) (relatedDocs : list Document)
    (freshnessResult : Freshness.result) (contradictionResult : Contradictions.result)
    (driftResult : Drift.result) : Verdict :=
  let scored :=
    calculateConfidence
      {| Score.agePenalty := Freshness.penalty freshnessResult;
         Score.contradictionPenalty := Contradictions.penalty contradictionResult;
         Score.driftPenalty := Drift.penalty driftResult;
         Score.supportingDocsCount := countQ relatedDocs |} in
  let confidence := Score.confidence scored in
  let breakdown := Score.breakdown scored in
  let riskLevel :=
    determineRiskLevel confidence
      {| Score.hasContradictions := Contradictions.hasContradictions contradictionResult;
         Score.hasSignificantDrift := Drift.hasSignificantDrift driftResult;
         Score.freshnessStatus := Freshness.status freshnessResult |} in
  let decayReasons :=
    (match Freshness.decayReason freshnessResult with Some r => [r] | None => [] end)
    ++ (match Contradictions.decayReasons contradictionResult with Some rs => rs | None => [] end)
    ++ (match Drift.decayReason driftResult with Some r => [r] | None => [] end)
    ++ (match relatedDocs with
        | [] => if (Score.support_penalty breakdown >? 0)%Q
                then [ {| reasonType := low_support;
                          description := "No supporting documents found for cross-validation";
                          sources := [] |} ]
                else []
        | _ => []
        end) in
  let decayDetected := shouldFlagDecay confidence riskLevel in
  let updateResult :=
    if decayDetected
    then generateUpdateRecommendations document decayReasons
           (filter (fun d => dateGt (updatedAt d) (updatedAt document)) relatedDocs)
    else {| Update.recommendations := [];
            Update.whatChangedSummary := "No decay signals detected." |} in
  let citations :=
    truthyIds (dedupeIds (flat_map sources decayReasons ++ map id relatedDocs)) in
  {| decay_detected := decayDetected;
     confidence_score := confidence;
     risk_level := riskLevel;
     decay_reasons := decayReasons;
     what_changed_summary := Update.whatChangedSummary updateResult;
     update_recommendations :=
       map (fun r => {| rec_section := Update.section r;
                        rec_suggested_text := Update.suggested_text r |})
           (Update.recommendations updateResult);
     citations := citations;
     _internal :=
       {| confidence_breakdown := breakdown;
          freshness_status := Freshness.status freshnessResult;
          freshness_age_days := Freshness.ageDays freshnessResult;
          internal_contradictions := Contradictions.contradictions contradictionResult;
          drift_score := Drift.driftScore driftResult;
          drift_has_significant_drift := Drift.hasSignificantDrift driftResult |} |}.

(** The rest of [analyzeDocument] after its first step; it reads its
    arguments only. *)
Definition analyzeWithEmbedding (document : Document)
    (versions : list (option VersionSnapshot)) (relatedDocs allDocs : list Document)
    : Result Verdict :=
  let relatedDocs := relatedOrDiscovered document relatedDocs allDocs in
  let freshnessResult := evaluateFreshness document in
  let contradictionResult := detectContradictions document relatedDocs in
  driftResult <- analyzeVersionDrift document versions ;;
  Ok (assembleVerdict document relatedDocs freshnessResult contradictionResult driftResult).

(** [analyzeDocument({ document, versions, relatedDocs, allDocs })]: what
    the call returns or throws, and the document object after the call. *)
Definition analyzeDocument (document : Document)
    (versions : list (option VersionSnapshot)) (relatedDocs allDocs : list Document)
    : Result Verdict * Document :=
  match ensureEmbedding document with
  | Throw message => (Throw message, document)
  | Ok document' => (analyzeWithEmbedding document' versions relatedDocs allDocs, document')
  end.

Definition errorRecord (document : Document) (message : string) : ErrorRecord.t :=
  {| ErrorRecord.documentId := id document;
     ErrorRecord.documentTitle := title document;
     ErrorRecord.error := message;
     ErrorRecord.decay_detected := false;
     ErrorRecord.confidence_score := 0;
     ErrorRecord.risk_level := high;
     ErrorRecord.decay_reasons :=
       [ {| reasonType := error;
            description := ("Analysis failed: " ++ message)%string;
            sources := [] |} ] |}.

(** [document.versions || []] *)
Definition versionsOf (document : Document) : list (option VersionSnapshot) :=
  match versions document with Some vs => vs | None => [] end.

(** One turn of the loop of [batchAnalyze]: the record pushed for the
    document, and the document object afterwards. *)
Definition batchStep (allDocs : list Document) (document : Document)
    : BatchResult * Document :=
  let versions := versionsOf document in
  match analyzeDocument document versions [] allDocs with
  | (Ok result, document') => (Analysis (id document) (title document) result, document')
  | (Throw message, document') => (Failure (errorRecord document message), document')
  end.

(** [batchAnalyze(documents, allDocs)]: the results, in the order of the
    documents, and the document objects after the call.  Every entry of
    [documents] is an object (the catch clause reads its id and title), and
    the documents and the candidate pool are distinct objects, as in the
    routes, which pass separate [toJSON()] copies. *)
Definition batchAnalyze (documents allDocs : list Document)
    : list BatchResult * list Document :=
  let steps := map (batchStep allDocs) documents in
  (map fst steps, map snd steps).


(** ** Vocabulary of the properties *)

(** The semantic difference between the current content and a version;
    [None] is NaN. *)
Definition driftOf (document : Document) (version : VersionSnapshot) : option Q :=
  calculateSemanticDifference (content document) (versionContent version).

(** The numbers of a list of results that may be NaN. *)
Definition numbers (l : list (option Q)) : list Q :=
  flat_map (fun x => match x with Some q => [q] | None => [] end) l.

(** [String(score)] for a drift score, which has three decimals. *)
Definition showScore (score : option Q) : string :=
  match score with
  | Some d => Str.ofThousandths (Num.Math_round (d * 1000))
  | None => "NaN"
  end.

(** The versions whose semantic difference from the current content is a
    number at or above a bound. *)
Definition driftAtLeast (document : Document) (bound : Q) (version : VersionSnapshot)
    : bool :=
  Num.geNaN (driftOf document version) bound.

(** The providers for which [getEmbedding] returns a vector. *)
Definition supportedProvider : bool :=
  String.eqb providerName "tfidf" || String.eqb providerName "gemini".

(** The risk levels and the freshness statuses, in increasing order. *)
Definition riskRank (r : RiskLevel) : Z :=
  match r with low => 0 | medium => 1 | high => 2 end%Z.

Definition statusRank (s : Freshness.Status) : Z :=
  match s with Freshness.fresh => 0 | Freshness.warning => 1 | Freshness.critical => 2 end%Z.

(** The document types of the tables of thresholds and of ranks. *)
Definition knownType (type : option string) : bool :=
  match type with
  | Some t => existsb (String.eqb t) ["SOP"; "Policy"; "Spec"; "Guide"; "Notes"]%string
  | None => false
  end.

(** A type that names a member of [Object.prototype]. *)
Definition inheritedType (type : option string) : bool :=
  match type with
  | Some t => inherited t
  | None => false
  end.

(** The date from which the age of a document is counted. *)
Definition referenceDate (document : Document) : DateValue :=
  dateOr (lastVerifiedAt document) (updatedAt document).

(** The related documents that the contradiction detector compares with
    the subject: all but those that are both older than the subject and no
    more authoritative than it. *)
Definition compared (document relatedDoc : Document) : bool :=
  negb (dateLt (updatedAt relatedDoc) (updatedAt document)
        && negb (isMoreAuthoritative relatedDoc document)).

(** A contradiction found between the subject and a related document: it
    quotes a key statement of either and names the related document. *)
Definition contradictionBetween (document relatedDoc : Document)
    (c : Contradictions.Contradiction) : Prop :=
  Contradictions.documentId (Contradictions.thisDocument c) = id document
  /\ Contradictions.documentId (Contradictions.conflictsWith c) = id relatedDoc
  /\ Contradictions.documentTitle (Contradictions.conflictsWith c) = title relatedDoc
  /\ In (Contradictions.statement (Contradictions.thisDocument c))
        (extractKeyStatements (content document))
  /\ In (Contradictions.statement (Contradictions.conflictsWith c))
        (extractKeyStatements (content relatedDoc)).

(** The changes that the drift analyzer records for a version: one when
    its drift is a number at or above 0.25, none otherwise. *)
Definition recordedChange (document : Document) (version : VersionSnapshot)
    : list Drift.Change :=
  match driftOf document version with
  | Some drift =>
      if (drift >=? 0.25)%Q
      then [ {| Drift.fromVersion := versionNumber version;
                Drift.toVersion := currentVersion document;
                Drift.changeScore := drift;
                Drift.severity :=
                  if (drift >=? 0.4)%Q then Drift.significant else Drift.moderate;
                Drift.changeSummary :=
                  if Str.truthy (summary version) then Str.interp (summary version)
                  else ("Version " ++ showVersion (versionNumber version))%string |} ]
      else []
  | None => []
  end.

(** The support penalty that the scorer applies for a number of
    supporting documents. *)
Definition appliedSupportPenalty (supportingDocsCount : Q) : Q :=
  if Num.eqb supportingDocsCount 0 then MAX_SUPPORT_PENALTY
  else if (supportingDocsCount <? 3)%Q
       then MAX_SUPPORT_PENALTY * (1 - supportingDocsCount / 3)
       else 0.

(** The decay reason of the engine for a document without related
    documents. *)
Definition lowSupportReason : DecayReason :=
  {| reasonType := low_support;
     description := "No supporting documents found for cross-validation";
     sources := [] |}.

(** The section of the recommendation made for a decay reason. *)
Definition sectionOf (reason : DecayReason) : string :=
  match reasonType reason with
  | time => "Document Review Required"
  | contradiction => extractSection (description reason)
  | version_drift => "Version History Note"
  | low_support => "Verification Needed"
  | error => ""
  end.

(** The loop of a repetition, as [rmatch] runs it on [Star r1] with the
    continuation [k]. *)
Section StarLoop.
Variables (icase : bool) (r1 : regex) (k : mstate -> option mstate).
Fixpoint starLoop (fuel : nat) (st0 : mstate) {struct fuel} : option mstate :=
  match fuel with
  | O => k st0
  | S fuel' =>
      match rmatch icase r1 st0
              (fun st1 => if (List.length (rest st1) <? List.length (rest st0))%nat
                          then starLoop fuel' st1 else None) with
      | Some res => Some res
      | None => k st0
      end
  end.
End StarLoop.

(** A text without a double quote. *)
Definition withoutQuote (s : string) : Prop :=
  Forall (fun c => negb (Ascii.eqb c "034") = true) (Str.chars s).

(* ================================================================== *)
(** * Properties *)
(* ================================================================== *)

(** ** Numbers *)

Lemma leb_le (a b : Q) : (a <=? b)%Q = true <-> a <= b.
Proof. apply Qle_bool_iff. Qed.

Lemma leb_gt (a b : Q) : (a <=? b)%Q = false <-> b < a.
Proof.
  unfold Num.leb. split; intros H.
  - apply Qnot_le_lt. intros Hle. apply Qle_bool_iff in Hle. congruence.
  - destruct (Qle_bool a b) eqn:E; [|reflexivity].
    apply Qle_bool_iff in E. lra.
Qed.

Lemma ltb_lt (a b : Q) : (a <? b)%Q = true <-> a < b.
Proof.
  unfold Num.ltb. rewrite negb_true_iff. apply (leb_gt b a).
Qed.

Lemma ltb_ge (a b : Q) : (a <? b)%Q = false <-> b <= a.
Proof.
  unfold Num.ltb. rewrite negb_false_iff. apply Qle_bool_iff.
Qed.

Lemma geb_ge (a b : Q) : (a >=? b)%Q = true <-> b <= a.
Proof. apply Qle_bool_iff. Qed.

Lemma geb_lt (a b : Q) : (a >=? b)%Q = false <-> a < b.
Proof. apply (leb_gt b a). Qed.

Lemma gtb_gt (a b : Q) : (a >? b)%Q = true <-> b < a.
Proof. apply (ltb_lt b a). Qed.

Lemma gtb_le (a b : Q) : (a >? b)%Q = false <-> a <= b.
Proof. apply (ltb_ge b a). Qed.

Lemma Math_min_le_r (a b : Q) : Num.Math_min a b <= b.
Proof.
  unfold Num.Math_min. destruct (a <=? b)%Q eqn:E.
  - now apply leb_le.
  - lra.
Qed.

Lemma Math_max_ge_l (a b : Q) : a <= Num.Math_max a b.
Proof.
  unfold Num.Math_max. destruct (a <=? b)%Q eqn:E.
  - now apply leb_le.
  - lra.
Qed.

Lemma clamp_bounds (c : Q) :
  0 <= Num.Math_max 0 (Num.Math_min 1 c) <= 1.
Proof.
  split; [apply Math_max_ge_l|].
  unfold Num.Math_max.
  destruct (0 <=? Num.Math_min 1 c)%Q eqn:E; [|lra].
  unfold Num.Math_min. destruct (1 <=? c)%Q eqn:E1; [lra|].
  apply leb_gt in E1. lra.
Qed.

(** The integer nearest to [x] when [x] lies within a half of it. *)
Lemma Math_round_near (x : Q) (k : Z) :
  inject_Z k - (1 # 2) <= x -> x < inject_Z k + (1 # 2) -> Num.Math_round x = k.
Proof.
  intros Hlo Hhi. unfold Num.Math_round.
  assert (H1 : (k <= Qfloor (x + (1 # 2)))%Z).
  { rewrite <- (Qfloor_Z k). apply Qfloor_resp_le. lra. }
  assert (H2 : (Qfloor (x + (1 # 2)) < k + 1)%Z).
  { rewrite Zlt_Qlt. apply Qle_lt_trans with (x + (1 # 2)).
    - apply Qfloor_le.
    - rewrite inject_Z_plus. change (inject_Z 1) with 1%Q. lra. }
  lia.
Qed.

Lemma Math_round_Z (k : Z) : Num.Math_round (inject_Z k) = k.
Proof. apply Math_round_near; lra. Qed.

Lemma Math_round_mono (x y : Q) : x <= y -> (Num.Math_round x <= Num.Math_round y)%Z.
Proof. intros H. unfold Num.Math_round. apply Qfloor_resp_le. lra. Qed.

(** Rounding to two decimals keeps a number of [[0,1]] in [[0,1]]. *)
Lemma round2_unit (x : Q) : 0 <= x <= 1 -> 0 <= Num.round2 x <= 1.
Proof.
  intros [H0 H1]. unfold Num.round2.
  assert (Hlo : (0 <= Num.Math_round (x * 100))%Z).
  { apply Z.le_trans with (Num.Math_round (inject_Z 0)).
    - rewrite Math_round_Z. lia.
    - apply Math_round_mono. change (inject_Z 0) with 0%Q. lra. }
  assert (Hhi : (Num.Math_round (x * 100) <= 100)%Z).
  { apply Z.le_trans with (Num.Math_round (inject_Z 100)).
    - apply Math_round_mono. change (inject_Z 100) with 100%Q. lra.
    - rewrite Math_round_Z. lia. }
  split; unfold Qle; simpl; lia.
Qed.

(** A number with three decimals is its own rounding. *)
Lemma round3_thousandths (k : Z) : Num.round3 (k # 1000) = k # 1000.
Proof.
  unfold Num.round3. f_equal. apply Math_round_near.
  - assert (E : (k # 1000) * 1000 == inject_Z k).
    { unfold Qeq, Qmult, inject_Z. simpl. lia. }
    lra.
  - assert (E : (k # 1000) * 1000 == inject_Z k).
    { unfold Qeq, Qmult, inject_Z. simpl. lia. }
    lra.
Qed.

(** ** The confidence scorer *)

(** The score before the last rounding step: clamped, not yet rounded. *)
Lemma calculateConfidenceWith_confidence (finalRounding : Q -> Q) (params : Score.Params) :
  exists c, 0 <= c <= 1 /\
    Score.confidence (calculateConfidenceWith finalRounding params) = finalRounding c.
Proof.
  unfold calculateConfidenceWith. cbn [Score.confidence].
  eexists. split; [|reflexivity]. apply clamp_bounds.
Qed.



Lemma shouldFlagDecay_iff (confidence : Q) (riskLevel : RiskLevel) :
  shouldFlagDecay confidence riskLevel = true <-> (confidence < 1 \/ riskLevel <> low).
Proof.
  unfold shouldFlagDecay. rewrite orb_true_iff, ltb_lt, negb_true_iff.
  split; intros [H | H]; auto.
  - right. destruct riskLevel; simpl in H; congruence.
  - right. destruct riskLevel; simpl; congruence.
Qed.

(** ** The freshness evaluator *)

Lemma getThresholds_cases (type : option string) :
  (inheritedType type = false
   /\ exists w c, getThresholds type = thresholdsOf w c /\ (0 < w < c)%Z)
  \/ (inheritedType type = true /\ getThresholds type = memberThresholds).
Proof.
  unfold getThresholds, inheritedType. destruct type as [t|].
  - repeat (match goal with
            | |- context [String.eqb t ?b] =>
                let E := fresh "E" in
                destruct (String.eqb t b) eqn:E;
                [apply String.eqb_eq in E; subst t; left; split;
                 [reflexivity | eexists; eexists; split; [reflexivity | lia]]
                | clear E]
            end).
    destruct (inherited t).
    + right. split; reflexivity.
    + left. split; [reflexivity|]. exists 180%Z, 365%Z. split; [reflexivity | lia].
  - left. split; [reflexivity|]. exists 180%Z, 365%Z. split; [reflexivity | lia].
Qed.

Lemma ageAtLeast_true (age threshold : Z) :
  ageAtLeast (Some age) (Some threshold) = true <-> (threshold <= age)%Z.
Proof. simpl. apply Z.leb_le. Qed.

Lemma ageAtLeast_false (age threshold : Z) :
  ageAtLeast (Some age) (Some threshold) = false <-> (age < threshold)%Z.
Proof. simpl. apply Z.leb_gt. Qed.

Lemma ageAtLeast_undefined (ageDays : option Z) : ageAtLeast ageDays None = false.
Proof. destruct ageDays; reflexivity. Qed.


(** C10.  When neither updatedAt nor lastVerifiedAt gives a date (each is
    absent or cannot be parsed), the age is NaN, both threshold comparisons
    are false, and the evaluation is fresh with penalty 0 and no reason. *)
Theorem evaluateFreshness_without_dates (document : Document) :
  getTime (updatedAt document) = None ->
  getTime (lastVerifiedAt document) = None ->
  let t := getThresholds (type document) in
  let r := evaluateFreshness document in
  calculateAgeDays (dateOr (lastVerifiedAt document) (updatedAt document)) = None
  /\ Freshness.ageDays r = None
  /\ ageAtLeast (Freshness.ageDays r) (Freshness.critical_days t) = false
  /\ ageAtLeast (Freshness.ageDays r) (Freshness.warning_days t) = false
  /\ Freshness.status r = Freshness.fresh
  /\ Freshness.penalty r == 0
  /\ Freshness.decayReason r = None.
Proof.
  intros Hu Hv t r.
  assert (Hcalc : calculateAgeDays (dateOr (lastVerifiedAt document) (updatedAt document))
                  = None).
  { unfold calculateAgeDays.
    destruct (lastVerifiedAt document), (updatedAt document);
      simpl in *; congruence. }
  unfold r, evaluateFreshness. rewrite Hcalc.
  cbn [ageAtLeast Freshness.ageDays Freshness.status Freshness.penalty Freshness.decayReason].
  repeat split; reflexivity.
Qed.


(** ** The related-document finder *)

Lemma insertBySimilarity_perm (x : RelatedDocument) (l : list RelatedDocument) :
  Permutation (insertBySimilarity x l) (x :: l).
Proof.
  induction l as [|y rest IH]; simpl.
  - apply Permutation_refl.
  - destruct (similarity y >? similarity x)%Q.
    + apply perm_trans with (y :: x :: rest).
      * apply perm_skip, IH.
      * apply perm_swap.
    + apply Permutation_refl.
Qed.

Lemma sortBySimilarity_perm (l : list RelatedDocument) :
  Permutation (sortBySimilarity l) l.
Proof.
  induction l as [|x rest IH]; simpl.
  - apply perm_nil.
  - apply perm_trans with (x :: sortBySimilarity rest).
    + apply insertBySimilarity_perm.
    + apply perm_skip, IH.
Qed.

Lemma insertBySimilarity_sorted (x : RelatedDocument) (l : list RelatedDocument) :
  StronglySorted bySimilarity l -> StronglySorted bySimilarity (insertBySimilarity x l).
Proof.
  induction l as [|y rest IH]; intros Hs; simpl.
  - constructor; constructor.
  - inversion Hs as [|? ? Hrest Hall]; subst.
    destruct (similarity y >? similarity x)%Q eqn:E.
    + apply gtb_gt in E. constructor.
      * apply IH, Hrest.
      * apply (Permutation_Forall (Permutation_sym (insertBySimilarity_perm x rest))).
        constructor; [unfold bySimilarity; lra | exact Hall].
    + apply gtb_le in E. constructor; [exact Hs|].
      constructor; [exact E|].
      rewrite Forall_forall in *. intros z Hz. specialize (Hall z Hz).
      unfold bySimilarity in *. lra.
Qed.

Lemma sortBySimilarity_sorted (l : list RelatedDocument) :
  StronglySorted bySimilarity (sortBySimilarity l).
Proof.
  induction l as [|x rest IH]; simpl.
  - constructor.
  - apply insertBySimilarity_sorted, IH.
Qed.

Lemma filter_length_mono {A : Type} (f g : A -> bool) (l : list A) :
  (forall x, f x = true -> g x = true) ->
  (List.length (filter f l) <= List.length (filter g l))%nat.
Proof.
  intros Hfg. induction l as [|x rest IH]; simpl; [lia|].
  destruct (f x) eqn:Ef.
  - rewrite (Hfg x Ef). simpl. lia.
  - destruct (g x); simpl; lia.
Qed.

(** The candidates that the filter on the similarity keeps, before the
    sort: those whose similarity is a number at or above the threshold. *)
Lemma keepSimilar_candidates (docEmbedding : Embedding) (threshold : Q)
    (others : list Document) :
  flat_map (keepSimilar threshold) (map (withSimilarity docEmbedding) others)
  = flat_map (fun d =>
                match cosineSimilarity (Some docEmbedding) (Some (embeddingOr d)) with
                | Some s => if (s >=? threshold)%Q
                            then [ {| doc := d; similarity := s |} ] else []
                | None => []
                end) others.
Proof.
  induction others as [|d rest IH]; [reflexivity|].
  cbn [map flat_map]. rewrite IH. reflexivity.
Qed.

Lemma keepSimilar_length_mono (threshold higher : Q) (l : list (Document * option Q)) :
  threshold <= higher ->
  (List.length (flat_map (keepSimilar higher) l)
   <= List.length (flat_map (keepSimilar threshold) l))%nat.
Proof.
  intros Hle. induction l as [|c rest IH]; [simpl; lia|].
  cbn [flat_map]. rewrite !length_app. unfold keepSimilar at 1 3.
  destruct (snd c) as [s|]; [|simpl; lia].
  destruct (s >=? higher)%Q eqn:E1.
  - apply geb_ge in E1. assert (E2 : (s >=? threshold)%Q = true) by (apply geb_ge; lra).
    rewrite E2. simpl. lia.
  - destruct (s >=? threshold)%Q; simpl; lia.
Qed.

(** C7.  findRelatedDocuments never returns the subject itself; its
    result holds exactly the candidates other than the subject whose
    similarity to the subject, the cosine similarity of the two embeddings
    (the stored one, or else the TF-IDF vector of the content), is a number
    at or above the threshold, each once per occurrence in the pool and
    with that similarity; a candidate whose similarity is NaN is at or
    above no threshold and is left out; the result is sorted by similarity,
    highest first; and a higher threshold never returns more results.  The
    default threshold is 0.3. *)
Theorem findRelatedDocuments_spec (document : Document) (allDocs : list Document)
    (threshold higher : Q) :
  threshold <= higher ->
  let vectorOf := fun d : Document =>
    match embedding d with
    | Some e => e
    | None => generateTfIdfEmbedding (content d)
    end in
  let similarityTo := fun d : Document =>
    cosineSimilarity (Some (vectorOf document)) (Some (vectorOf d)) in
  let others := filter (fun d => negb (sameId (id d) (id document))) allDocs in
  let result := findRelatedDocuments document allDocs threshold in
  Forall (fun r => sameId (id (doc r)) (id document) = false) result
  /\ (forall r, In r result <->
        (In (doc r) allDocs
         /\ sameId (id (doc r)) (id document) = false
         /\ similarityTo (doc r) = Some (similarity r)
         /\ threshold <= similarity r))
  /\ Permutation result
       (flat_map (fun d =>
                    match similarityTo d with
                    | Some s => if (s >=? threshold)%Q
                                then [ {| doc := d; similarity := s |} ] else []
                    | None => []
                    end) others)
  /\ (forall d, similarityTo d = None -> ~ In d (map doc result))
  /\ StronglySorted bySimilarity result
  /\ (List.length (findRelatedDocuments document allDocs higher) <= List.length result)%nat
  /\ defaultThreshold == 0.3.
Proof.
  intros Hle vectorOf similarityTo others result.
  assert (Hperm : Permutation result
            (flat_map (fun d =>
                         match similarityTo d with
                         | Some s => if (s >=? threshold)%Q
                                     then [ {| doc := d; similarity := s |} ] else []
                         | None => []
                         end) others)).
  { unfold result, findRelatedDocuments.
    eapply perm_trans; [apply sortBySimilarity_perm|].
    rewrite keepSimilar_candidates. apply Permutation_refl. }
  assert (Hin : forall r, In r result <->
                  (In (doc r) allDocs
                   /\ sameId (id (doc r)) (id document) = false
                   /\ similarityTo (doc r) = Some (similarity r)
                   /\ threshold <= similarity r)).
  { intros r. split.
    - intros H. apply (Permutation_in _ Hperm) in H. apply in_flat_map in H.
      destruct H as [d [Hd Hr]]. apply filter_In in Hd. destruct Hd as [Hd Hid].
      apply negb_true_iff in Hid.
      destruct (similarityTo d) as [s|] eqn:Es; [|destruct Hr].
      destruct (s >=? threshold)%Q eqn:Eg; [|destruct Hr].
      destruct Hr as [Hr | []]. subst r. cbn [doc similarity].
      apply geb_ge in Eg. repeat split; assumption.
    - intros [Hd [Hid [Hs Ht]]]. apply (Permutation_in _ (Permutation_sym Hperm)).
      apply in_flat_map. exists (doc r). split.
      + apply filter_In. split; [exact Hd | now apply negb_true_iff].
      + rewrite Hs. assert (Eg : (similarity r >=? threshold)%Q = true) by now apply geb_ge.
        rewrite Eg. left. destruct r; reflexivity. }
  split; [|split; [exact Hin|split; [exact Hperm|split; [|split; [|split]]]]].
  - rewrite Forall_forall. intros r Hr. apply Hin in Hr.
    destruct Hr as [_ [Hid _]]. exact Hid.
  - intros d Hnan Hd. apply in_map_iff in Hd. destruct Hd as [r [Er Hr]].
    apply Hin in Hr. subst d. destruct Hr as [_ [_ [Hs _]]]. congruence.
  - apply sortBySimilarity_sorted.
  - unfold result, findRelatedDocuments.
    rewrite (Permutation_length (sortBySimilarity_perm _)).
    rewrite (Permutation_length (sortBySimilarity_perm _)).
    now apply keepSimilar_length_mono.
  - reflexivity.
Qed.


(** ** The version drift analyzer *)

Lemma driftLoop_versions (document : Document) (versions : list VersionSnapshot)
    (st : DriftLoop) :
  driftLoop document (map Some versions) st
  = Ok (fold_left (driftStep document) versions st).
Proof.
  revert st. induction versions as [|v rest IH]; intros st; simpl.
  - reflexivity.
  - apply IH.
Qed.

Lemma geNaN_ge (a : option Q) (b : Q) :
  Num.geNaN a b = true <-> exists x, a = Some x /\ b <= x.
Proof.
  destruct a as [x|]; simpl.
  - rewrite geb_ge. split; [intros H; exists x; now split|].
    intros [y [E H]]. injection E as <-. exact H.
  - split; [discriminate|]. intros [y [E _]]. discriminate E.
Qed.

Lemma driftStep_maxDrift (document : Document) (st : DriftLoop) (v : VersionSnapshot)
    (t : Q) :
  (maxDrift (driftStep document st v) >=? t)%Q
  = (maxDrift st >=? t)%Q || driftAtLeast document t v.
Proof.
  unfold driftStep, driftAtLeast, driftOf.
  destruct (calculateSemanticDifference (content document) (versionContent v)) as [d|];
    [|cbn [Num.geNaN]; now rewrite orb_false_r].
  cbn [maxDrift Num.geNaN].
  destruct (d >? maxDrift st)%Q eqn:E.
  - apply gtb_gt in E.
    destruct (maxDrift st >=? t)%Q eqn:E1; [|reflexivity].
    apply geb_ge in E1. simpl. apply geb_ge. lra.
  - apply gtb_le in E.
    destruct (d >=? t)%Q eqn:E2; [|now rewrite orb_false_r].
    apply geb_ge in E2. rewrite orb_true_r. apply geb_ge. lra.
Qed.

Lemma fold_maxDrift (document : Document) (versions : list VersionSnapshot)
    (st : DriftLoop) (t : Q) :
  (maxDrift (fold_left (driftStep document) versions st) >=? t)%Q
  = (maxDrift st >=? t)%Q || existsb (driftAtLeast document t) versions.
Proof.
  revert st. induction versions as [|v rest IH]; intros st; simpl.
  - now rewrite orb_false_r.
  - rewrite IH, driftStep_maxDrift. now rewrite orb_assoc.
Qed.

Lemma driftStep_changes (document : Document) (st : DriftLoop) (v : VersionSnapshot) :
  loopChanges (driftStep document st v) = loopChanges st ++ recordedChange document v.
Proof.
  unfold driftStep, recordedChange, driftOf.
  destruct (calculateSemanticDifference (content document) (versionContent v)) as [d|];
    [|now rewrite app_nil_r].
  cbn [loopChanges]. unfold MODERATE_DRIFT_THRESHOLD, SIGNIFICANT_DRIFT_THRESHOLD.
  destruct (d >=? 0.25)%Q; [reflexivity | now rewrite app_nil_r].
Qed.

Lemma fold_changes (document : Document) (versions : list VersionSnapshot)
    (st : DriftLoop) :
  loopChanges (fold_left (driftStep document) versions st)
  = loopChanges st ++ flat_map (recordedChange document) versions.
Proof.
  revert st. induction versions as [|v rest IH]; intros st; simpl.
  - now rewrite app_nil_r.
  - rewrite IH, driftStep_changes, <- app_assoc. reflexivity.
Qed.

(** The significant changes among those recorded for a version: the one
    change of a version whose drift is a number at or above 0.4. *)
Lemma recordedChange_significant (document : Document) (v : VersionSnapshot) :
  filter isSignificant (recordedChange document v)
  = if driftAtLeast document 0.4 v then recordedChange document v else [].
Proof.
  unfold recordedChange, driftAtLeast.
  destruct (driftOf document v) as [d|]; [|reflexivity].
  cbn [Num.geNaN].
  destruct (d >=? 0.4)%Q eqn:Es.
  - assert (Em : (d >=? 0.25)%Q = true).
    { apply geb_ge in Es. apply geb_ge. lra. }
    rewrite Em. reflexivity.
  - destruct (d >=? 0.25)%Q; reflexivity.
Qed.

Lemma recordedChange_at_least (document : Document) (v : VersionSnapshot) (d : Q) :
  driftOf document v = Some d -> 0.4 <= d ->
  recordedChange document v
  = [ {| Drift.fromVersion := versionNumber v;
         Drift.toVersion := currentVersion document;
         Drift.changeScore := d;
         Drift.severity := Drift.significant;
         Drift.changeSummary :=
           if Str.truthy (summary v) then Str.interp (summary v)
           else ("Version " ++ showVersion (versionNumber v))%string |} ].
Proof.
  intros Ed Hd. unfold recordedChange. rewrite Ed.
  assert (Es : (d >=? 0.4)%Q = true) by now apply geb_ge.
  assert (Em : (d >=? 0.25)%Q = true) by (apply geb_ge; lra).
  rewrite Es, Em. reflexivity.
Qed.

Lemma filter_flat_map {A B : Type} (f : B -> bool) (g : A -> list B) (l : list A) :
  filter f (flat_map g l) = flat_map (fun x => filter f (g x)) l.
Proof.
  induction l as [|x rest IH]; simpl; [reflexivity|].
  now rewrite filter_app, IH.
Qed.

(** The significant changes of the loop begin with the change of the first
    version whose drift is a number at or above 0.4. *)
Lemma first_significant (document : Document) (versions : list VersionSnapshot) :
  match filter (driftAtLeast document 0.4) versions with
  | mostRecent :: _ =>
      exists d others,
        driftOf document mostRecent = Some d /\ 0.4 <= d
        /\ filter isSignificant (flat_map (recordedChange document) versions)
           = recordedChange document mostRecent ++ others
  | [] => filter isSignificant (flat_map (recordedChange document) versions) = []
  end.
Proof.
  rewrite filter_flat_map.
  induction versions as [|v rest IH]; [reflexivity|].
  cbn [filter flat_map]. rewrite recordedChange_significant.
  destruct (driftAtLeast document 0.4 v) eqn:E.
  - unfold driftAtLeast in E. apply geNaN_ge in E. destruct E as [d [Ed Hd]].
    exists d. eexists. repeat split; [exact Ed | exact Hd].
  - cbn [app]. exact IH.
Qed.

Lemma existsb_numbers (document : Document) (versions : list VersionSnapshot) (t : Q) :
  existsb (driftAtLeast document t) versions
  = existsb (fun x => (x >=? t)%Q) (numbers (map (driftOf document) versions)).
Proof.
  unfold numbers, driftAtLeast.
  induction versions as [|v rest IH]; [reflexivity|].
  cbn [map flat_map existsb]. rewrite IH.
  destruct (driftOf document v) as [d|]; [|reflexivity].
  cbn [Num.geNaN app existsb]. reflexivity.
Qed.

Lemma existsb_greatest (l : list Q) (m t : Q) :
  greatest l m -> existsb (fun x => (x >=? t)%Q) l = (m >=? t)%Q.
Proof.
  intros [Hin Hmax].
  destruct (m >=? t)%Q eqn:E.
  - apply existsb_exists. exists m. split; assumption.
  - destruct (existsb (fun x => (x >=? t)%Q) l) eqn:Ex; [|reflexivity].
    apply existsb_exists in Ex. destruct Ex as [x [Hx Hge]].
    apply geb_ge in Hge. apply geb_lt in E. specialize (Hmax x Hx). lra.
Qed.

Lemma evaluateFreshness_reason_type (document : Document) (reason : DecayReason) :
  Freshness.decayReason (evaluateFreshness document) = Some reason ->
  reasonType reason = time.
Proof.
  unfold evaluateFreshness. cbv zeta.
  destruct (ageAtLeast _ _); [|destruct (ageAtLeast _ _)];
    cbn [Freshness.decayReason]; intros H;
    try discriminate H; injection H as <-; reflexivity.
Qed.

Lemma detectContradictions_reason_types (document : Document) (relatedDocs : list Document)
    (reasons : list DecayReason) :
  Contradictions.decayReasons (detectContradictions document relatedDocs) = Some reasons ->
  Forall (fun r => reasonType r = contradiction) reasons.
Proof.
  unfold detectContradictions. destruct relatedDocs as [|d rest].
  - cbn [Contradictions.decayReasons]. intros H. discriminate H.
  - cbv zeta. cbn [Contradictions.decayReasons]. intros H. injection H as <-.
    apply Forall_forall. intros r Hr. apply in_map_iff in Hr.
    destruct Hr as [c [<- _]]. reflexivity.
Qed.

Lemma filter_nothing {A : Type} (f : A -> bool) (l : list A) :
  Forall (fun x => f x = false) l -> filter f l = [].
Proof.
  induction 1 as [|x rest Hx _ IH]; simpl; [reflexivity|]. now rewrite Hx.
Qed.

(** Among the decay reasons of a verdict, those of type version_drift are
    the reason of the drift result, if it has one. *)
Lemma assembleVerdict_drift_reasons (document : Document) (relatedDocs : list Document)
    (driftResult : Drift.result) :
  filter (hasType version_drift)
    (decay_reasons
       (assembleVerdict document relatedDocs (evaluateFreshness document)
          (detectContradictions document relatedDocs) driftResult))
  = filter (hasType version_drift)
      (match Drift.decayReason driftResult with Some r => [r] | None => [] end).
Proof.
  unfold assembleVerdict. cbv zeta. cbn [decay_reasons].
  rewrite !filter_app.
  assert (E1 : filter (hasType version_drift)
                 (match Freshness.decayReason (evaluateFreshness document) with
                  | Some r => [r] | None => [] end) = []).
  { destruct (Freshness.decayReason (evaluateFreshness document)) as [r|] eqn:E;
      [|reflexivity].
    apply evaluateFreshness_reason_type in E. unfold hasType. simpl. now rewrite E. }
  assert (E2 : filter (hasType version_drift)
                 (match Contradictions.decayReasons
                          (detectContradictions document relatedDocs) with
                  | Some rs => rs | None => [] end) = []).
  { destruct (Contradictions.decayReasons (detectContradictions document relatedDocs))
      as [rs|] eqn:E; [|reflexivity].
    apply detectContradictions_reason_types in E. apply filter_nothing.
    apply Forall_forall. intros r Hr. rewrite Forall_forall in E.
    unfold hasType. now rewrite (E r Hr). }
  rewrite E1, E2. cbn [app].
  match goal with
  | |- ?l ++ filter _ ?d = _ => assert (E3 : filter (hasType version_drift) d = [])
  end.
  { destruct relatedDocs; [|reflexivity].
    match goal with |- context [if ?b then _ else _] => destruct b end; reflexivity. }
  rewrite E3. apply app_nil_r.
Qed.

(** C6.  For a document with prior versions and [m] the greatest semantic
    difference between the current content and a version (of those that
    are numbers: a difference that is NaN is at or above no bound and
    counts for nothing): the penalty is 0.2 if m >= 0.4, 0.1 if 0.25 <= m <
    0.4, and 0 otherwise, as it is when no difference is a number; and when
    some version's drift is at least 0.4, the one decay reason of the
    result has type version_drift and names the first such version of the
    list, with its number, the current version and its drift score, and it
    is the only reason of that type among the decay reasons of the verdict,
    however many versions are significant. *)
Theorem analyzeVersionDrift_penalty_and_reason (document : Document)
    (versions : list VersionSnapshot) :
  exists r,
    analyzeVersionDrift document (map Some versions) = Ok r
    /\ (forall m : Q,
          greatest (numbers (map (driftOf document) versions)) m ->
          Drift.penalty r
          == (if (m >=? 0.4)%Q then 0.2 else if (m >=? 0.25)%Q then 0.1 else 0))
    /\ (numbers (map (driftOf document) versions) = [] ->
        Drift.penalty r == 0 /\ Drift.decayReason r = None)
    /\ Drift.decayReason r
       = match filter (driftAtLeast document 0.4) versions with
         | mostRecent :: _ =>
             Some {| reasonType := version_drift;
                     description :=
                       ("Significant semantic change detected from version "
                        ++ showVersion (versionNumber mostRecent) ++ " to "
                        ++ showVersion (currentVersion document) ++ " (drift score: "
                        ++ showScore (driftOf document mostRecent) ++ ")")%string;
                     sources := [] |}
         | [] => None
         end
    /\ (forall reason, Drift.decayReason r = Some reason -> reasonType reason = version_drift)
    /\ (existsb (driftAtLeast document 0.4) versions = true ->
        exists reason, Drift.decayReason r = Some reason)
    /\ (forall relatedDocs : list Document,
          existsb (driftAtLeast document 0.4) versions = true ->
          exists reason,
            Drift.decayReason r = Some reason
            /\ filter (hasType version_drift)
                 (decay_reasons
                    (assembleVerdict document relatedDocs (evaluateFreshness document)
                       (detectContradictions document relatedDocs) r))
               = [reason]).
Proof.
  set (reasonOf := fun mostRecent : VersionSnapshot =>
         {| reasonType := version_drift;
            description :=
              ("Significant semantic change detected from version "
               ++ showVersion (versionNumber mostRecent) ++ " to "
               ++ showVersion (currentVersion document) ++ " (drift score: "
               ++ showScore (driftOf document mostRecent) ++ ")")%string;
            sources := [] |}).
  destruct versions as [|v0 rest].
  { eexists. split; [reflexivity|].
    cbn [Drift.penalty Drift.decayReason filter existsb map numbers flat_map].
    split; [intros m [[] _]|].
    split; [intros _; split; reflexivity|].
    split; [reflexivity|].
    split; [discriminate|].
    split; [discriminate|]. intros relatedDocs H. discriminate H. }
  unfold analyzeVersionDrift.
  change (map Some (v0 :: rest)) with (Some v0 :: map Some rest) at 1.
  cbv beta iota.
  change (Some v0 :: map Some rest) with (map Some (v0 :: rest)).
  rewrite driftLoop_versions. cbn [bind].
  set (vs := v0 :: rest) in *.
  set (st0 := {| loopChanges := []; maxDrift := 0 |}).
  assert (Hmax : forall t, 0 < t ->
            (maxDrift (fold_left (driftStep document) vs st0) >=? t)%Q
            = existsb (driftAtLeast document t) vs).
  { intros t Ht. rewrite fold_maxDrift.
    assert (E : (maxDrift st0 >=? t)%Q = false) by (apply geb_lt; simpl; lra).
    rewrite E. reflexivity. }
  assert (Hreason :
            match filter isSignificant (loopChanges (fold_left (driftStep document) vs st0)) with
            | mostRecent :: _ => Some (driftReason mostRecent)
            | [] => None
            end
            = match filter (driftAtLeast document 0.4) vs with
              | mostRecent :: _ => Some (reasonOf mostRecent)
              | [] => None
              end).
  { rewrite fold_changes. cbn [loopChanges st0 app].
    pose proof (first_significant document vs) as Hf.
    destruct (filter (driftAtLeast document 0.4) vs) as [|mostRecent others].
    - rewrite Hf. reflexivity.
    - destruct Hf as [d [more [Ed [Hd Hf]]]]. rewrite Hf.
      rewrite (recordedChange_at_least _ _ Ed Hd). cbn [app].
      unfold driftReason, reasonOf, showScore.
      cbn [Drift.fromVersion Drift.toVersion Drift.changeScore]. rewrite Ed. reflexivity. }
  eexists. split; [reflexivity|].
  cbn [Drift.penalty Drift.decayReason]. rewrite Hreason.
  unfold SIGNIFICANT_DRIFT_THRESHOLD, MODERATE_DRIFT_THRESHOLD.
  rewrite !Hmax by lra.
  assert (Hsome : existsb (driftAtLeast document 0.4) vs = true ->
            exists v others, filter (driftAtLeast document 0.4) vs = v :: others).
  { intros Hge. apply existsb_exists in Hge. destruct Hge as [v [Hv Hd]].
    assert (Hf : In v (filter (driftAtLeast document 0.4) vs)).
    { apply filter_In. split; assumption. }
    destruct (filter (driftAtLeast document 0.4) vs) as [|v' others];
      [contradiction|].
    exists v', others. reflexivity. }
  split; [|split; [|split; [|split; [|split]]]].
  - intros m Hm. rewrite !existsb_numbers, !(existsb_greatest _ Hm).
    destruct (m >=? 0.4)%Q; [reflexivity|]. destruct (m >=? 0.25)%Q; reflexivity.
  - intros Hnone. rewrite !existsb_numbers, Hnone. cbn [existsb].
    split; [reflexivity|].
    destruct (filter (driftAtLeast document 0.4) vs) as [|v others] eqn:Ef; [reflexivity|].
    assert (Hv : In v (filter (driftAtLeast document 0.4) vs))
      by (rewrite Ef; left; reflexivity).
    apply filter_In in Hv. destruct Hv as [Hv Hd].
    assert (Hex : existsb (driftAtLeast document 0.4) vs = true)
      by (apply existsb_exists; exists v; split; assumption).
    rewrite existsb_numbers, Hnone in Hex. discriminate Hex.
  - reflexivity.
  - intros reason Hr.
    destruct (filter (driftAtLeast document 0.4) vs); [discriminate|].
    injection Hr as <-. reflexivity.
  - intros Hge. destruct (Hsome Hge) as [v [others E]]. rewrite E.
    eexists. reflexivity.
  - intros relatedDocs Hge. destruct (Hsome Hge) as [v [others E]].
    rewrite assembleVerdict_drift_reasons. cbn [Drift.decayReason].
    rewrite E. eexists. split; reflexivity.
Qed.


(** ** Similarity *)

Lemma round3_decimals (x : Q) : exists k : Z, Num.round3 x = k # 1000.
Proof. unfold Num.round3. eexists. reflexivity. Qed.

Lemma cosineSimilarity_absent (vec2 : option Embedding) :
  cosineSimilarity None vec2 = Some 0 /\ cosineSimilarity vec2 None = Some 0.
Proof. split; [reflexivity | destruct vec2; reflexivity]. Qed.

Lemma cosineSimilarity_empty (v1 v2 : Embedding) :
  Object_keys v1 = [] \/ Object_keys v2 = [] ->
  cosineSimilarity (Some v1) (Some v2) = Some 0.
Proof.
  intros [H | H]; unfold cosineSimilarity; rewrite H.
  - reflexivity.
  - destruct (Object_keys v1); reflexivity.
Qed.

Lemma cosineSimilarity_zero_norm (v1 v2 : Embedding) (s : Sums) :
  sqrt_exact_on_squares Math_sqrt ->
  cosineSums v1 v2 = Some s ->
  norm1 s == 0 \/ norm2 s == 0 ->
  cosineSimilarity (Some v1) (Some v2) = Some 0.
Proof.
  intros Hsq Hs Hz. unfold cosineSimilarity.
  destruct (Object_keys v1); [reflexivity|].
  destruct (Object_keys v2); [reflexivity|].
  rewrite Hs. cbv zeta.
  assert (E : Math_sqrt (norm1 s) * Math_sqrt (norm2 s) == 0).
  { destruct Hz as [H | H].
    - rewrite (Hsq 0%Z _ (Z.le_refl 0) H). change (inject_Z 0) with 0%Q. ring.
    - rewrite (Hsq 0%Z _ (Z.le_refl 0) H). change (inject_Z 0) with 0%Q. ring. }
  apply Qeq_bool_iff in E. unfold Num.eqb. rewrite E. reflexivity.
Qed.

Lemma cosineSimilarity_decimals (vec1 vec2 : option Embedding) (q : Q) :
  cosineSimilarity vec1 vec2 = Some q -> exists k : Z, q == k # 1000.
Proof.
  unfold cosineSimilarity. intros H.
  assert (H0 : Some 0 = Some q -> exists k : Z, q == k # 1000).
  { intros E. injection E as <-. exists 0%Z. reflexivity. }
  destruct vec1 as [v1|]; [|exact (H0 H)].
  destruct vec2 as [v2|]; [|exact (H0 H)].
  destruct (Object_keys v1); [exact (H0 H)|].
  destruct (Object_keys v2); [exact (H0 H)|].
  destruct (cosineSums v1 v2) as [sums|]; [|discriminate H].
  cbv zeta in H.
  match type of H with context [if ?b then _ else _] => destruct b end.
  - exact (H0 H).
  - injection H as <-. eexists. unfold Num.round3. reflexivity.
Qed.

(** The semantic difference is one minus the similarity, and has three
    decimals; it is NaN when the similarity is. *)
Lemma calculateSemanticDifference_spec (text1 text2 : option string) :
  match cosineSimilarity (Some (generateTfIdfEmbedding text1))
                         (Some (generateTfIdfEmbedding text2)) with
  | Some similarity =>
      exists d, calculateSemanticDifference text1 text2 = Some d
                /\ d == 1 - similarity
                /\ exists k : Z, d = k # 1000
  | None => calculateSemanticDifference text1 text2 = None
  end.
Proof.
  unfold calculateSemanticDifference.
  destruct (cosineSimilarity (Some (generateTfIdfEmbedding text1))
              (Some (generateTfIdfEmbedding text2))) as [similarity|] eqn:Es;
    [|reflexivity].
  eexists. split; [reflexivity|]. split; [|apply round3_decimals].
  destruct (cosineSimilarity_decimals _ _ Es) as [k Hk].
  assert (E : 1 - similarity == (1000 - k) # 1000).
  { rewrite Hk. unfold Qeq, Qminus, Qplus, Qopp. cbn [Qnum Qden]. lia. }
  assert (E2 : (1 - similarity) * 1000 == inject_Z (1000 - k)).
  { rewrite E. unfold Qeq, Qmult, inject_Z. cbn [Qnum Qden]. lia. }
  unfold Num.round3.
  rewrite (Math_round_near (x := (1 - similarity) * 1000) (k := (1000 - k)%Z)).
  - rewrite E. reflexivity.
  - rewrite E2. lra.
  - rewrite E2. lra.
Qed.

Lemma dedupe_In (l : list string) (x : string) : In x (dedupe l) <-> In x l.
Proof.
  induction l as [|y rest IH]; cbn [dedupe]; [reflexivity|].
  cbn [In]. rewrite filter_In, IH. split.
  - intros [H | [H _]]; [left | right]; exact H.
  - intros [H | H]; [left; exact H|].
    destruct (String.eqb y x) eqn:E.
    + left. now apply String.eqb_eq.
    + right. split; [exact H | reflexivity].
Qed.

(** An own property is read before the prototype. *)
Lemma ownProp_key (v : Embedding) (term : string) :
  In term (Object_keys v) <-> exists w, ownProp v term = Some w.
Proof.
  unfold ownProp, Object_keys.
  induction (entries v) as [|[k w] rest IH]; cbn [map find fst snd In].
  - split; [intros [] | intros [w H]; discriminate H].
  - destruct (String.eqb k term) eqn:E.
    + apply String.eqb_eq in E. split; [intros _; now exists w | intros _; now left].
    + apply String.eqb_neq in E. rewrite <- IH. split.
      * intros [H | H]; [contradiction | exact H].
      * intros H. now right.
Qed.

Lemma getProp_own (v : Embedding) (term : string) (w : Q) :
  ownProp v term = Some w -> getProp v term = PNumber w.
Proof. intros H. unfold getProp. rewrite H. reflexivity. Qed.

(** The number that an own property is in the products of the loop. *)
Lemma own_number (v : Embedding) (term : string) :
  In term (Object_keys v) -> exists x, toNumber (orZero (getProp v term)) = Some x.
Proof.
  intros H. apply ownProp_key in H. destruct H as [w H].
  rewrite (getProp_own _ _ H). cbn [orZero].
  destruct (Num.eqb w 0); eexists; reflexivity.
Qed.

(** A turn of the loop on a term that both vectors own, or that neither
    inherits, adds to the sums; the sums are NaN from the first term on that
    one of the vectors inherits. *)
Lemma cosineStep_number (v1 v2 : Embedding) (acc : Sums) (term : string) (x y : Q) :
  toNumber (orZero (getProp v1 term)) = Some x ->
  toNumber (orZero (getProp v2 term)) = Some y ->
  cosineStep v1 v2 (Some acc) term = Some (addTerm acc x y).
Proof. intros H1 H2. unfold cosineStep. cbv zeta. rewrite H1, H2. reflexivity. Qed.

Lemma cosineStep_NaN (v1 v2 : Embedding) (term : string) :
  cosineStep v1 v2 None term = None.
Proof. reflexivity. Qed.

Lemma fold_cosineStep_NaN (v1 v2 : Embedding) (terms : list string) :
  fold_left (cosineStep v1 v2) terms None = None.
Proof. induction terms as [|t rest IH]; [reflexivity | exact IH]. Qed.

(** The loop gives numbers exactly when every term is a number in both
    vectors. *)
Lemma fold_cosineStep_Some (v1 v2 : Embedding) (terms : list string) (acc : Sums) :
  (exists s, fold_left (cosineStep v1 v2) terms (Some acc) = Some s)
  <-> Forall (fun term => toNumber (orZero (getProp v1 term)) <> None
                          /\ toNumber (orZero (getProp v2 term)) <> None) terms.
Proof.
  revert acc. induction terms as [|t rest IH]; intros acc; cbn [fold_left].
  - split; [constructor | intros _; now exists acc].
  - unfold cosineStep at 2. cbv zeta.
    destruct (toNumber (orZero (getProp v1 t))) as [x|] eqn:E1.
    + destruct (toNumber (orZero (getProp v2 t))) as [y|] eqn:E2.
      * rewrite IH. split.
        -- intros H. constructor; [split; congruence | exact H].
        -- intros H. inversion H; assumption.
      * rewrite fold_cosineStep_NaN. split.
        -- intros [s H]. discriminate H.
        -- intros H. inversion H as [|? ? [_ Hn] _]. contradiction.
    + rewrite fold_cosineStep_NaN. split.
      * intros [s H]. discriminate H.
      * intros H. inversion H as [|? ? [Hn _] _]. contradiction.
Qed.

(** The sums of a vector with itself. *)
Lemma fold_sums_self (v : Embedding) (terms : list string) (acc : Sums) :
  (forall t, In t terms -> In t (Object_keys v)) ->
  dotProduct acc = norm1 acc -> norm1 acc = norm2 acc ->
  exists s,
    fold_left (cosineStep v v) terms (Some acc) = Some s
    /\ dotProduct s = norm1 s /\ norm1 s = norm2 s /\ norm1 acc <= norm1 s.
Proof.
  revert acc. induction terms as [|t rest IH]; intros acc Hown H1 H2; cbn [fold_left].
  - exists acc. repeat split; try assumption. lra.
  - destruct (@own_number v t) as [x Hx]; [apply Hown; now left|].
    rewrite (cosineStep_number _ _ _ _ Hx Hx).
    destruct (IH (addTerm acc x x)) as [s [Es [E1 [E2 E3]]]].
    + intros t' Ht'. apply Hown. now right.
    + unfold addTerm. simpl. now rewrite H1.
    + unfold addTerm. simpl. now rewrite H2.
    + exists s. repeat split; try assumption.
      apply Qle_trans with (2 := E3). unfold addTerm. simpl.
      assert (0 <= x * x) by nra. lra.
Qed.

Lemma cosineSums_self (k : string) (w : Q) (rest : list (string * Q)) :
  0 < w ->
  exists s,
    cosineSums (Sparse ((k, w) :: rest)) (Sparse ((k, w) :: rest)) = Some s
    /\ dotProduct s = norm1 s /\ norm1 s = norm2 s /\ 0 < norm1 s.
Proof.
  intros Hw. unfold cosineSums.
  set (v := Sparse ((k, w) :: rest)).
  assert (Hk : toNumber (orZero (getProp v k)) = Some w).
  { unfold getProp, ownProp, v. cbn [entries find fst snd]. rewrite String.eqb_refl.
    cbn [orZero snd]. unfold Num.eqb. destruct (Qeq_bool w 0) eqn:E; [|reflexivity].
    apply Qeq_bool_iff in E. lra. }
  assert (Hkeys : forall t, In t (dedupe (Object_keys v ++ Object_keys v)) ->
                            In t (Object_keys v)).
  { intros t Ht. apply (proj1 (dedupe_In _ _)) in Ht. apply in_app_iff in Ht.
    destruct Ht; assumption. }
  change (Object_keys v) with (k :: map fst rest) in Hkeys |- *.
  cbn [app dedupe fold_left] in Hkeys |- *.
  rewrite (cosineStep_number _ _ _ _ Hk Hk).
  match goal with
  | |- context [fold_left ?f ?l (Some ?a)] =>
      destruct (@fold_sums_self v l a) as [s [Es [E1 [E2 E3]]]]
  end.
  - intros t Ht. apply Hkeys. now right.
  - reflexivity.
  - reflexivity.
  - exists s. repeat split; try assumption.
    apply Qlt_le_trans with (2 := E3). unfold addTerm, zeroSums. simpl. nra.
Qed.

(** A vector with a positive first weight is at similarity 1 from itself. *)
Lemma cosineSimilarity_self (k : string) (w : Q) (rest : list (string * Q)) :
  sqrt_accurate Math_sqrt -> 0 < w ->
  cosineSimilarity (Some (Sparse ((k, w) :: rest))) (Some (Sparse ((k, w) :: rest)))
  = Some (1000 # 1000).
Proof.
  intros Hacc Hw.
  destruct (cosineSums_self k rest Hw) as [s [Es [E1 [E2 Hpos]]]].
  unfold cosineSimilarity.
  change (Object_keys (Sparse ((k, w) :: rest))) with (k :: map fst rest).
  cbv iota beta. rewrite Es. cbv zeta.
  rewrite E1, <- E2.
  destruct (Hacc (norm1 s) Hpos) as [Hs [Hlo Hhi]].
  set (n := norm1 s) in *. set (r := Math_sqrt n) in *.
  assert (Hmag : 0 < r * r) by nra.
  assert (Hne : Num.eqb (r * r) 0 = false).
  { unfold Num.eqb. destruct (Qeq_bool (r * r) 0) eqn:E; [|reflexivity].
    apply Qeq_bool_iff in E. lra. }
  rewrite Hne. unfold Num.round3. f_equal. f_equal.
  apply Math_round_near.
  - change (inject_Z 1000) with 1000%Q.
    assert (H : 0.9995 <= n / (r * r)).
    { apply Qle_shift_div_l; [exact Hmag|]. lra. }
    lra.
  - change (inject_Z 1000) with 1000%Q.
    assert (H : n / (r * r) < 1.0005).
    { apply Qlt_shift_div_r; [exact Hmag|]. lra. }
    lra.
Qed.


(** ** TF-IDF vectors *)

Lemma round3_positive (x : Q) : 0.1 < x -> 0 < Num.round3 x.
Proof.
  intros H. unfold Num.round3.
  assert (Hk : (100 <= Num.Math_round (x * 1000))%Z).
  { apply Z.le_trans with (Num.Math_round (inject_Z 100)).
    - rewrite Math_round_Z. lia.
    - apply Math_round_mono. change (inject_Z 100) with 100%Q. lra. }
  unfold Qlt. simpl. lia.
Qed.

Lemma setProp_positive (term : string) (w : Q) (terms : list (string * Q)) :
  0 < w -> positiveWeights terms -> positiveWeights (setProp term w terms).
Proof.
  intros Hw. induction terms as [|[k v] rest IH]; intros Hp; simpl.
  - constructor; [exact Hw | constructor].
  - inversion Hp as [|? ? Hv Hrest]; subst.
    destruct (String.eqb k term).
    + constructor; [exact Hw | exact Hrest].
    + constructor; [exact Hv | apply IH, Hrest].
Qed.

Lemma assign_positive (term : string) (w : Q) (terms : list (string * Q)) :
  0 < w -> positiveWeights terms -> positiveWeights (assign term w terms).
Proof.
  intros Hw Hp. unfold assign. destruct (String.eqb term "__proto__"); [exact Hp|].
  now apply setProp_positive.
Qed.

Lemma setProp_nonempty (term : string) (w : Q) (terms : list (string * Q)) :
  setProp term w terms <> [].
Proof.
  destruct terms as [|[k v] rest]; simpl; [discriminate|].
  destruct (String.eqb k term); discriminate.
Qed.

(** An assignment leaves an object that has a property, unless it is the
    first one and is made under the name [__proto__]. *)
Lemma assign_nonempty (term : string) (w : Q) (terms : list (string * Q)) :
  terms <> [] \/ term <> "__proto__"%string -> assign term w terms <> [].
Proof.
  intros H. unfold assign. destruct (String.eqb term "__proto__") eqn:E.
  - apply String.eqb_eq in E. destruct H as [H | H]; [exact H | contradiction].
  - apply setProp_nonempty.
Qed.

Lemma keepTerm_positive (items : list (string * Q)) (terms : list (string * Q)) :
  positiveWeights terms -> positiveWeights (fold_left keepTerm items terms).
Proof.
  revert terms. induction items as [|item rest IH]; intros terms Hp; simpl.
  - exact Hp.
  - apply IH. unfold keepTerm. destruct (snd item >? 0.1)%Q eqn:E; [|exact Hp].
    apply assign_positive; [|exact Hp]. apply round3_positive. now apply gtb_gt.
Qed.

Lemma keepTerm_nonempty (items : list (string * Q)) (terms : list (string * Q)) :
  terms <> []
  \/ (exists item, In item items /\ 0.1 < snd item /\ fst item <> "__proto__"%string) ->
  fold_left keepTerm items terms <> [].
Proof.
  revert terms. induction items as [|item rest IH]; intros terms H; simpl.
  - destruct H as [H | [item [[] _]]]. exact H.
  - apply IH. unfold keepTerm.
    destruct H as [H | [it [[Hi | Hi] [Hw Hp]]]].
    + left. destruct (snd item >? 0.1)%Q; [|exact H].
      apply assign_nonempty. left. exact H.
    + subst it. assert (E : (snd item >? 0.1)%Q = true) by now apply gtb_gt.
      rewrite E. left. apply assign_nonempty. right. exact Hp.
    + right. exists it. repeat split; assumption.
Qed.

Lemma generateTfIdfEmbedding_positive (text : string) :
  text <> ""%string ->
  (exists item, In item (listTerms (Str.toLowerCase text)) /\ 0.1 < snd item
                /\ fst item <> "__proto__"%string) ->
  exists k w rest,
    generateTfIdfEmbedding (Some text) = Sparse ((k, w) :: rest) /\ 0 < w.
Proof.
  intros Hne Hitem. unfold generateTfIdfEmbedding.
  destruct (String.eqb text "") eqn:E; [apply String.eqb_eq in E; contradiction|].
  cbv zeta.
  pose proof (@keepTerm_positive (listTerms (Str.toLowerCase text)) [] (Forall_nil _)) as Hp.
  pose proof (@keepTerm_nonempty (listTerms (Str.toLowerCase text)) [] (or_intror Hitem)) as Hn.
  destruct (fold_left keepTerm (listTerms (Str.toLowerCase text)) []) as [|[k w] rest];
    [contradiction|].
  exists k, w, rest. split; [reflexivity|].
  inversion Hp; assumption.
Qed.

(** ** The contradiction detector *)

Lemma numericCheck_pair (s1 s2 : string) (n1 n2 : found) :
  String.eqb (singular (unitText n1)) (singular (unitText n2))
  && negb (String.eqb (numText n1) (numText n2)) = true ->
  cosineSimilarity
    (Some (generateTfIdfEmbedding (Some (removeAll true numPattern s1))))
    (Some (generateTfIdfEmbedding (Some (removeAll true numPattern s2))))
  = Some (1000 # 1000) ->
  numericCheck s1 s2 [n1] [n2]
  = Some {| Statement.isContradiction := true;
            Statement.score := 1000 # 1000;
            Statement.reason :=
              Some ("Numerical conflict: " ++ numText n1 ++ " " ++ unitText n1
                    ++ " vs " ++ numText n2 ++ " " ++ unitText n2)%string |}.
Proof.
  intros Hunit Hsim. cbn [numericCheck numericInner].
  rewrite Hunit, Hsim. reflexivity.
Qed.

Lemma detectStatementContradiction_minutes :
  sqrt_accurate Math_sqrt ->
  (exists item, In item (listTerms withoutNumbers) /\ 0.1 < snd item
                /\ fst item <> "__proto__"%string) ->
  detectStatementContradiction fiveMinutes fifteenMinutes
  = {| Statement.isContradiction := true;
       Statement.score := 1000 # 1000;
       Statement.reason := Some "Numerical conflict: 5 minutes vs 15 minutes"%string |}.
Proof.
  intros Hacc Hitem.
  assert (Hsim :
    cosineSimilarity
      (Some (generateTfIdfEmbedding
               (Some (removeAll true numPattern (Str.toLowerCase fiveMinutes)))))
      (Some (generateTfIdfEmbedding
               (Some (removeAll true numPattern (Str.toLowerCase fifteenMinutes)))))
    = Some (1000 # 1000)).
  { replace (removeAll true numPattern (Str.toLowerCase fiveMinutes))
      with withoutNumbers by (vm_compute; reflexivity).
    replace (removeAll true numPattern (Str.toLowerCase fifteenMinutes))
      with withoutNumbers by (vm_compute; reflexivity).
    destruct (@generateTfIdfEmbedding_positive withoutNumbers) as [k [w [rest [E Hw]]]].
    - discriminate.
    - replace (Str.toLowerCase withoutNumbers) with withoutNumbers
        by (vm_compute; reflexivity).
      exact Hitem.
    - rewrite E. apply cosineSimilarity_self; assumption. }
  unfold detectStatementContradiction. cbv zeta.
  replace (negationCheck negationPatterns (Str.toLowerCase fiveMinutes)
             (Str.toLowerCase fifteenMinutes))
    with (@None Statement.result) by (vm_compute; reflexivity).
  let v1 := eval vm_compute in (matchAll true numPattern (Str.toLowerCase fiveMinutes)) in
  let v2 := eval vm_compute in (matchAll true numPattern (Str.toLowerCase fifteenMinutes)) in
  replace (matchAll true numPattern (Str.toLowerCase fiveMinutes)) with v1
    by (vm_compute; reflexivity);
  replace (matchAll true numPattern (Str.toLowerCase fifteenMinutes)) with v2
    by (vm_compute; reflexivity).
  rewrite numericCheck_pair.
  - vm_compute. reflexivity.
  - vm_compute. reflexivity.
  - exact Hsim.
Qed.


Lemma extractKeyStatements_fiveMinutes :
  extractKeyStatements (Some (fiveMinutes ++ "."))%string = [fiveMinutes].
Proof. vm_compute. reflexivity. Qed.

Lemma extractKeyStatements_fifteenMinutes :
  extractKeyStatements (Some (fifteenMinutes ++ "."))%string = [fifteenMinutes].
Proof. vm_compute. reflexivity. Qed.

(** C5.  A subject whose content is the statement "Deployments must
    complete within 5 minutes." (updated 2024-01-01) against a related
    document updated 2024-06-01 whose content is "Deployments must complete
    within 15 minutes.": there is one contradiction, found by the numeric
    rule (same unit, different numbers, similarity above 0.4 once the
    numbers are removed); hasContradictions is true, the penalty is 0.15,
    and the one decay reason is of type contradiction and cites the id of
    the related document.  (The TF-IDF gives the text without its numbers
    a term of weight above 0.1 that becomes a property of the vector, which
    an assignment under the name __proto__ does not.) *)
Theorem detectContradictions_numeric_conflict (subject related : Document) :
  sqrt_accurate Math_sqrt ->
  (exists item, In item (listTerms withoutNumbers) /\ 0.1 < snd item
                /\ fst item <> "__proto__"%string) ->
  content subject = Some (fiveMinutes ++ ".")%string ->
  content related = Some (fifteenMinutes ++ ".")%string ->
  updatedAt subject = jan1_2024 ->
  updatedAt related = jun1_2024 ->
  let r := detectContradictions subject [related] in
  let s1 := Str.toLowerCase fiveMinutes in
  let s2 := Str.toLowerCase fifteenMinutes in
  Contradictions.hasContradictions r = true
  /\ 0 < Contradictions.penalty r
  /\ Contradictions.penalty r == 0.15
  /\ Contradictions.contradictions r = [minutesContradiction subject related]
  /\ Contradictions.decayReasons r
     = Some [contradictionReason (minutesContradiction subject related)]
  /\ reasonType (contradictionReason (minutesContradiction subject related)) = contradiction
  /\ sources (contradictionReason (minutesContradiction subject related)) = [id related]
  /\ negationCheck negationPatterns s1 s2 = None
  /\ map (fun m => (numText m, unitText m)) (matchAll true numPattern s1)
     = [("5", "minutes")]%string
  /\ map (fun m => (numText m, unitText m)) (matchAll true numPattern s2)
     = [("15", "minutes")]%string
  /\ exists similarity,
       cosineSimilarity
         (Some (generateTfIdfEmbedding (Some (removeAll true numPattern s1))))
         (Some (generateTfIdfEmbedding (Some (removeAll true numPattern s2))))
       = Some similarity
       /\ 0.4 < similarity.
Proof.
  intros Hacc Hitem Hc1 Hc2 Hd1 Hd2 r s1 s2.
  pose proof (detectStatementContradiction_minutes Hacc Hitem) as Hstmt.
  assert (Hr : Contradictions.contradictions r = [minutesContradiction subject related]).
  { unfold r, detectContradictions. cbn [Contradictions.contradictions flat_map].
    rewrite Hd1, Hd2.
    replace (dateLt jun1_2024 jan1_2024) with false by (vm_compute; reflexivity).
    cbn [andb]. unfold contradictionsWith.
    rewrite Hc1, Hc2, extractKeyStatements_fiveMinutes, extractKeyStatements_fifteenMinutes.
    cbn [flat_map]. rewrite Hstmt. reflexivity. }
  assert (Hall : r = {| Contradictions.hasContradictions := true;
                        Contradictions.contradictions :=
                          [minutesContradiction subject related];
                        Contradictions.penalty :=
                          calculateContradictionPenalty [minutesContradiction subject related];
                        Contradictions.decayReasons :=
                          Some [contradictionReason (minutesContradiction subject related)] |}).
  { unfold r, detectContradictions in *. cbn [Contradictions.contradictions] in Hr.
    rewrite Hr. reflexivity. }
  rewrite Hall. cbn [Contradictions.hasContradictions Contradictions.contradictions
                     Contradictions.penalty Contradictions.decayReasons].
  repeat split; try reflexivity.
  - destruct (@generateTfIdfEmbedding_positive withoutNumbers) as [k [w [rest [E Hw]]]].
    + discriminate.
    + replace (Str.toLowerCase withoutNumbers) with withoutNumbers
        by (vm_compute; reflexivity).
      exact Hitem.
    + replace (removeAll true numPattern s1) with withoutNumbers by (vm_compute; reflexivity).
      replace (removeAll true numPattern s2) with withoutNumbers by (vm_compute; reflexivity).
      rewrite E, (cosineSimilarity_self k rest Hacc Hw).
      eexists. split; reflexivity.
Qed.


(** For two sparse vectors, the sums of the similarity are NaN exactly when
    a key of one of them names a member of Object.prototype and is not a
    key of the other, which then reads the member where 0 is meant. *)
Lemma sparse_number (terms : list (string * Q)) (term : string) :
  toNumber (orZero (getProp (Sparse terms) term)) = None
  <-> inherited term = true /\ ~ In term (Object_keys (Sparse terms)).
Proof.
  unfold getProp.
  destruct (ownProp (Sparse terms) term) as [w|] eqn:E.
  - cbn [orZero]. split.
    + destruct (Num.eqb w 0); discriminate.
    + intros [_ H]. exfalso. apply H. apply ownProp_key. now exists w.
  - assert (Hn : ~ In term (Object_keys (Sparse terms))).
    { intros H. apply ownProp_key in H. destruct H as [w H]. congruence. }
    destruct (inherited term); cbn [orZero toNumber].
    + split; [intros _; now split | reflexivity].
    + split; [discriminate | intros [H _]; discriminate H].
Qed.

Lemma cosineSums_sparse_NaN (terms1 terms2 : list (string * Q)) :
  cosineSums (Sparse terms1) (Sparse terms2) = None
  <-> exists term,
        inherited term = true
        /\ ((In term (map fst terms1) /\ ~ In term (map fst terms2))
            \/ (In term (map fst terms2) /\ ~ In term (map fst terms1))).
Proof.
  unfold cosineSums. cbv zeta.
  change (Object_keys (Sparse terms1)) with (map fst terms1).
  change (Object_keys (Sparse terms2)) with (map fst terms2).
  set (allTerms := dedupe (map fst terms1 ++ map fst terms2)).
  pose proof (fold_cosineStep_Some (Sparse terms1) (Sparse terms2) allTerms zeroSums) as Hs.
  split.
  - intros Hnone.
    assert (Hnot : ~ Forall (fun term =>
                      toNumber (orZero (getProp (Sparse terms1) term)) <> None
                      /\ toNumber (orZero (getProp (Sparse terms2) term)) <> None)
                     allTerms).
    { intros HF. apply Hs in HF. destruct HF as [s HF]. congruence. }
    clear Hs Hnone.
    assert (Hin : forall t, In t allTerms -> In t (map fst terms1) \/ In t (map fst terms2)).
    { intros t Ht. apply (proj1 (dedupe_In _ _)) in Ht. now apply in_app_iff in Ht. }
    induction allTerms as [|t rest IH].
    + exfalso. apply Hnot. constructor.
    + destruct (toNumber (orZero (getProp (Sparse terms1) t))) as [x|] eqn:E1.
      * destruct (toNumber (orZero (getProp (Sparse terms2) t))) as [y|] eqn:E2.
        -- apply IH.
           ++ intros HF. apply Hnot. constructor; [split; congruence | exact HF].
           ++ intros t' Ht'. apply Hin. now right.
        -- apply sparse_number in E2. destruct E2 as [Hi Hn2].
           exists t. split; [exact Hi|]. left. split; [|exact Hn2].
           destruct (Hin t (or_introl eq_refl)) as [H | H]; [exact H | contradiction].
      * apply sparse_number in E1. destruct E1 as [Hi Hn1].
        exists t. split; [exact Hi|]. right. split; [|exact Hn1].
        destruct (Hin t (or_introl eq_refl)) as [H | H]; [contradiction | exact H].
  - intros [term [Hi Hterm]].
    destruct (fold_left (cosineStep (Sparse terms1) (Sparse terms2)) allTerms
                (Some zeroSums)) as [s|] eqn:Ef; [|reflexivity].
    exfalso.
    assert (HF : exists s', Some s = Some s') by now exists s.
    apply Hs in HF. rewrite Forall_forall in HF.
    assert (Hall : In term allTerms).
    { apply dedupe_In, in_app_iff. destruct Hterm as [[H _] | [H _]]; [left | right]; exact H. }
    destruct (HF term Hall) as [N1 N2].
    destruct Hterm as [[_ Hn] | [_ Hn]].
    + apply N2. apply sparse_number. now split.
    + apply N1. apply sparse_number. now split.
Qed.

(** ** The dense branch of calculateSimilarity *)

(** C8, on the code.  The dense branch of calculateSimilarity neither
    rounds nor guards its second vector: on [1, 0, 0] and [1, 2, 2] it
    returns 1/3, which has no three-decimal expansion, where
    cosineSimilarity returns 0.333; and on [1] and the empty array it
    returns NaN, where cosineSimilarity returns 0.  The sparse branch,
    cosineSimilarity, returns 0 when a vector is empty or a norm is zero,
    and a result of it that is a number has three decimals, also on arrays,
    which it reads through their indices; the semantic difference is one
    minus the similarity, with three decimals.  But cosineSimilarity reads
    a term that a vector has not through the prototype of the vector: two
    sparse vectors that are not empty have the similarity NaN, and the
    semantic difference NaN, exactly when a key of one names a member of
    Object.prototype and is not a key of the other; so it is for the
    vectors of constructor and of alpha, whose similarity is meant to be
    0. *)
Theorem calculateSimilarity_dense_unrounded :
  sqrt_exact_on_squares Math_sqrt ->
  let a := Dense [1; 0; 0] in
  let b := Dense [1; 2; 2] in
  (exists q, calculateSimilarity a b = Some q
             /\ q == 1 # 3
             /\ forall k : Z, ~ q == k # 1000)
  /\ cosineSimilarity (Some a) (Some b) = Some (333 # 1000)
  /\ calculateSimilarity (Dense [1]) (Dense []) = None
  /\ cosineSimilarity (Some (Dense [1])) (Some (Dense [])) = Some 0
  /\ (forall v1 v2 : Embedding,
        Object_keys v1 = [] \/ Object_keys v2 = []
        \/ (exists s, cosineSums v1 v2 = Some s /\ (norm1 s == 0 \/ norm2 s == 0)) ->
        cosineSimilarity (Some v1) (Some v2) = Some 0)
  /\ (forall (vec1 vec2 : option Embedding) (q : Q),
        cosineSimilarity vec1 vec2 = Some q -> exists k : Z, q == k # 1000)
  /\ (forall (terms : list (string * Q)) (v2 : Embedding),
        calculateSimilarity (Sparse terms) v2
        = cosineSimilarity (Some (Sparse terms)) (Some v2))
  /\ (forall text1 text2 : option string,
        match cosineSimilarity (Some (generateTfIdfEmbedding text1))
                               (Some (generateTfIdfEmbedding text2)) with
        | Some similarity =>
            exists d, calculateSemanticDifference text1 text2 = Some d
                      /\ d == 1 - similarity
                      /\ exists k : Z, d = k # 1000
        | None => calculateSemanticDifference text1 text2 = None
        end)
  /\ (forall terms1 terms2 : list (string * Q),
        terms1 <> [] -> terms2 <> [] ->
        (cosineSimilarity (Some (Sparse terms1)) (Some (Sparse terms2)) = None
         <-> exists term,
               inherited term = true
               /\ ((In term (map fst terms1) /\ ~ In term (map fst terms2))
                   \/ (In term (map fst terms2) /\ ~ In term (map fst terms1)))))
  /\ cosineSimilarity (Some (Sparse [("constructor"%string, 0.5)]))
                      (Some (Sparse [("alpha"%string, 0.5)])) = None.
Proof.
  intros Hsq a b.
  assert (H1 : Math_sqrt 1 == 1) by (apply (Hsq 1%Z); [lia | reflexivity]).
  assert (H9 : Math_sqrt 9 == 3) by (apply (Hsq 3%Z); [lia | reflexivity]).
  assert (Hmag : Math_sqrt 1 * Math_sqrt 9 == 3) by (rewrite H1, H9; reflexivity).
  assert (Hne : Num.eqb (Math_sqrt 1 * Math_sqrt 9) 0 = false).
  { unfold Num.eqb. destruct (Qeq_bool (Math_sqrt 1 * Math_sqrt 9) 0) eqn:E; [|reflexivity].
    apply Qeq_bool_iff in E. rewrite Hmag in E. discriminate E. }
  split; [|split; [|split; [|split; [|split; [|split; [|split; [|split; [|split]]]]]]]].
  - unfold calculateSimilarity, a.
    replace (denseSums [1; 0; 0] b 0 (Some zeroSums))
      with (Some {| dotProduct := 1; norm1 := 1; norm2 := 9 |})
      by (vm_compute; reflexivity).
    cbn [dotProduct norm1 norm2]. rewrite Hne.
    eexists. split; [reflexivity|].
    assert (E : 1 / (Math_sqrt 1 * Math_sqrt 9) == 1 # 3) by (rewrite Hmag; reflexivity).
    split; [exact E|].
    intros k Hk. rewrite E in Hk. unfold Qeq in Hk. simpl in Hk. lia.
  - unfold cosineSimilarity.
    replace (Object_keys a) with ["0"; "1"; "2"]%string by (vm_compute; reflexivity).
    replace (Object_keys b) with ["0"; "1"; "2"]%string by (vm_compute; reflexivity).
    cbv iota beta.
    replace (cosineSums a b) with (Some {| dotProduct := 1; norm1 := 1; norm2 := 9 |})
      by (vm_compute; reflexivity).
    cbv zeta. cbn [dotProduct norm1 norm2]. rewrite Hne.
    assert (E : 1 / (Math_sqrt 1 * Math_sqrt 9) * 1000 == 1000 # 3)
      by (rewrite Hmag; reflexivity).
    unfold Num.round3. f_equal. f_equal. apply Math_round_near; rewrite E.
    + unfold Qle. simpl. lia.
    + unfold Qlt. simpl. lia.
  - reflexivity.
  - reflexivity.
  - intros v1 v2 [H | [H | [s [Hs H]]]].
    + apply cosineSimilarity_empty. left. exact H.
    + apply cosineSimilarity_empty. right. exact H.
    + apply (cosineSimilarity_zero_norm _ _ Hsq Hs H).
  - apply cosineSimilarity_decimals.
  - reflexivity.
  - apply calculateSemanticDifference_spec.
  - intros terms1 terms2 Hn1 Hn2. rewrite <- cosineSums_sparse_NaN.
    unfold cosineSimilarity.
    change (Object_keys (Sparse terms1)) with (map fst terms1).
    change (Object_keys (Sparse terms2)) with (map fst terms2).
    destruct terms1 as [|kv1 rest1]; [contradiction|].
    destruct terms2 as [|kv2 rest2]; [contradiction|].
    cbn [map]. cbv iota beta.
    destruct (cosineSums (Sparse (kv1 :: rest1)) (Sparse (kv2 :: rest2))) as [s|].
    + cbv zeta. split; [|discriminate].
      match goal with |- context [if ?c then _ else _] => destruct c end; discriminate.
    + split; reflexivity.
  - reflexivity.
Qed.


(** ** The decay engine *)

Lemma bind_Ok {A B : Type} (a : A) (f : A -> Result B) : bind (Ok a) f = f a.
Proof. reflexivity. Qed.

Lemma assembleVerdict_flag (document : Document) (relatedDocs : list Document)
    (freshnessResult : Freshness.result) (contradictionResult : Contradictions.result)
    (driftResult : Drift.result) :
  let v := assembleVerdict document relatedDocs freshnessResult contradictionResult
             driftResult in
  decay_detected v = shouldFlagDecay (confidence_score v) (risk_level v)
  /\ 0 <= confidence_score v <= 1.
Proof.
  intros v. split.
  - reflexivity.
  - unfold v, assembleVerdict. cbv zeta. cbn [confidence_score].
    match goal with
    | |- context [calculateConfidence ?p] =>
        destruct (calculateConfidenceWith_confidence Num.round2 p) as [c [Hc E]];
        fold (calculateConfidence p) in E; rewrite E
    end.
    apply round2_unit, Hc.
Qed.

Lemma analyzeWithEmbedding_verdict (document : Document)
    (versions : list (option VersionSnapshot)) (relatedDocs allDocs : list Document)
    (v : Verdict) :
  analyzeWithEmbedding document versions relatedDocs allDocs = Ok v ->
  decay_detected v = shouldFlagDecay (confidence_score v) (risk_level v)
  /\ 0 <= confidence_score v <= 1.
Proof.
  unfold analyzeWithEmbedding. cbv zeta. intros H.
  destruct (analyzeVersionDrift document versions) as [driftResult|m]; [|discriminate H].
  rewrite bind_Ok in H. injection H as <-. apply assembleVerdict_flag.
Qed.

Lemma analyzeWithEmbedding_returns (document : Document)
    (versions : list (option VersionSnapshot)) (relatedDocs allDocs : list Document) :
  (exists r, analyzeVersionDrift document versions = Ok r) ->
  exists v, analyzeWithEmbedding document versions relatedDocs allDocs = Ok v.
Proof.
  intros [r Hr]. unfold analyzeWithEmbedding. cbv zeta. rewrite Hr, bind_Ok.
  eexists. reflexivity.
Qed.

Lemma analyzeDocument_verdict (document : Document)
    (versions : list (option VersionSnapshot)) (relatedDocs allDocs : list Document)
    (v : Verdict) (document' : Document) :
  analyzeDocument document versions relatedDocs allDocs = (Ok v, document') ->
  analyzeWithEmbedding document' versions relatedDocs allDocs = Ok v.
Proof.
  unfold analyzeDocument. intros H.
  destruct (ensureEmbedding document) as [d|m]; [|discriminate].
  injection H as H1 H2. subst d. exact H1.
Qed.

(** C1.  The verdict of every analyzed document has decay_detected true
    exactly when its confidence is below 1 or its risk level is not low;
    shouldFlagDecay is false at confidence 1 and risk low, and true at
    every other confidence of the range of scores (at most 1) and risk
    level. *)
Theorem decay_detected_iff (document : Document)
    (versions : list (option VersionSnapshot)) (relatedDocs allDocs : list Document)
    (v : Verdict) (document' : Document) (confidence : Q) (riskLevel : RiskLevel) :
  analyzeDocument document versions relatedDocs allDocs = (Ok v, document') ->
  confidence <= 1 ->
  (decay_detected v = true <-> (confidence_score v < 1 \/ risk_level v <> low))
  /\ (shouldFlagDecay confidence riskLevel = true <-> (confidence < 1 \/ riskLevel <> low))
  /\ shouldFlagDecay 1 low = false
  /\ (~ (confidence == 1 /\ riskLevel = low) -> shouldFlagDecay confidence riskLevel = true).
Proof.
  intros Hrun Hc.
  apply analyzeDocument_verdict, analyzeWithEmbedding_verdict in Hrun.
  destruct Hrun as [Hflag _].
  split; [|split; [|split]].
  - rewrite Hflag. apply shouldFlagDecay_iff.
  - apply shouldFlagDecay_iff.
  - reflexivity.
  - intros Hother. apply shouldFlagDecay_iff.
    destruct riskLevel; try (right; discriminate).
    left. apply Qnot_le_lt. intros Hge. apply Hother. split; [lra | reflexivity].
Qed.

(** C9, as amended.  analyzeDocument writes one property of one of its
    inputs: when the document has no embedding, the embedding obtained from
    the provider is stored in document.embedding; when it has one, or when
    the provider throws, the document is left as it was.  All other
    properties of the document are unchanged in every case. *)
Theorem analyzeDocument_writes_embedding_only (document : Document)
    (priorVersions : list (option VersionSnapshot)) (relatedDocs allDocs : list Document) :
  let document' := snd (analyzeDocument document priorVersions relatedDocs allDocs) in
  (id document' = id document
   /\ title document' = title document
   /\ type document' = type document
   /\ content document' = content document
   /\ currentVersion document' = currentVersion document
   /\ updatedAt document' = updatedAt document
   /\ lastVerifiedAt document' = lastVerifiedAt document
   /\ versions document' = versions document)
  /\ (forall e, embedding document = Some e -> document' = document)
  /\ (embedding document = None ->
      forall e, getEmbedding (content document) = Ok e ->
                document' = setEmbedding document e /\ embedding document' = Some e)
  /\ (embedding document = None ->
      forall m, getEmbedding (content document) = Throw m ->
                document' = document
                /\ fst (analyzeDocument document priorVersions relatedDocs allDocs) = Throw m).
Proof.
  intros document'. unfold document', analyzeDocument, ensureEmbedding.
  destruct (embedding document) as [e0|] eqn:Ee.
  - cbn [snd]. split; [|split; [|split]].
    + repeat (split; [reflexivity|]). reflexivity.
    + intros e _. reflexivity.
    + intros H. discriminate H.
    + intros H. discriminate H.
  - destruct (getEmbedding (content document)) as [e|m] eqn:Eg.
    + rewrite bind_Ok. cbn [snd]. split; [|split; [|split]].
      * repeat (split; [reflexivity|]). reflexivity.
      * intros e' H. discriminate H.
      * intros _ e' He'. injection He' as <-. split; reflexivity.
      * intros _ m' Hm'. discriminate Hm'.
    + cbn [bind snd fst]. split; [|split; [|split]].
      * repeat (split; [reflexivity|]). reflexivity.
      * intros e' H. discriminate H.
      * intros _ e' He'. discriminate He'.
      * intros _ m' Hm'. injection Hm' as <-. split; reflexivity.
Qed.


Lemma getEmbedding_supported (text : option string) :
  supportedProvider = true -> exists e, getEmbedding text = Ok e.
Proof.
  unfold supportedProvider, getEmbedding. cbv zeta. intros H.
  destruct (String.eqb providerName "tfidf"); [eexists; reflexivity|].
  simpl in H. rewrite H.
  destruct (embedContent text); eexists; reflexivity.
Qed.

Lemma driftLoop_present (document : Document) (vs : list (option VersionSnapshot))
    (st : DriftLoop) :
  versionsPresent vs = true -> exists st', driftLoop document vs st = Ok st'.
Proof.
  revert st. induction vs as [|[v|] rest IH]; intros st H; simpl in *.
  - eexists. reflexivity.
  - apply IH, H.
  - discriminate H.
Qed.

Lemma analyzeVersionDrift_present (document : Document) (vs : list (option VersionSnapshot)) :
  versionsPresent vs = true -> exists r, analyzeVersionDrift document vs = Ok r.
Proof.
  intros H. unfold analyzeVersionDrift.
  destruct vs as [|v rest]; [eexists; reflexivity|].
  destruct (driftLoop_present document (v :: rest)
              {| loopChanges := []; maxDrift := 0 |} H) as [st' Hst].
  rewrite Hst, bind_Ok. eexists. reflexivity.
Qed.

Lemma analyzeDocument_returns (document : Document) (vs : list (option VersionSnapshot))
    (relatedDocs allDocs : list Document) :
  supportedProvider = true -> versionsPresent vs = true ->
  exists v, fst (analyzeDocument document vs relatedDocs allDocs) = Ok v.
Proof.
  intros Hp Hv. unfold analyzeDocument, ensureEmbedding.
  destruct (embedding document).
  - cbn [fst]. apply analyzeWithEmbedding_returns, analyzeVersionDrift_present, Hv.
  - destruct (getEmbedding_supported (content document) Hp) as [e He].
    rewrite He, bind_Ok. cbn [fst].
    apply analyzeWithEmbedding_returns, analyzeVersionDrift_present, Hv.
Qed.

Lemma getEmbedding_cases (text : option string) :
  (providerName = "tfidf"%string /\ getEmbedding text = Ok (generateTfIdfEmbedding text))
  \/ (providerName = "gemini"%string
      /\ exists values, embedContent text = Some values
                        /\ getEmbedding text = Ok (Dense values))
  \/ (providerName = "gemini"%string /\ embedContent text = None
      /\ getEmbedding text = Ok (generateTfIdfEmbedding text))
  \/ (supportedProvider = false /\ providerName = "openai"%string
      /\ getEmbedding text
         = Throw "OpenAI embeddings deprecated. Use EMBEDDING_PROVIDER=gemini")
  \/ (supportedProvider = false /\ providerName <> "openai"%string
      /\ getEmbedding text = Throw ("Unknown embedding provider: " ++ providerName)).
Proof.
  unfold getEmbedding, supportedProvider. cbv zeta.
  destruct (String.eqb providerName "tfidf") eqn:E1.
  - left. apply String.eqb_eq in E1. split; [exact E1 | reflexivity].
  - destruct (String.eqb providerName "gemini") eqn:E2.
    + apply String.eqb_eq in E2. destruct (embedContent text) as [values|] eqn:Ec.
      * right. left. split; [exact E2|]. exists values. split; reflexivity.
      * right. right. left. split; [exact E2|]. split; reflexivity.
    + destruct (String.eqb providerName "openai") eqn:E3.
      * apply String.eqb_eq in E3. right. right. right. left.
        split; [reflexivity|]. split; [exact E3 | reflexivity].
      * apply String.eqb_neq in E3. right. right. right. right.
        split; [reflexivity|]. split; [exact E3 | reflexivity].
Qed.

Lemma supportedProvider_names :
  supportedProvider = true
  <-> providerName = "tfidf"%string \/ providerName = "gemini"%string.
Proof.
  unfold supportedProvider. rewrite orb_true_iff, !String.eqb_eq. reflexivity.
Qed.

Lemma versionsPresent_false (document : Document) (vs : list (option VersionSnapshot))
    (st : DriftLoop) :
  versionsPresent vs = false ->
  driftLoop document vs st = Throw (nullPropertyError "embedding").
Proof.
  revert st. induction vs as [|[v|] rest IH]; intros st H; cbn in *.
  - discriminate H.
  - apply IH, H.
  - reflexivity.
Qed.

Lemma analyzeVersionDrift_absent (document : Document) (vs : list (option VersionSnapshot)) :
  versionsPresent vs = false ->
  analyzeVersionDrift document vs = Throw (nullPropertyError "embedding").
Proof.
  intros H. unfold analyzeVersionDrift. destruct vs as [|v rest]; [discriminate H|].
  now rewrite (versionsPresent_false document _ _ H).
Qed.

(** What makes the analysis of a document throw. *)
Lemma analyzeDocument_outcome (document : Document)
    (vs : list (option VersionSnapshot)) (relatedDocs allDocs : list Document) :
  let outcome := fst (analyzeDocument document vs relatedDocs allDocs) in
  let embeds := match embedding document with Some _ => true | None => supportedProvider end in
  ((exists v, outcome = Ok v) <-> embeds = true /\ versionsPresent vs = true)
  /\ (embeds = false ->
      exists m, getEmbedding (content document) = Throw m /\ outcome = Throw m)
  /\ (embeds = true -> versionsPresent vs = false ->
      outcome = Throw (nullPropertyError "embedding")).
Proof.
  intros outcome embeds.
  assert (Hno : embeds = false ->
                exists m, getEmbedding (content document) = Throw m /\ outcome = Throw m).
  { unfold embeds, outcome, analyzeDocument, ensureEmbedding.
    destruct (embedding document); [discriminate|]. intros Hs.
    destruct (getEmbedding_cases (content document))
      as [[Hp _] | [[Hp _] | [[Hp _] | [[_ [_ Ht]] | [_ [_ Ht]]]]]];
      try (assert (supportedProvider = true) by (apply supportedProvider_names; auto);
           congruence);
      rewrite Ht; cbn [bind fst]; eexists; split; reflexivity. }
  assert (Hnull : embeds = true -> versionsPresent vs = false ->
                  outcome = Throw (nullPropertyError "embedding")).
  { unfold embeds, outcome, analyzeDocument, ensureEmbedding. intros He Hv.
    destruct (embedding document) as [e|].
    - cbn [fst]. unfold analyzeWithEmbedding. cbv zeta.
      now rewrite (analyzeVersionDrift_absent _ _ Hv).
    - destruct (getEmbedding_supported (content document) He) as [e Hge].
      rewrite Hge, bind_Ok. cbn [fst]. unfold analyzeWithEmbedding. cbv zeta.
      now rewrite (analyzeVersionDrift_absent _ _ Hv). }
  split; [|split; [exact Hno | exact Hnull]].
  split.
  - intros [v Hv]. destruct embeds eqn:Ee.
    + split; [reflexivity|]. destruct (versionsPresent vs) eqn:Ep; [reflexivity|].
      rewrite (Hnull eq_refl eq_refl) in Hv. discriminate Hv.
    + destruct (Hno eq_refl) as [m [_ Hm]]. rewrite Hm in Hv. discriminate Hv.
  - intros [He Hp]. unfold embeds in He. unfold outcome, analyzeDocument, ensureEmbedding.
    destruct (embedding document) as [e|].
    + cbn [fst]. apply analyzeWithEmbedding_returns, analyzeVersionDrift_present, Hp.
    + destruct (getEmbedding_supported (content document) He) as [e Hge].
      rewrite Hge, bind_Ok. cbn [fst].
      apply analyzeWithEmbedding_returns, analyzeVersionDrift_present, Hp.
Qed.

Lemma batchStep_recorded (allDocs : list Document) (document : Document) :
  recorded document (fst (analyzeDocument document (versionsOf document) [] allDocs))
           (fst (batchStep allDocs document)).
Proof.
  unfold batchStep. cbv zeta.
  destruct (analyzeDocument document (versionsOf document) [] allDocs) as [[v|m] d'];
    cbn [fst recorded].
  - reflexivity.
  - eexists. repeat (split; [reflexivity|]). reflexivity.
Qed.

(** C2, on the code.  batchAnalyze returns one record per document, in the
    order of the documents, and no exception leaves it: a document whose
    analysis throws gets the error record (risk high, decay_detected false,
    confidence 0, one reason of type error with the message), every other
    document gets its verdict.  The analysis throws in two cases: when the
    document has no embedding and the embedding provider is neither tfidf
    nor gemini, with the message of the provider, and when an entry of the
    versions of the document is null.  In every other case the document
    gets a verdict, whatever its other properties are: a document whose
    content is null or missing is not a failure, it is read as an empty
    text, without terms and without statements, and is analyzed, where the
    claim asks for an error record. *)
Theorem batchAnalyze_one_record_each (documents allDocs : list Document)
    (document : Document) :
  let results := fst (batchAnalyze documents allDocs) in
  let embeds :=
    match embedding document with Some _ => true | None => supportedProvider end in
  List.length results = List.length documents
  /\ Forall2
       (fun d r =>
          recorded d (fst (analyzeDocument d (versionsOf d) [] allDocs)) r)
       documents results
  /\ (embeds = false ->
      exists message,
        getEmbedding (content document) = Throw message
        /\ recorded document (Throw message) (fst (batchStep allDocs document)))
  /\ (embeds = true -> versionsPresent (versionsOf document) = false ->
      recorded document (Throw (nullPropertyError "embedding"))
               (fst (batchStep allDocs document)))
  /\ (embeds = true -> versionsPresent (versionsOf document) = true ->
      exists v, fst (batchStep allDocs document)
                = Analysis (id document) (title document) v)
  /\ (content document = None ->
      generateTfIdfEmbedding (content document) = Sparse []
      /\ extractKeyStatements (content document) = []).
Proof.
  intros results embeds. unfold results, batchAnalyze. cbv zeta. cbn [fst].
  pose proof (batchStep_recorded allDocs document) as Hrec.
  destruct (analyzeDocument_outcome document (versionsOf document) [] allDocs)
    as [Hok [Hno Hnull]].
  cbv zeta in Hok, Hno, Hnull. fold embeds in Hok, Hno, Hnull.
  split; [|split; [|split; [|split; [|split]]]].
  - now rewrite !length_map.
  - rewrite map_map. clear Hrec Hok Hno Hnull.
    induction documents as [|d rest IH]; simpl.
    + constructor.
    + constructor; [apply batchStep_recorded | exact IH].
  - intros He. destruct (Hno He) as [message [Hm Hout]].
    exists message. split; [exact Hm|]. rewrite Hout in Hrec. exact Hrec.
  - intros He Hv. rewrite (Hnull He Hv) in Hrec. exact Hrec.
  - intros He Hv. destruct (proj2 Hok (conj He Hv)) as [v Hrun].
    rewrite Hrun in Hrec. exists v. exact Hrec.
  - intros Hc. rewrite Hc. split; reflexivity.
Qed.

(* ================================================================== *)
(** * Further properties of the services *)
(* ================================================================== *)

(** ** The confidence scorer *)

Lemma round3_mono (x y : Q) : x <= y -> Num.round3 x <= Num.round3 y.
Proof.
  intros H. unfold Num.round3, Qle. cbn [Qnum Qden].
  apply Z.mul_le_mono_nonneg_r; [lia|]. apply Math_round_mono. lra.
Qed.

Lemma round2_mono (x y : Q) : x <= y -> Num.round2 x <= Num.round2 y.
Proof.
  intros H. unfold Num.round2, Qle. cbn [Qnum Qden].
  apply Z.mul_le_mono_nonneg_r; [lia|]. apply Math_round_mono. lra.
Qed.

Lemma Math_min_mono (a a' b : Q) : a <= a' -> Num.Math_min a b <= Num.Math_min a' b.
Proof.
  intros H. unfold Num.Math_min.
  destruct (a <=? b)%Q eqn:E1, (a' <=? b)%Q eqn:E2;
    try apply leb_le in E1; try apply leb_le in E2;
    try apply leb_gt in E1; try apply leb_gt in E2; lra.
Qed.

Lemma Math_min_nonneg (a b : Q) : 0 <= a -> 0 <= b -> 0 <= Num.Math_min a b.
Proof.
  intros Ha Hb. unfold Num.Math_min. destruct (a <=? b)%Q; assumption.
Qed.

Lemma clamp_mono (x y : Q) :
  x <= y -> Num.Math_max 0 (Num.Math_min 1 x) <= Num.Math_max 0 (Num.Math_min 1 y).
Proof.
  intros H. unfold Num.Math_max, Num.Math_min.
  destruct (1 <=? x)%Q eqn:E1, (1 <=? y)%Q eqn:E2;
    try apply leb_le in E1; try apply leb_le in E2;
    try apply leb_gt in E1; try apply leb_gt in E2;
    repeat match goal with
           | |- context [(?a <=? ?b)%Q] =>
               let E := fresh "E" in
               destruct (a <=? b)%Q eqn:E;
               [apply leb_le in E | apply leb_gt in E]
           end; lra.
Qed.

Lemma eqb_eq (a b : Q) : Num.eqb a b = true <-> a == b.
Proof. apply Qeq_bool_iff. Qed.

Lemma eqb_neq (a b : Q) : Num.eqb a b = false <-> ~ a == b.
Proof.
  unfold Num.eqb. split.
  - intros H E. apply Qeq_bool_iff in E. congruence.
  - intros H. destruct (Qeq_bool a b) eqn:E; [|reflexivity].
    apply Qeq_bool_iff in E. contradiction.
Qed.

(** The support penalty never grows with the number of supporting
    documents. *)
Lemma supportPenalty_antitone (c1 c2 : Q) :
  0 <= MAX_SUPPORT_PENALTY -> 0 <= c1 -> c1 <= c2 ->
  (if Num.eqb c2 0 then MAX_SUPPORT_PENALTY
   else if (c2 <? 3)%Q then MAX_SUPPORT_PENALTY * (1 - c2 / 3) else 0)
  <= (if Num.eqb c1 0 then MAX_SUPPORT_PENALTY
      else if (c1 <? 3)%Q then MAX_SUPPORT_PENALTY * (1 - c1 / 3) else 0).
Proof.
  intros HM H1 H12.
  assert (E : forall c, MAX_SUPPORT_PENALTY * (1 - c / 3)
                        == MAX_SUPPORT_PENALTY - (MAX_SUPPORT_PENALTY * c) * (1 # 3))
    by (intros; field).
  assert (P1 : 0 <= MAX_SUPPORT_PENALTY * c1) by (apply Qmult_le_0_compat; lra).
  assert (P2 : 0 <= MAX_SUPPORT_PENALTY * c2 - MAX_SUPPORT_PENALTY * c1).
  { setoid_replace (MAX_SUPPORT_PENALTY * c2 - MAX_SUPPORT_PENALTY * c1)
      with (MAX_SUPPORT_PENALTY * (c2 - c1)) by ring.
    apply Qmult_le_0_compat; lra. }
  destruct (Num.eqb c2 0) eqn:E2; [apply eqb_eq in E2 | apply eqb_neq in E2];
    (destruct (Num.eqb c1 0) eqn:E1; [apply eqb_eq in E1 | apply eqb_neq in E1]);
    (destruct (c2 <? 3)%Q eqn:L2; [apply ltb_lt in L2 | apply ltb_ge in L2]);
    (destruct (c1 <? 3)%Q eqn:L1; [apply ltb_lt in L1 | apply ltb_ge in L1]);
    rewrite ?E; try lra.
  assert (P3 : 0 <= 3 * MAX_SUPPORT_PENALTY - MAX_SUPPORT_PENALTY * c1).
  { setoid_replace (3 * MAX_SUPPORT_PENALTY - MAX_SUPPORT_PENALTY * c1)
      with (MAX_SUPPORT_PENALTY * (3 - c1)) by ring.
    apply Qmult_le_0_compat; lra. }
  lra.
Qed.

(** X1.  calculateConfidence is monotone: raising the age, contradiction
    or drift penalty, or lowering the number of supporting documents, never
    raises the confidence, whatever the maximum penalties are (the maximum
    support penalty being non-negative). *)
Theorem calculateConfidence_monotone (p q : Score.Params) :
  0 <= MAX_SUPPORT_PENALTY ->
  Score.agePenalty p <= Score.agePenalty q ->
  Score.contradictionPenalty p <= Score.contradictionPenalty q ->
  Score.driftPenalty p <= Score.driftPenalty q ->
  0 <= Score.supportingDocsCount q ->
  Score.supportingDocsCount q <= Score.supportingDocsCount p ->
  Score.confidence (calculateConfidence q) <= Score.confidence (calculateConfidence p).
Proof.
  intros HM Ha Hc Hd Hq Hs.
  unfold calculateConfidence, calculateConfidenceWith. cbv zeta. cbn [Score.confidence].
  apply round2_mono, clamp_mono.
  pose proof (Math_min_mono MAX_AGE_PENALTY Ha) as Ha'.
  pose proof (Math_min_mono MAX_CONTRADICTION_PENALTY Hc) as Hc'.
  pose proof (Math_min_mono MAX_DRIFT_PENALTY Hd) as Hd'.
  pose proof (supportPenalty_antitone HM Hq Hs) as Hs'.
  lra.
Qed.

(** The risk level, signal by signal. *)
Lemma determineRiskLevel_facts (confidence confidence' : Q)
    (signals : Score.Signals) :
  (determineRiskLevel confidence signals = high
   <-> Score.hasContradictions signals = true \/ confidence < 0.4)
  /\ (determineRiskLevel confidence signals = low
      <-> Score.hasContradictions signals = false
          /\ Score.hasSignificantDrift signals <> Some true
          /\ Score.freshnessStatus signals <> Freshness.critical
          /\ 0.7 <= confidence)
  /\ (confidence <= confidence' ->
      (riskRank (determineRiskLevel confidence' signals)
       <= riskRank (determineRiskLevel confidence signals))%Z).
Proof.
  unfold determineRiskLevel.
  destruct signals as [hc hs fs].
  cbn [Score.hasContradictions Score.hasSignificantDrift Score.freshnessStatus].
  destruct (confidence <? 0.4)%Q eqn:E4; [apply ltb_lt in E4 | apply ltb_ge in E4];
    (destruct (confidence <? 0.7)%Q eqn:E7; [apply ltb_lt in E7 | apply ltb_ge in E7]);
    try lra;
    (split; [|split]);
    try (intros Hle;
         destruct (confidence' <? 0.4)%Q eqn:E4';
         [apply ltb_lt in E4' | apply ltb_ge in E4'];
         (destruct (confidence' <? 0.7)%Q eqn:E7';
          [apply ltb_lt in E7' | apply ltb_ge in E7']);
         try lra;
         destruct hc, hs as [[|]|], fs; cbn; lia);
    destruct hc, hs as [[|]|], fs; cbn;
    (split; [intros H | intros H]);
    try discriminate H; try reflexivity;
    try (left; reflexivity); try (right; assumption);
    try (repeat split; try discriminate; assumption);
    try (destruct H as [H | H]; [discriminate H | lra]);
    try (destruct H as [H1 [H2 [H3 H4]]]; try discriminate H1; try lra; congruence).
Qed.

(** X2.  determineRiskLevel: the level is high exactly when a contradiction
    is signalled or the confidence is below 0.4; it is low exactly when
    nothing is signalled (no contradiction, no significant drift, freshness
    not critical) and the confidence is at least 0.7; and with the same
    signals a higher confidence never gives a higher level. *)
Theorem determineRiskLevel_classification (confidence confidence' : Q)
    (signals : Score.Signals) :
  (determineRiskLevel confidence signals = high
   <-> Score.hasContradictions signals = true \/ confidence < 0.4)
  /\ (determineRiskLevel confidence signals = low
      <-> Score.hasContradictions signals = false
          /\ Score.hasSignificantDrift signals <> Some true
          /\ Score.freshnessStatus signals <> Freshness.critical
          /\ 0.7 <= confidence)
  /\ (confidence <= confidence' ->
      (riskRank (determineRiskLevel confidence' signals)
       <= riskRank (determineRiskLevel confidence signals))%Z).
Proof. apply determineRiskLevel_facts. Qed.

(** ** The freshness evaluator *)

(** The penalty of the warning band before rounding lies between 0.1 and
    0.3 and grows with the age. *)
Lemma warningPenalty_bounds (a w c : Z) :
  (w <= a < c)%Z ->
  0.1 <= 0.1 + 0.2 * ((inject_Z a - inject_Z w) / inject_Z (c - w)) <= 0.3.
Proof.
  intros [Hwa Hac].
  assert (Ec : inject_Z (c - w) == inject_Z c - inject_Z w).
  { unfold Z.sub. rewrite inject_Z_plus, inject_Z_opp. reflexivity. }
  assert (Ha : inject_Z w <= inject_Z a) by (rewrite <- Zle_Qle; exact Hwa).
  assert (Hc : inject_Z a < inject_Z c) by (rewrite <- Zlt_Qlt; exact Hac).
  assert (Hr : 0 < inject_Z (c - w)) by lra.
  assert (H0 : 0 <= (inject_Z a - inject_Z w) / inject_Z (c - w)).
  { apply Qle_shift_div_l; [exact Hr | lra]. }
  assert (H1 : (inject_Z a - inject_Z w) / inject_Z (c - w) <= 1).
  { apply Qle_shift_div_r; [exact Hr | lra]. }
  lra.
Qed.

Lemma warningPenalty_mono (a a' w c : Z) :
  (w < c)%Z -> (a <= a')%Z ->
  0.1 + 0.2 * ((inject_Z a - inject_Z w) / inject_Z (c - w))
  <= 0.1 + 0.2 * ((inject_Z a' - inject_Z w) / inject_Z (c - w)).
Proof.
  intros Hwc H.
  assert (Hr : 0 < inject_Z (c - w)).
  { change 0 with (inject_Z 0). rewrite <- Zlt_Qlt. lia. }
  assert (Hle : (inject_Z a - inject_Z w) / inject_Z (c - w)
                <= (inject_Z a' - inject_Z w) / inject_Z (c - w)).
  { unfold Qdiv. apply Qmult_le_compat_r.
    - rewrite Zle_Qle in H. lra.
    - apply Qlt_le_weak, Qinv_lt_0_compat, Hr. }
  lra.
Qed.

Lemma round3_0 : Num.round3 0 = 0 # 1000.
Proof. reflexivity. Qed.

Lemma round3_03 : Num.round3 0.3 = 300 # 1000.
Proof. reflexivity. Qed.

Lemma round3_01 : Num.round3 0.1 = 100 # 1000.
Proof. reflexivity. Qed.

(** The status, the penalty and the reason of an evaluation. *)
Lemma evaluateFreshness_facts (document : Document) :
  let r := evaluateFreshness document in
  0 <= Freshness.penalty r <= 0.3
  /\ (Freshness.status r = Freshness.fresh <-> Freshness.penalty r == 0)
  /\ (Freshness.status r = Freshness.fresh <-> Freshness.decayReason r = None)
  /\ (Freshness.status r <> Freshness.fresh -> 0.1 <= Freshness.penalty r)
  /\ (Freshness.status r = Freshness.critical -> Freshness.penalty r == 0.3).
Proof.
  intros r. unfold r, evaluateFreshness. cbv zeta.
  assert (Hfresh :
    let f := {| Freshness.status := Freshness.fresh;
                Freshness.ageDays :=
                  calculateAgeDays (dateOr (lastVerifiedAt document) (updatedAt document));
                Freshness.thresholds := getThresholds (type document);
                Freshness.penalty := Num.round3 0;
                Freshness.decayReason := None |} in
    0 <= Freshness.penalty f <= 0.3
    /\ (Freshness.status f = Freshness.fresh <-> Freshness.penalty f == 0)
    /\ (Freshness.status f = Freshness.fresh <-> Freshness.decayReason f = None)
    /\ (Freshness.status f <> Freshness.fresh -> 0.1 <= Freshness.penalty f)
    /\ (Freshness.status f = Freshness.critical -> Freshness.penalty f == 0.3)).
  { cbv zeta. cbn [Freshness.penalty Freshness.status Freshness.decayReason].
    rewrite round3_0.
    split; [lra|]. split; [|split; [|split]].
    - split; intros _; [lra | reflexivity].
    - split; intros _; reflexivity.
    - intros H. congruence.
    - intros H. discriminate H. }
  cbv zeta in Hfresh.
  destruct (getThresholds_cases (type document)) as [[_ [w [c [Ht Hord]]]] | [_ Ht]].
  2: { rewrite Ht in *.
       cbn [memberThresholds Freshness.critical_days Freshness.warning_days].
       rewrite !ageAtLeast_undefined. exact Hfresh. }
  destruct (calculateAgeDays (dateOr (lastVerifiedAt document) (updatedAt document)))
    as [a|].
  2: { exact Hfresh. }
  rewrite Ht in *. cbn [thresholdsOf Freshness.critical_days Freshness.warning_days].
  destruct (ageAtLeast (Some a) (Some c)) eqn:Ec.
  - cbn [Freshness.penalty Freshness.status Freshness.decayReason].
    rewrite round3_03.
    split; [lra|]. split; [|split; [|split]].
    + split; intros H; [discriminate H | lra].
    + split; intros H; discriminate H.
    + intros _. lra.
    + intros _. lra.
  - apply ageAtLeast_false in Ec.
    destruct (ageAtLeast (Some a) (Some w)) eqn:Ew.
    + apply ageAtLeast_true in Ew.
      cbn [Freshness.penalty Freshness.status Freshness.decayReason ageQ daysOf].
      pose proof (warningPenalty_bounds (conj Ew Ec)) as [Hlo Hhi].
      pose proof (round3_mono Hlo) as Rlo. rewrite round3_01 in Rlo.
      pose proof (round3_mono Hhi) as Rhi. rewrite round3_03 in Rhi.
      split; [lra|]. split; [|split; [|split]].
      * split; intros H; [discriminate H | lra].
      * split; intros H; discriminate H.
      * intros _. lra.
      * intros H. discriminate H.
    + exact Hfresh.
Qed.

(** X3.  evaluateFreshness: the penalty always lies between 0 and 0.3; the
    status is fresh exactly when the penalty is 0, and exactly when no
    decay reason is given; a status other than fresh carries a penalty of
    at least 0.1, and a critical status the penalty 0.3. *)
Theorem evaluateFreshness_status_and_penalty (document : Document) :
  let r := evaluateFreshness document in
  0 <= Freshness.penalty r <= 0.3
  /\ (Freshness.status r = Freshness.fresh <-> Freshness.penalty r == 0)
  /\ (Freshness.status r = Freshness.fresh <-> Freshness.decayReason r = None)
  /\ (Freshness.status r <> Freshness.fresh -> 0.1 <= Freshness.penalty r)
  /\ (Freshness.status r = Freshness.critical -> Freshness.penalty r == 0.3).
Proof. apply evaluateFreshness_facts. Qed.


(** X6.  getThresholds: a type outside the table (or no type) gets the
    thresholds of Notes, unless it names a member of Object.prototype
    (constructor, toString, __proto__ and the like): the table then gives
    that member in the place of an entry, which is truthy, so that Notes is
    not used, and has neither a warning nor a critical threshold.  For every
    other type the warning threshold lies between 30 and 180 days, the
    critical one between 90 and 365 days, and the warning threshold is below
    the critical one. *)
Theorem getThresholds_fallback_and_bounds (type : option string) :
  (knownType type = false -> inheritedType type = false ->
   getThresholds type = getThresholds (Some "Notes"%string))
  /\ (inheritedType type = true ->
      knownType type = false
      /\ Freshness.warning_days (getThresholds type) = None
      /\ Freshness.critical_days (getThresholds type) = None)
  /\ (inheritedType type = false ->
      exists w c : Z,
        Freshness.warning_days (getThresholds type) = Some w
        /\ Freshness.critical_days (getThresholds type) = Some c
        /\ (30 <= w <= 180)%Z /\ (90 <= c <= 365)%Z /\ (w < c)%Z)
  /\ (inheritedType type = true
      <-> exists name, type = Some name /\ In name Object_prototype).
Proof.
  split; [|split; [|split]].
  - unfold getThresholds, knownType, inheritedType. destruct type as [t|]; [|reflexivity].
    cbn [existsb]. intros Hk Hi.
    repeat (apply orb_false_iff in Hk; destruct Hk as [? Hk]).
    repeat match goal with E : String.eqb _ _ = false |- _ => rewrite E; clear E end.
    rewrite Hi. reflexivity.
  - unfold getThresholds, knownType, inheritedType. destruct type as [t|]; [|discriminate].
    intros Hi. cbn [existsb].
    repeat (match goal with
            | |- context [String.eqb t ?b] =>
                let E := fresh "E" in
                destruct (String.eqb t b) eqn:E;
                [apply String.eqb_eq in E; subst t; discriminate Hi | clear E]
            end).
    rewrite Hi. repeat split; reflexivity.
  - unfold getThresholds, inheritedType. destruct type as [t|].
    + intros Hi.
      repeat (match goal with
              | |- context [String.eqb t ?b] =>
                  destruct (String.eqb t b);
                  [eexists; eexists; split; [reflexivity|]; split; [reflexivity|]; lia |]
              end).
      rewrite Hi. eexists. eexists. split; [reflexivity|]. split; [reflexivity|]. lia.
    + intros _. eexists. eexists. split; [reflexivity|]. split; [reflexivity|]. lia.
  - unfold inheritedType, inherited. destruct type as [t|].
    + rewrite existsb_exists. split.
      * intros [name [Hin E]]. apply String.eqb_eq in E. subst name. now exists t.
      * intros [name [E Hin]]. injection E as <-. exists t. split; [exact Hin|].
        apply String.eqb_refl.
    + split; [discriminate|]. intros [name [E _]]. discriminate E.
Qed.

(** ** The contradiction detector *)

Lemma ascii_compare_refl (c : ascii) : Ascii.compare c c = Eq.
Proof. unfold Ascii.compare. apply N.compare_refl. Qed.

Lemma string_compare_refl (s : string) : String.compare s s = Eq.
Proof.
  induction s as [|c s IH]; [reflexivity|]. cbn [String.compare].
  now rewrite ascii_compare_refl.
Qed.

Lemma string_compare_trans (s1 s2 s3 : string) :
  String.compare s1 s2 = Lt -> String.compare s2 s3 = Lt -> String.compare s1 s3 = Lt.
Proof.
  revert s2 s3. induction s1 as [|c1 s1 IH]; intros [|c2 s2] [|c3 s3];
    cbn [String.compare]; try discriminate; try reflexivity.
  destruct (Ascii.compare c1 c2) eqn:E12; try discriminate;
    destruct (Ascii.compare c2 c3) eqn:E23; try discriminate; intros H1 H2.
  - apply Ascii.compare_eq_iff in E12, E23. subst c2 c3.
    rewrite ascii_compare_refl. now apply IH with s2.
  - apply Ascii.compare_eq_iff in E12. subst c2. now rewrite E23.
  - apply Ascii.compare_eq_iff in E23. subst c3. now rewrite E12.
  - assert (E13 : Ascii.compare c1 c3 = Lt).
    { unfold Ascii.compare in *. rewrite N.compare_lt_iff in *. lia. }
    now rewrite E13.
Qed.

Lemma string_ltb_lt (s1 s2 : string) :
  String.ltb s1 s2 = true <-> String.compare s1 s2 = Lt.
Proof.
  unfold String.ltb. destruct (String.compare s1 s2); split; congruence.
Qed.

(** [a > b] on ranks is a strict order. *)
Lemma rankGt_irrefl (a : Rank) : rankGt a a = false.
Proof.
  destruct a as [n|s]; cbn [rankGt].
  - apply Z.ltb_irrefl.
  - unfold String.ltb. now rewrite string_compare_refl.
Qed.

Lemma rankGt_trans (a b c : Rank) :
  rankGt a b = true -> rankGt b c = true -> rankGt a c = true.
Proof.
  destruct a as [x|x], b as [y|y], c as [z|z]; cbn [rankGt]; try discriminate.
  - intros H1 H2. apply Z.ltb_lt in H1, H2. apply Z.ltb_lt. lia.
  - rewrite !string_ltb_lt. intros H1 H2. exact (string_compare_trans _ _ _ H2 H1).
Qed.

Lemma rankGt_asym (a b : Rank) : rankGt a b = true -> rankGt b a = false.
Proof.
  intros H. destruct (rankGt b a) eqn:E; [|reflexivity].
  pose proof (rankGt_trans _ _ _ H E) as Ht. rewrite rankGt_irrefl in Ht. discriminate Ht.
Qed.

(** The rank of a type: a number from 1 to 5, or the member that the type
    names. *)
Lemma typeRank_cases (type : option string) :
  (inheritedType type = false /\ exists n, typeRank type = RankNumber n /\ (1 <= n <= 5)%Z)
  \/ (inheritedType type = true
      /\ exists name, type = Some name /\ typeRank type = RankMember (memberSource name)).
Proof.
  unfold typeRank, inheritedType. destruct type as [t|].
  - repeat (match goal with
            | |- context [String.eqb t ?b] =>
                let E := fresh "E" in
                destruct (String.eqb t b) eqn:E;
                [apply String.eqb_eq in E; subst t; left; split;
                 [reflexivity | eexists; split; [reflexivity | lia]]
                | clear E]
            end).
    destruct (inherited t).
    + right. split; [reflexivity|]. now exists t.
    + left. split; [reflexivity|]. exists 1%Z. split; [reflexivity | lia].
  - left. split; [reflexivity|]. exists 1%Z. split; [reflexivity | lia].
Qed.

Lemma typeRank_unknown (type : option string) :
  knownType type = false -> inheritedType type = false -> typeRank type = RankNumber 1.
Proof.
  unfold knownType, inheritedType, typeRank. destruct type as [t|]; [|reflexivity].
  cbn [existsb]. intros H Hi.
  repeat (apply orb_false_iff in H; destruct H as [? H]).
  repeat match goal with E : String.eqb _ _ = false |- _ => rewrite E; clear E end.
  rewrite Hi. reflexivity.
Qed.

(** X7.  isMoreAuthoritative is a strict order on documents: no document
    outranks itself, two documents never outrank each other, and outranking
    is transitive.  It follows the rank of the type, from 1 to 5: a
    document whose type is not in the table has rank 1 and outranks
    nothing, and nothing outranks an SOP.  But for a type that names a
    member of Object.prototype the table gives that member in the place of
    a rank: such a document neither outranks nor is outranked by a document
    that has a rank, whatever the rank is, and two such documents compare
    as the strings of their members do, so that a document of type toString
    outranks one of type constructor. *)
Theorem isMoreAuthoritative_strict_order (a b c : Document) :
  isMoreAuthoritative a a = false
  /\ (isMoreAuthoritative a b = true -> isMoreAuthoritative b a = false)
  /\ (isMoreAuthoritative a b = true -> isMoreAuthoritative b c = true ->
      isMoreAuthoritative a c = true)
  /\ (knownType (type a) = false -> inheritedType (type a) = false ->
      isMoreAuthoritative a b = false)
  /\ (type a = Some "SOP"%string -> isMoreAuthoritative b a = false)
  /\ (inheritedType (type a) = true -> inheritedType (type b) = false ->
      isMoreAuthoritative a b = false /\ isMoreAuthoritative b a = false)
  /\ (type a = Some "toString"%string -> type b = Some "constructor"%string ->
      isMoreAuthoritative a b = true).
Proof.
  unfold isMoreAuthoritative.
  split; [|split; [|split; [|split; [|split; [|split]]]]].
  - apply rankGt_irrefl.
  - apply rankGt_asym.
  - apply rankGt_trans.
  - intros Hk Hi. rewrite (typeRank_unknown _ Hk Hi).
    destruct (typeRank_cases (type b)) as [[_ [n [E Hn]]] | [_ [name [_ E]]]]; rewrite E;
      cbn [rankGt]; [apply Z.ltb_ge; lia | reflexivity].
  - intros H. rewrite H.
    destruct (typeRank_cases (type b)) as [[_ [n [E Hn]]] | [_ [name [_ E]]]]; rewrite E;
      [apply Z.ltb_ge; cbn; lia | reflexivity].
  - intros Ha Hb.
    destruct (typeRank_cases (type a)) as [[Ha' _] | [_ [name [_ Ea]]]]; [congruence|].
    destruct (typeRank_cases (type b)) as [[_ [n [Eb _]]] | [Hb' _]]; [|congruence].
    rewrite Ea, Eb. split; reflexivity.
  - intros Ha Hb. rewrite Ha, Hb. reflexivity.
Qed.

Lemma severity_counts (contradictions : list Contradictions.Contradiction) :
  (List.length (filter (fun c => isHigh (Contradictions.severity c)) contradictions)
   + List.length (filter (fun c => isMedium (Contradictions.severity c)) contradictions)
   = List.length contradictions)%nat.
Proof.
  induction contradictions as [|c rest IH]; [reflexivity|].
  cbn [filter]. destruct (Contradictions.severity c); cbn [isHigh isMedium List.length]; lia.
Qed.

(** The weighted count of contradictions has three decimals. *)
Lemma round3_weighted (h m : nat) :
  Num.round3 (inject_Z (Z.of_nat h) * 0.15 + inject_Z (Z.of_nat m) * 0.08)
  = (150 * Z.of_nat h + 80 * Z.of_nat m) # 1000.
Proof.
  unfold Num.round3. f_equal.
  assert (E : inject_Z (150 * Z.of_nat h + 80 * Z.of_nat m)
              == (inject_Z (Z.of_nat h) * 0.15 + inject_Z (Z.of_nat m) * 0.08) * 1000).
  { rewrite inject_Z_plus, !inject_Z_mult.
    change (inject_Z 150) with 150%Q. change (inject_Z 80) with 80%Q. field. }
  apply Math_round_near; lra.
Qed.

(** The value and the range of the penalty for contradictions. *)
Lemma calculateContradictionPenalty_facts
    (contradictions : list Contradictions.Contradiction) :
  let h := List.length (filter (fun c => isHigh (Contradictions.severity c)) contradictions) in
  let m := List.length (filter (fun c => isMedium (Contradictions.severity c)) contradictions) in
  let p := calculateContradictionPenalty contradictions in
  (h + m = List.length contradictions)%nat
  /\ p == Num.Math_min 0.4 (inject_Z (Z.of_nat h) * 0.15 + inject_Z (Z.of_nat m) * 0.08)
  /\ 0 <= p <= 0.4
  /\ (p == 0 <-> contradictions = [])
  /\ ((3 <= h)%nat -> p == 0.4).
Proof.
  intros h m p.
  pose proof (severity_counts contradictions) as Hc. fold h m in Hc.
  assert (Hh : 0 <= inject_Z (Z.of_nat h)).
  { change 0 with (inject_Z 0). rewrite <- Zle_Qle. lia. }
  assert (Hm : 0 <= inject_Z (Z.of_nat m)).
  { change 0 with (inject_Z 0). rewrite <- Zle_Qle. lia. }
  assert (Ep : contradictions <> [] ->
               p = Num.Math_min 0.4 ((150 * Z.of_nat h + 80 * Z.of_nat m) # 1000)).
  { intros Hne. unfold p, calculateContradictionPenalty.
    destruct contradictions as [|c0 rest]; [contradiction|].
    cbv zeta. unfold countQ. fold h m. now rewrite round3_weighted. }
  assert (Ev : (150 * Z.of_nat h + 80 * Z.of_nat m) # 1000
               == inject_Z (Z.of_nat h) * 0.15 + inject_Z (Z.of_nat m) * 0.08).
  { rewrite (Qmake_Qdiv _ 1000), inject_Z_plus, !inject_Z_mult.
    change (inject_Z 150) with 150%Q. change (inject_Z 80) with 80%Q.
    change (inject_Z (Zpos 1000)) with 1000%Q. field. }
  set (k := (150 * Z.of_nat h + 80 * Z.of_nat m)%Z) in *.
  set (x := inject_Z (Z.of_nat h) * 0.15 + inject_Z (Z.of_nat m) * 0.08) in *.
  assert (Hx : 0 <= x) by (unfold x; lra).
  assert (Emin : Num.Math_min 0.4 (k # 1000) == Num.Math_min 0.4 x).
  { unfold Num.Math_min.
    destruct (0.4 <=? k # 1000)%Q eqn:E1; [apply leb_le in E1 | apply leb_gt in E1];
      (destruct (0.4 <=? x)%Q eqn:E2; [apply leb_le in E2 | apply leb_gt in E2]); lra. }
  assert (Hmin : 0 <= Num.Math_min 0.4 x <= 0.4).
  { split; [apply Math_min_nonneg; lra | ].
    unfold Num.Math_min. destruct (0.4 <=? x)%Q eqn:E; [lra | apply leb_gt in E; lra]. }
  destruct contradictions as [|c0 rest] eqn:Ecs.
  - assert (h = 0%nat /\ m = 0%nat) as [Eh Em] by (split; reflexivity).
    split; [exact Hc|]. split; [|split; [|split]].
    + unfold p, calculateContradictionPenalty. unfold x. rewrite Eh, Em.
      reflexivity.
    + unfold p, calculateContradictionPenalty. lra.
    + split; reflexivity.
    + intros H3. lia.
  - assert (Hne : c0 :: rest <> []) by discriminate.
    specialize (Ep Hne).
    assert (Hpos : 0.08 <= x).
    { assert (Hhm : (1 <= Z.of_nat h + Z.of_nat m)%Z) by (cbn [List.length] in Hc; lia).
      rewrite Zle_Qle, inject_Z_plus in Hhm. change (inject_Z 1) with 1%Q in Hhm.
      unfold x. lra. }
    split; [exact Hc|]. split; [|split; [|split]].
    + rewrite Ep. exact Emin.
    + rewrite Ep, Emin. exact Hmin.
    + split; [|discriminate]. rewrite Ep, Emin. intros H0. exfalso.
      revert H0. unfold Num.Math_min.
      destruct (0.4 <=? x)%Q; lra.
    + intros H3. rewrite Ep, Emin.
      assert (H3' : (3 <= Z.of_nat h)%Z) by lia.
      rewrite Zle_Qle in H3'. change (inject_Z 3) with 3%Q in H3'.
      unfold Num.Math_min.
      destruct (0.4 <=? x)%Q eqn:E; [reflexivity | apply leb_gt in E; unfold x in E; lra].
Qed.

(** X8.  calculateContradictionPenalty: with h contradictions of high
    severity and m of medium severity the penalty is 0.15 h + 0.08 m, capped
    at 0.4; it lies between 0 and 0.4, is 0 exactly when there is no
    contradiction, and reaches the cap from three contradictions of high
    severity on. *)
Theorem calculateContradictionPenalty_value
    (contradictions : list Contradictions.Contradiction) :
  let h := List.length (filter (fun c => isHigh (Contradictions.severity c)) contradictions) in
  let m := List.length (filter (fun c => isMedium (Contradictions.severity c)) contradictions) in
  let p := calculateContradictionPenalty contradictions in
  (h + m = List.length contradictions)%nat
  /\ p == Num.Math_min 0.4 (inject_Z (Z.of_nat h) * 0.15 + inject_Z (Z.of_nat m) * 0.08)
  /\ 0 <= p <= 0.4
  /\ (p == 0 <-> contradictions = [])
  /\ ((3 <= h)%nat -> p == 0.4).
Proof. apply calculateContradictionPenalty_facts. Qed.

Lemma contradictionsWith_between (document relatedDoc : Document)
    (c : Contradictions.Contradiction) :
  In c (contradictionsWith document relatedDoc (extractKeyStatements (content document))) ->
  contradictionBetween document relatedDoc c.
Proof.
  unfold contradictionsWith. cbv zeta. intros H.
  apply in_flat_map in H. destruct H as [stmt1 [H1 H]].
  apply in_flat_map in H. destruct H as [stmt2 [H2 H]].
  destruct (Statement.isContradiction (detectStatementContradiction stmt1 stmt2));
    [|contradiction].
  destruct H as [<- | []].
  unfold contradictionBetween.
  cbn [Contradictions.thisDocument Contradictions.conflictsWith Contradictions.documentId
       Contradictions.documentTitle Contradictions.statement].
  repeat (split; [reflexivity|]). split; assumption.
Qed.

Lemma detectContradictions_contradictions (document : Document) (relatedDocs : list Document) :
  Contradictions.contradictions (detectContradictions document relatedDocs)
  = flat_map
      (fun relatedDoc =>
         if compared document relatedDoc
         then contradictionsWith document relatedDoc (extractKeyStatements (content document))
         else [])
      relatedDocs.
Proof.
  unfold detectContradictions. destruct relatedDocs as [|d rest]; [reflexivity|].
  cbv zeta. cbn [Contradictions.contradictions]. apply flat_map_ext.
  intros x. unfold compared.
  destruct (dateLt (updatedAt x) (updatedAt document)
            && negb (isMoreAuthoritative x document)); reflexivity.
Qed.

Lemma detectContradictions_fields (document : Document) (relatedDocs : list Document) :
  let r := detectContradictions document relatedDocs in
  Contradictions.hasContradictions r = (0 <? List.length (Contradictions.contradictions r))%nat
  /\ Contradictions.penalty r = calculateContradictionPenalty (Contradictions.contradictions r)
  /\ (match Contradictions.decayReasons r with Some rs => rs | None => [] end)
     = map contradictionReason (Contradictions.contradictions r).
Proof.
  unfold detectContradictions. destruct relatedDocs as [|d rest].
  - cbv zeta. split; [reflexivity|]. split; reflexivity.
  - cbv zeta.
    cbn [Contradictions.hasContradictions Contradictions.contradictions
         Contradictions.penalty Contradictions.decayReasons].
    split; [reflexivity|]. split; reflexivity.
Qed.

Lemma length_positive {A : Type} (l : list A) : (0 <? List.length l)%nat = true <-> l <> [].
Proof.
  destruct l; cbn; split; intros H; try discriminate; try reflexivity; congruence.
Qed.

(** X9.  detectContradictions: contradictions are signalled exactly when
    some are found, and exactly when the penalty is positive; the penalty is
    the one of calculateContradictionPenalty; there is one decay reason per
    contradiction, in the same order; every contradiction quotes a key
    statement of the subject and one of a related document that is newer
    than the subject, as recent, or more authoritative; and when every
    related document is older and no more authoritative, nothing is
    found. *)
Theorem detectContradictions_consistent (document : Document) (relatedDocs : list Document) :
  let r := detectContradictions document relatedDocs in
  (Contradictions.hasContradictions r = true <-> Contradictions.contradictions r <> [])
  /\ (Contradictions.hasContradictions r = true <-> 0 < Contradictions.penalty r)
  /\ Contradictions.penalty r = calculateContradictionPenalty (Contradictions.contradictions r)
  /\ (match Contradictions.decayReasons r with Some rs => rs | None => [] end)
     = map contradictionReason (Contradictions.contradictions r)
  /\ Forall (fun c => exists d, In d relatedDocs /\ compared document d = true
                                /\ contradictionBetween document d c)
            (Contradictions.contradictions r)
  /\ (Forall (fun d => compared document d = false) relatedDocs ->
      Contradictions.contradictions r = []
      /\ Contradictions.hasContradictions r = false
      /\ Contradictions.penalty r == 0).
Proof.
  intros r.
  destruct (detectContradictions_fields document relatedDocs) as [Hh [Hp Hr]].
  fold r in Hh, Hp, Hr.
  pose proof (calculateContradictionPenalty_facts (Contradictions.contradictions r))
    as [_ [_ [Hrange [Hzero _]]]].
  rewrite <- Hp in Hrange, Hzero.
  split; [|split; [|split; [exact Hp|split; [exact Hr|split]]]].
  - rewrite Hh. apply length_positive.
  - rewrite Hh, length_positive. split.
    + intros Hne. destruct (Qlt_le_dec 0 (Contradictions.penalty r)) as [Hlt|Hle];
        [exact Hlt|].
      exfalso. apply Hne, Hzero. lra.
    + intros Hlt Hnil. apply Hzero in Hnil. lra.
  - unfold r. rewrite detectContradictions_contradictions.
    apply Forall_forall. intros c Hc. apply in_flat_map in Hc.
    destruct Hc as [d [Hd Hc]]. exists d.
    destruct (compared document d) eqn:E; [|contradiction].
    split; [exact Hd|]. split; [reflexivity|].
    apply contradictionsWith_between, Hc.
  - intros Hall.
    assert (Hnil : Contradictions.contradictions r = []).
    { unfold r. rewrite detectContradictions_contradictions.
      clear - Hall. induction Hall as [|d rest Hd _ IH]; [reflexivity|].
      cbn [flat_map]. rewrite Hd. exact IH. }
    split; [exact Hnil|]. split.
    + rewrite Hh, Hnil. reflexivity.
    + apply Hzero, Hnil.
Qed.

Lemma length_append (s1 s2 : string) :
  String.length (s1 ++ s2) = (String.length s1 + String.length s2)%nat.
Proof. induction s1 as [|c s1 IH]; cbn; [reflexivity | now rewrite IH]. Qed.

Lemma prefix_length (n : nat) (s : string) :
  String.length (Str.prefix n s) = Nat.min n (String.length s).
Proof.
  unfold Str.prefix. revert n. induction s as [|c s IH]; intros [|n]; cbn; try reflexivity.
  now rewrite IH.
Qed.

Lemma prefix_split (n : nat) (s : string) :
  exists rest, s = (Str.prefix n s ++ rest)%string.
Proof.
  unfold Str.prefix. revert n. induction s as [|c s IH]; intros [|n]; cbn.
  - exists ""%string. reflexivity.
  - exists ""%string. reflexivity.
  - eexists. reflexivity.
  - destruct (IH n) as [rest Hrest]. exists rest. now rewrite <- Hrest.
Qed.

(** X11.  truncate: a text of at most maxLen characters is returned as it
    is; a longer one is cut to its first maxLen - 3 characters followed by
    three dots, so that the result has exactly maxLen characters when
    maxLen is at least 3; below 3 the result is the three dots alone, longer
    than maxLen. *)
Theorem truncate_length (text : string) (maxLen : nat) :
  ((String.length text <= maxLen)%nat -> truncate text maxLen = text)
  /\ ((3 <= maxLen)%nat -> (String.length (truncate text maxLen) <= maxLen)%nat)
  /\ ((maxLen < String.length text)%nat ->
      (exists kept rest, text = (kept ++ rest)%string
                         /\ String.length kept = (maxLen - 3)%nat
                         /\ truncate text maxLen = (kept ++ "...")%string)
      /\ ((3 <= maxLen)%nat -> String.length (truncate text maxLen) = maxLen)
      /\ ((maxLen < 3)%nat -> truncate text maxLen = "..."%string)).
Proof.
  unfold truncate. split; [|split].
  - intros H. apply Nat.leb_le in H. now rewrite H.
  - intros H3. destruct (String.length text <=? maxLen)%nat eqn:E.
    + now apply Nat.leb_le in E.
    + apply Nat.leb_gt in E. rewrite length_append, prefix_length. cbn. lia.
  - intros Hlt. assert (E : (String.length text <=? maxLen)%nat = false)
      by (apply Nat.leb_gt; exact Hlt).
    rewrite E. split; [|split].
    + destruct (prefix_split (maxLen - 3) text) as [rest Hrest].
      exists (Str.prefix (maxLen - 3) text), rest.
      split; [exact Hrest|]. split; [|reflexivity].
      rewrite prefix_length. lia.
    + intros H3. rewrite length_append, prefix_length. cbn. lia.
    + intros H3. replace (maxLen - 3)%nat with 0%nat by lia.
      unfold Str.prefix. destruct text; reflexivity.
Qed.

(** ** The version drift analyzer *)

(** What every result of the analyzer satisfies. *)
Lemma analyzeVersionDrift_shape (document : Document)
    (versions : list (option VersionSnapshot)) (r : Drift.result) :
  analyzeVersionDrift document versions = Ok r ->
  0 <= Drift.penalty r <= 0.2
  /\ (Drift.decayReason r = None <-> truthyFlag (Drift.hasSignificantDrift r) = false)
  /\ (forall reason, Drift.decayReason r = Some reason ->
        reasonType reason = version_drift /\ sources reason = []).
Proof.
  unfold analyzeVersionDrift. destruct versions as [|v0 rest].
  - intros H. injection H as <-. cbn [Drift.penalty Drift.decayReason Drift.hasSignificantDrift truthyFlag].
    split; [lra|]. split; [split; reflexivity|]. intros reason H. discriminate H.
  - destruct (driftLoop document (v0 :: rest) {| loopChanges := []; maxDrift := 0 |})
      as [st|m]; [|intros H; discriminate H].
    rewrite bind_Ok. cbv zeta. intros H. injection H as <-.
    cbn [Drift.penalty Drift.decayReason Drift.hasSignificantDrift truthyFlag].
    split; [|split].
    + destruct (maxDrift st >=? SIGNIFICANT_DRIFT_THRESHOLD)%Q;
        [|destruct (maxDrift st >=? MODERATE_DRIFT_THRESHOLD)%Q];
        split; unfold Qle; cbn; lia.
    + destruct (filter isSignificant (loopChanges st)); cbn;
        split; intros H; try discriminate H; reflexivity.
    + intros reason H. destruct (filter isSignificant (loopChanges st)); [discriminate H|].
      injection H as <-. split; reflexivity.
Qed.

Lemma existsb_filter_nonempty {A : Type} (f : A -> bool) (l : list A) :
  existsb f l = true <-> filter f l <> [].
Proof.
  induction l as [|x rest IH]; cbn.
  - split; [discriminate | congruence].
  - destruct (f x); cbn; [split; [discriminate | reflexivity] | exact IH].
Qed.

(** A version has a recorded change exactly when its drift is a number at
    or above 0.25. *)
Lemma recordedChange_moderate (document : Document) (v : VersionSnapshot) :
  recordedChange document v <> [] <-> driftAtLeast document 0.25 v = true.
Proof.
  unfold recordedChange, driftAtLeast.
  destruct (driftOf document v) as [d|]; cbn [Num.geNaN]; [|split; congruence].
  destruct (d >=? 0.25)%Q; split; congruence.
Qed.

Lemma flat_map_nonempty {A B : Type} (f : A -> list B) (l : list A) :
  flat_map f l <> [] <-> exists x, In x l /\ f x <> [].
Proof.
  induction l as [|x rest IH]; cbn [flat_map].
  - split; [congruence | intros [x [[] _]]].
  - split.
    + intros H. destruct (f x) as [|y ys] eqn:E.
      * cbn [app] in H. apply IH in H. destruct H as [z [Hz Hf]].
        exists z. split; [now right | exact Hf].
      * exists x. split; [now left | rewrite E; discriminate].
    + intros [z [[<- | Hz] Hf]].
      * destruct (f x); [congruence | discriminate].
      * intros E. apply app_eq_nil in E. destruct E as [_ E].
        revert E. apply IH. now exists z.
Qed.

(** The result of the analyzer on versions that are all objects. *)
Lemma analyzeVersionDrift_result (document : Document) (versions : list VersionSnapshot) :
  exists r,
    analyzeVersionDrift document (map Some versions) = Ok r
    /\ Drift.changes r = flat_map (recordedChange document) versions
    /\ Drift.hasDrift r = existsb (driftAtLeast document 0.25) versions
    /\ truthyFlag (Drift.hasSignificantDrift r)
       = existsb (driftAtLeast document 0.4) versions
    /\ Drift.penalty r
       == (if existsb (driftAtLeast document 0.4) versions then 0.2
           else if existsb (driftAtLeast document 0.25) versions then 0.1 else 0).
Proof.
  unfold analyzeVersionDrift. destruct versions as [|v0 rest].
  - eexists. split; [reflexivity|]. repeat (split; [reflexivity|]). reflexivity.
  - change (map Some (v0 :: rest)) with (Some v0 :: map Some rest) at 1.
    cbv beta iota.
    change (Some v0 :: map Some rest) with (map Some (v0 :: rest)).
    rewrite driftLoop_versions, bind_Ok. cbv zeta.
    set (vs := v0 :: rest).
    set (st0 := {| loopChanges := []; maxDrift := 0 |}).
    assert (Hmax : forall t, 0 < t ->
              (maxDrift (fold_left (driftStep document) vs st0) >=? t)%Q
              = existsb (driftAtLeast document t) vs).
    { intros t Ht. rewrite fold_maxDrift.
      assert (E : (maxDrift st0 >=? t)%Q = false) by (apply geb_lt; cbn; lra).
      now rewrite E. }
    eexists. split; [reflexivity|].
    cbn [Drift.changes Drift.hasDrift Drift.hasSignificantDrift Drift.penalty truthyFlag].
    unfold SIGNIFICANT_DRIFT_THRESHOLD, MODERATE_DRIFT_THRESHOLD.
    split; [|split; [|split]].
    + rewrite fold_changes. reflexivity.
    + apply Hmax. lra.
    + rewrite fold_changes. unfold st0. cbn [loopChanges app].
      pose proof (first_significant document vs) as Hf.
      destruct (existsb (driftAtLeast document 0.4) vs) eqn:E.
      * apply existsb_filter_nonempty in E.
        destruct (filter (driftAtLeast document 0.4) vs) as [|v others]; [congruence|].
        destruct Hf as [d [more [Ed [Hd Hf]]]]. rewrite Hf.
        rewrite (recordedChange_at_least _ _ Ed Hd). reflexivity.
      * destruct (filter (driftAtLeast document 0.4) vs) as [|v others] eqn:Ef.
        -- rewrite Hf. reflexivity.
        -- assert (Hne : filter (driftAtLeast document 0.4) vs <> [])
             by (rewrite Ef; discriminate).
           apply existsb_filter_nonempty in Hne. congruence.
    + rewrite !Hmax by lra.
      destruct (existsb _ vs); [reflexivity|]. destruct (existsb _ vs); reflexivity.
Qed.

Lemma significant_is_moderate (document : Document) (versions : list VersionSnapshot) :
  existsb (driftAtLeast document 0.4) versions = true ->
  existsb (driftAtLeast document 0.25) versions = true.
Proof.
  intros H. apply existsb_exists in H. destruct H as [v [Hv H]].
  apply existsb_exists. exists v. split; [exact Hv|].
  unfold driftAtLeast in *. apply geNaN_ge in H. destruct H as [d [E H]].
  apply geNaN_ge. exists d. split; [exact E | lra].
Qed.

(** X12.  analyzeVersionDrift on versions that are all objects: it returns
    a result whose changes are, in the order of the versions, one record
    per version whose semantic difference from the current content is a
    number at or above 0.25 (marked significant from 0.4 on), with the
    number of the version, the current version and that difference; a
    version whose difference is NaN is not recorded, whatever the two
    contents are; drift is reported exactly when there is such a change,
    and without drift there is no penalty and no decay reason. *)
Theorem analyzeVersionDrift_changes (document : Document) (versions : list VersionSnapshot) :
  exists r,
    analyzeVersionDrift document (map Some versions) = Ok r
    /\ Drift.changes r = flat_map (recordedChange document) versions
    /\ Forall (fun c => 0.25 <= Drift.changeScore c
                        /\ Drift.toVersion c = currentVersion document
                        /\ (Drift.severity c = Drift.significant <-> 0.4 <= Drift.changeScore c)
                        /\ exists v, In v versions
                                     /\ Drift.fromVersion c = versionNumber v
                                     /\ calculateSemanticDifference (content document)
                                          (versionContent v)
                                        = Some (Drift.changeScore c))
              (Drift.changes r)
    /\ (forall v, In v versions ->
          calculateSemanticDifference (content document) (versionContent v) = None ->
          recordedChange document v = [])
    /\ (Drift.hasDrift r = true <-> Drift.changes r <> [])
    /\ (Drift.hasDrift r = false ->
        Drift.penalty r == 0 /\ Drift.decayReason r = None).
Proof.
  destruct (analyzeVersionDrift_result document versions) as [r [Hr [Hc [Hd [Hs Hp]]]]].
  exists r. split; [exact Hr|]. split; [exact Hc|]. split; [|split; [|split]].
  - rewrite Hc. apply Forall_forall. intros c Hin. apply in_flat_map in Hin.
    destruct Hin as [v [Hv Hin]]. unfold recordedChange, driftOf in Hin.
    destruct (calculateSemanticDifference (content document) (versionContent v))
      as [d|] eqn:Ed; [|destruct Hin].
    destruct (d >=? 0.25)%Q eqn:Em; [|destruct Hin].
    destruct Hin as [<- | []].
    cbn [Drift.changeScore Drift.toVersion Drift.severity Drift.fromVersion].
    apply geb_ge in Em.
    split; [exact Em|]. split; [reflexivity|]. split.
    + destruct (d >=? 0.4)%Q eqn:E.
      * apply geb_ge in E. split; auto.
      * apply geb_lt in E. split; [discriminate | intros H; lra].
    + exists v. repeat split; [exact Hv | exact Ed].
  - intros v _ Hnan. unfold recordedChange, driftOf. rewrite Hnan. reflexivity.
  - rewrite Hd, Hc, flat_map_nonempty, existsb_exists.
    split; intros [v [Hv H]]; exists v; (split; [exact Hv|]);
      now apply recordedChange_moderate.
  - intros Hno. rewrite Hd in Hno.
    assert (Hnos : existsb (driftAtLeast document 0.4) versions = false).
    { destruct (existsb (driftAtLeast document 0.4) versions) eqn:E; [|reflexivity].
      apply significant_is_moderate in E. congruence. }
    split.
    + rewrite Hp, Hnos, Hno. reflexivity.
    + apply (analyzeVersionDrift_shape _ _ Hr). now rewrite Hs.
Qed.

(** X13.  shouldMarkAsHistorical holds of a version exactly when its
    semantic difference from the current content is a number at or above
    0.4 (a difference that is NaN marks nothing); the analyzer reports
    significant drift exactly when some version of the list is to be marked
    as historical, and then the penalty is 0.2 and a decay reason is
    given. *)
Theorem shouldMarkAsHistorical_agrees (document : Document)
    (versions : list VersionSnapshot) :
  (forall v, shouldMarkAsHistorical document v = true
             <-> exists d, calculateSemanticDifference (content document) (versionContent v)
                           = Some d
                           /\ 0.4 <= d)
  /\ exists r,
       analyzeVersionDrift document (map Some versions) = Ok r
       /\ (Drift.hasSignificantDrift r = Some true
           <-> exists v, In v versions /\ shouldMarkAsHistorical document v = true)
       /\ (Drift.hasSignificantDrift r = Some true ->
           Drift.penalty r == 0.2
           /\ Drift.hasDrift r = true
           /\ exists reason, Drift.decayReason r = Some reason).
Proof.
  split.
  - intros v. unfold shouldMarkAsHistorical. cbv zeta.
    unfold SIGNIFICANT_DRIFT_THRESHOLD. apply geNaN_ge.
  - destruct (analyzeVersionDrift_result document versions) as [r [Hr [Hc [Hd [Hs Hp]]]]].
    exists r. split; [exact Hr|].
    assert (Hflag : Drift.hasSignificantDrift r = Some true
                    <-> truthyFlag (Drift.hasSignificantDrift r) = true).
    { destruct (Drift.hasSignificantDrift r) as [[|]|]; cbn;
        split; intros H; try discriminate H; reflexivity. }
    split.
    + rewrite Hflag, Hs. apply existsb_exists.
    + intros Hsig. apply Hflag in Hsig.
      pose proof Hsig as Hsig'. rewrite Hs in Hsig'.
      split; [|split].
      * rewrite Hp, Hsig'. reflexivity.
      * rewrite Hd. apply significant_is_moderate, Hsig'.
      * destruct (Drift.decayReason r) as [reason|] eqn:E; [exists reason; reflexivity|].
        apply (analyzeVersionDrift_shape _ _ Hr) in E. congruence.
Qed.

(** ** Changes between two contents *)





(** ** The embedding provider *)

(** What getEmbedding returns or throws, provider by provider. *)
(** X18.  getEmbedding returns a vector exactly under the providers tfidf
    and gemini, whatever the text is; without a configured provider the
    provider is tfidf; the vector is dense exactly when the provider is
    gemini and its call succeeds, and is the local TF-IDF vector of the text
    in every other case, in particular when the call to gemini fails; every
    other provider makes it throw. *)
Theorem getEmbedding_by_provider (text : option string) :
  ((exists e, getEmbedding text = Ok e) <-> supportedProvider = true)
  /\ (Str.truthy EMBEDDING_PROVIDER = false -> providerName = "tfidf"%string)
  /\ (forall values,
        getEmbedding text = Ok (Dense values)
        <-> providerName = "gemini"%string /\ embedContent text = Some values)
  /\ (forall e, getEmbedding text = Ok e ->
        (forall values, e <> Dense values) -> e = generateTfIdfEmbedding text)
  /\ (providerName = "gemini"%string -> embedContent text = None ->
      getEmbedding text = Ok (generateTfIdfEmbedding text))
  /\ (supportedProvider = false -> exists m, getEmbedding text = Throw m).
Proof.
  pose proof (getEmbedding_cases text) as Hcases.
  pose proof supportedProvider_names as Hnames.
  split; [|split; [|split; [|split; [|split]]]].
  - split.
    + intros [e He].
      destruct Hcases as [[Hp _] | [[Hp _] | [[Hp _] | [[_ [_ Ht]] | [_ [_ Ht]]]]]];
        try (apply Hnames; auto; fail); congruence.
    + intros Hs.
      destruct Hcases as [[_ H] | [[_ [vs [_ H]]] | [[_ [_ H]] | [[Hn _] | [Hn _]]]]];
        try (eexists; exact H); congruence.
  - unfold providerName. intros H. now rewrite H.
  - intros values. split.
    + intros He.
      destruct Hcases as [[_ H] | [[Hp [vs [Hc H]]] | [[_ [_ H]] | [[_ [_ H]] | [_ [_ H]]]]]];
        rewrite H in He; try discriminate He.
      * unfold generateTfIdfEmbedding in He.
        destruct text as [t|]; [destruct (String.eqb t "")|]; discriminate He.
      * injection He as <-. split; assumption.
      * unfold generateTfIdfEmbedding in He.
        destruct text as [t|]; [destruct (String.eqb t "")|]; discriminate He.
    + intros [Hp Hc]. unfold getEmbedding. cbv zeta. rewrite Hp, Hc. reflexivity.
  - intros e He Hnd.
    destruct Hcases as [[_ H] | [[Hp [vs [Hc H]]] | [[_ [_ H]] | [[_ [_ H]] | [_ [_ H]]]]]];
      rewrite H in He; try discriminate He; try (injection He as <-; reflexivity).
    injection He as <-. exfalso. apply (Hnd vs). reflexivity.
  - intros Hp Hc. unfold getEmbedding. cbv zeta. rewrite Hp, Hc. reflexivity.
  - intros Hs.
    destruct Hcases as [[Hp _] | [[Hp _] | [[Hp _] | [[_ [_ Ht]] | [_ [_ Ht]]]]]];
      try (eexists; exact Ht);
      assert (supportedProvider = true) by (apply Hnames; auto); congruence.
Qed.

(** X19.  checkEmbeddingHealth never throws: it reports the configured
    provider, healthy exactly under tfidf and gemini, with the type of
    vector obtained (dense exactly when gemini answers the test call);
    under any other provider it reports an error with the message of the
    exception and no type of vector. *)
Theorem checkEmbeddingHealth_report :
  let r := checkEmbeddingHealth in
  let probe := Some "health check test"%string in
  Health.provider r = providerName
  /\ (Health.status r = Health.healthy <-> supportedProvider = true)
  /\ (Health.embeddingType r = Some Health.dense
      <-> providerName = "gemini"%string /\ exists values, embedContent probe = Some values)
  /\ (supportedProvider = true ->
      Health.error r = None
      /\ (Health.embeddingType r = Some Health.dense
          \/ Health.embeddingType r = Some Health.sparse))
  /\ (supportedProvider = false ->
      Health.status r = Health.in_error
      /\ Health.embeddingType r = None
      /\ exists m, getEmbedding probe = Throw m /\ Health.error r = Some m).
Proof.
  intros r probe. unfold r, checkEmbeddingHealth. cbv zeta. fold probe.
  pose proof (getEmbedding_cases probe) as Hcases.
  pose proof supportedProvider_names as Hnames.
  assert (Hsparse : exists terms, generateTfIdfEmbedding probe = Sparse terms).
  { unfold generateTfIdfEmbedding, probe. cbn. eexists. reflexivity. }
  destruct Hsparse as [terms Hsparse].
  destruct Hcases as [[Hp H] | [[Hp [vs [Hc H]]] | [[Hp [Hc H]] | [[Hn [Hp H]] | [Hn [Hp H]]]]]];
    rewrite H; rewrite ?Hsparse;
    cbn [Health.provider Health.status Health.embeddingType Health.error].
  - assert (Hs : supportedProvider = true) by (apply Hnames; auto).
    split; [reflexivity|]. split; [split; auto|]. split; [|split].
    + split; [discriminate|]. intros [Hg _]. rewrite Hp in Hg. discriminate Hg.
    + intros _. split; [reflexivity | right; reflexivity].
    + congruence.
  - assert (Hs : supportedProvider = true) by (apply Hnames; auto).
    split; [reflexivity|]. split; [split; auto|]. split; [|split].
    + split; [|reflexivity]. intros _. split; [exact Hp | exists vs; exact Hc].
    + intros _. split; [reflexivity | left; reflexivity].
    + congruence.
  - assert (Hs : supportedProvider = true) by (apply Hnames; auto).
    split; [reflexivity|]. split; [split; auto|]. split; [|split].
    + split; [discriminate|]. intros [_ [values Hv]]. congruence.
    + intros _. split; [reflexivity | right; reflexivity].
    + congruence.
  - split; [reflexivity|]. split; [split; [discriminate | congruence]|]. split; [|split].
    + split; [discriminate|]. intros [Hg _]. rewrite Hp in Hg. discriminate Hg.
    + congruence.
    + intros _. split; [reflexivity|]. split; [reflexivity|]. eexists. split; reflexivity.
  - split; [reflexivity|]. split; [split; [discriminate | congruence]|]. split; [|split].
    + split; [discriminate|]. intros [Hg _].
      assert (supportedProvider = true) by (apply Hnames; auto). congruence.
    + congruence.
    + intros _. split; [reflexivity|]. split; [reflexivity|]. eexists. split; reflexivity.
Qed.

(** ** The decay engine *)

(** The verdict of a successful analysis is assembled from the results of
    the three detectors on the document as the analysis leaves it. *)
Lemma analyzeDocument_inv (document : Document) (vs : list (option VersionSnapshot))
    (relatedDocs allDocs : list Document) (v : Verdict) (document' : Document) :
  analyzeDocument document vs relatedDocs allDocs = (Ok v, document') ->
  exists driftResult,
    analyzeVersionDrift document' vs = Ok driftResult
    /\ v = assembleVerdict document' (relatedOrDiscovered document' relatedDocs allDocs)
             (evaluateFreshness document')
             (detectContradictions document'
                (relatedOrDiscovered document' relatedDocs allDocs))
             driftResult.
Proof.
  intros H. apply analyzeDocument_verdict in H.
  unfold analyzeWithEmbedding in H. cbv zeta in H.
  destruct (analyzeVersionDrift document' vs) as [driftResult|m]; [|discriminate H].
  rewrite bind_Ok in H. injection H as <-. exists driftResult. split; reflexivity.
Qed.

Lemma ensureEmbedding_again (document document' : Document) :
  ensureEmbedding document = Ok document' -> ensureEmbedding document' = Ok document'.
Proof.
  unfold ensureEmbedding. destruct (embedding document) as [e|] eqn:E.
  - intros H. injection H as <-. now rewrite E.
  - destruct (getEmbedding (content document)) as [e|m]; [|discriminate].
    rewrite bind_Ok. intros H. injection H as <-. reflexivity.
Qed.

(** Analysing again the document that an analysis leaves gives the same
    outcome and leaves the same document. *)
Lemma analyzeDocument_again (document : Document) (vs : list (option VersionSnapshot))
    (relatedDocs allDocs : list Document) :
  analyzeDocument (snd (analyzeDocument document vs relatedDocs allDocs)) vs relatedDocs allDocs
  = analyzeDocument document vs relatedDocs allDocs.
Proof.
  unfold analyzeDocument.
  destruct (ensureEmbedding document) as [d|m] eqn:E; cbn [snd].
  - now rewrite (ensureEmbedding_again _ E).
  - now rewrite E.
Qed.

(** X20.  analyzeDocument is idempotent on the document it mutates: a
    second analysis of the document as the first one left it, with the same
    versions, related documents and pool (and the same clock), returns or
    throws the same and leaves the document as it is. *)
Theorem analyzeDocument_idempotent (document : Document)
    (vs : list (option VersionSnapshot)) (relatedDocs allDocs : list Document) :
  let first := analyzeDocument document vs relatedDocs allDocs in
  let second := analyzeDocument (snd first) vs relatedDocs allDocs in
  fst second = fst first /\ snd second = snd first.
Proof.
  intros first second. unfold second, first. rewrite analyzeDocument_again.
  split; reflexivity.
Qed.

Lemma analyzeDocument_frame (document : Document) (vs : list (option VersionSnapshot))
    (relatedDocs allDocs : list Document) :
  let document' := snd (analyzeDocument document vs relatedDocs allDocs) in
  id document' = id document /\ title document' = title document
  /\ versions document' = versions document.
Proof.
  unfold analyzeDocument, ensureEmbedding.
  destruct (embedding document); cbn [snd].
  - repeat split; reflexivity.
  - destruct (getEmbedding (content document)); cbn [bind snd]; repeat split; reflexivity.
Qed.

Lemma batchStep_again (allDocs : list Document) (document : Document) :
  batchStep allDocs (snd (batchStep allDocs document)) = batchStep allDocs document.
Proof.
  unfold batchStep. cbv zeta.
  pose proof (analyzeDocument_again document (versionsOf document) [] allDocs) as Hagain.
  pose proof (analyzeDocument_frame document (versionsOf document) [] allDocs)
    as [Hid [Htitle Hvs]].
  destruct (analyzeDocument document (versionsOf document) [] allDocs) as [[v|m] d'] eqn:E;
    cbn [snd] in *;
    (assert (Ev : versionsOf d' = versionsOf document)
       by (unfold versionsOf; now rewrite Hvs));
    rewrite Ev, Hagain; unfold errorRecord; rewrite Hid, Htitle; reflexivity.
Qed.

(** X21.  batchAnalyze is idempotent in the same way: run again on the
    documents as the first run left them, with the same pool, it returns
    the same records, in the same order, and leaves the documents as they
    are. *)
Theorem batchAnalyze_idempotent (documents allDocs : list Document) :
  let first := batchAnalyze documents allDocs in
  batchAnalyze (snd first) allDocs = first.
Proof.
  unfold batchAnalyze. cbv zeta. cbn [snd]. rewrite !map_map.
  f_equal; apply map_ext; intros d; now rewrite batchStep_again.
Qed.

(** X22.  What makes analyzeDocument throw: the embedding provider, when
    the document has no embedding and the provider is neither tfidf nor
    gemini (the exception of getEmbedding leaves the engine); and a null
    entry among the versions, which raises a TypeError in the drift
    analyzer.  In every other case a verdict is returned, whatever the
    content, dates and type of the document are. *)
Theorem analyzeDocument_failures (document : Document)
    (vs : list (option VersionSnapshot)) (relatedDocs allDocs : list Document) :
  let outcome := fst (analyzeDocument document vs relatedDocs allDocs) in
  let embeds := match embedding document with Some _ => true | None => supportedProvider end in
  ((exists v, outcome = Ok v) <-> embeds = true /\ versionsPresent vs = true)
  /\ (embeds = false ->
      exists m, getEmbedding (content document) = Throw m /\ outcome = Throw m)
  /\ (embeds = true -> versionsPresent vs = false ->
      outcome = Throw (nullPropertyError "embedding")).
Proof. apply analyzeDocument_outcome. Qed.

(** The parts of a verdict, read off [assembleVerdict]. *)
Lemma assembleVerdict_reasons (document : Document) (related : list Document)
    (fr : Freshness.result) (cr : Contradictions.result) (dr : Drift.result) :
  decay_reasons (assembleVerdict document related fr cr dr)
  = (match Freshness.decayReason fr with Some r => [r] | None => [] end)
    ++ (match Contradictions.decayReasons cr with Some rs => rs | None => [] end)
    ++ (match Drift.decayReason dr with Some r => [r] | None => [] end)
    ++ (match related with
        | [] => if (Num.round3 (appliedSupportPenalty (countQ related)) >? 0)%Q
                then [lowSupportReason] else []
        | _ => []
        end).
Proof. reflexivity. Qed.

Lemma assembleVerdict_confidence (document : Document) (related : list Document)
    (fr : Freshness.result) (cr : Contradictions.result) (dr : Drift.result) :
  confidence_score (assembleVerdict document related fr cr dr)
  = Num.round2
      (Num.Math_max 0
         (Num.Math_min 1
            (1 - Num.Math_min (Freshness.penalty fr) MAX_AGE_PENALTY
             - Num.Math_min (Contradictions.penalty cr) MAX_CONTRADICTION_PENALTY
             - Num.Math_min (Drift.penalty dr) MAX_DRIFT_PENALTY
             - appliedSupportPenalty (countQ related)))).
Proof. reflexivity. Qed.

Lemma assembleVerdict_risk (document : Document) (related : list Document)
    (fr : Freshness.result) (cr : Contradictions.result) (dr : Drift.result) :
  risk_level (assembleVerdict document related fr cr dr)
  = determineRiskLevel (confidence_score (assembleVerdict document related fr cr dr))
      {| Score.hasContradictions := Contradictions.hasContradictions cr;
         Score.hasSignificantDrift := Drift.hasSignificantDrift dr;
         Score.freshnessStatus := Freshness.status fr |}.
Proof. reflexivity. Qed.

Lemma assembleVerdict_internal (document : Document) (related : list Document)
    (fr : Freshness.result) (cr : Contradictions.result) (dr : Drift.result) :
  let i := _internal (assembleVerdict document related fr cr dr) in
  freshness_status i = Freshness.status fr
  /\ freshness_age_days i = Freshness.ageDays fr
  /\ internal_contradictions i = Contradictions.contradictions cr
  /\ drift_score i = Drift.driftScore dr
  /\ drift_has_significant_drift i = Drift.hasSignificantDrift dr
  /\ Score.support_penalty (confidence_breakdown i)
     = Num.round3 (appliedSupportPenalty (countQ related)).
Proof. cbv zeta. repeat (split; [reflexivity|]). reflexivity. Qed.

Lemma assembleVerdict_citations (document : Document) (related : list Document)
    (fr : Freshness.result) (cr : Contradictions.result) (dr : Drift.result) :
  let v := assembleVerdict document related fr cr dr in
  citations v = truthyIds (dedupeIds (flat_map sources (decay_reasons v) ++ map id related)).
Proof. reflexivity. Qed.

Lemma assembleVerdict_updates (document : Document) (related : list Document)
    (fr : Freshness.result) (cr : Contradictions.result) (dr : Drift.result) :
  let v := assembleVerdict document related fr cr dr in
  let updateResult :=
    if decay_detected v
    then generateUpdateRecommendations document (decay_reasons v)
           (filter (fun d => dateGt (updatedAt d) (updatedAt document)) related)
    else {| Update.recommendations := [];
            Update.whatChangedSummary := "No decay signals detected." |} in
  what_changed_summary v = Update.whatChangedSummary updateResult
  /\ update_recommendations v
     = map (fun r => {| rec_section := Update.section r;
                        rec_suggested_text := Update.suggested_text r |})
           (Update.recommendations updateResult).
Proof.
  unfold assembleVerdict. cbv zeta.
  cbn [what_changed_summary update_recommendations decay_detected decay_reasons].
  split; reflexivity.
Qed.

Lemma evaluateFreshness_reason_sources (document : Document) (reason : DecayReason) :
  Freshness.decayReason (evaluateFreshness document) = Some reason ->
  sources reason = [].
Proof.
  unfold evaluateFreshness. cbv zeta.
  destruct (ageAtLeast _ _); [|destruct (ageAtLeast _ _)];
    cbn [Freshness.decayReason]; intros H;
    try discriminate H; injection H as <-; reflexivity.
Qed.


Lemma countQ_nonneg {A : Type} (l : list A) : 0 <= countQ l.
Proof.
  unfold countQ. change 0 with (inject_Z 0). rewrite <- Zle_Qle. lia.
Qed.

Lemma appliedSupportPenalty_nonneg (count : Q) :
  0 <= MAX_SUPPORT_PENALTY -> 0 <= count -> 0 <= appliedSupportPenalty count.
Proof.
  intros HM Hc. unfold appliedSupportPenalty.
  destruct (Num.eqb count 0); [exact HM|].
  destruct (count <? 3)%Q eqn:E; [|lra]. apply ltb_lt in E.
  apply Qmult_le_0_compat; [exact HM|].
  assert (Ed : count / 3 == count * (1 # 3)) by field. lra.
Qed.

(** The support penalty by the number of supporting documents: all of the
    maximum for none, two thirds for one, one third for two, nothing from
    three on. *)
Lemma appliedSupportPenalty_count {A : Type} (l : list A) :
  appliedSupportPenalty (countQ l)
  == match l with
     | [] => MAX_SUPPORT_PENALTY
     | [_] => MAX_SUPPORT_PENALTY * (2 # 3)
     | [_; _] => MAX_SUPPORT_PENALTY * (1 # 3)
     | _ => 0
     end.
Proof.
  unfold appliedSupportPenalty. destruct l as [|a [|b [|c rest]]].
  - reflexivity.
  - change (countQ [a]) with 1%Q. change (Num.eqb 1 0) with false.
    change (1 <? 3)%Q with true. cbv iota. field.
  - change (countQ [a; b]) with 2%Q. change (Num.eqb 2 0) with false.
    change (2 <? 3)%Q with true. cbv iota. field.
  - assert (H3 : 3 <= countQ (a :: b :: c :: rest)).
    { unfold countQ. change 3 with (inject_Z 3). rewrite <- Zle_Qle.
      cbn [List.length]. lia. }
    assert (E0 : Num.eqb (countQ (a :: b :: c :: rest)) 0 = false)
      by (apply eqb_neq; intros E; lra).
    assert (E3 : (countQ (a :: b :: c :: rest) <? 3)%Q = false) by (apply ltb_ge; lra).
    rewrite E0, E3. reflexivity.
Qed.

Lemma round2_below_one (x : Q) : x < 0.995 -> Num.round2 x < 1.
Proof.
  intros H. unfold Num.round2.
  assert (Hk : (Num.Math_round (x * 100) < 100)%Z).
  { unfold Num.Math_round. rewrite Zlt_Qlt.
    apply Qle_lt_trans with (x * 100 + (1 # 2)); [apply Qfloor_le|].
    change (inject_Z 100) with 100%Q. lra. }
  unfold Qlt. cbn [Qnum Qden]. lia.
Qed.

Lemma clamp_below (x b : Q) : 0 < b -> x < b -> Num.Math_max 0 (Num.Math_min 1 x) < b.
Proof.
  intros Hb Hx. unfold Num.Math_max, Num.Math_min.
  destruct (1 <=? x)%Q eqn:E1; [apply leb_le in E1 | apply leb_gt in E1];
    match goal with
    | |- context [(?a <=? ?c)%Q] =>
        destruct (a <=? c)%Q eqn:E2; [apply leb_le in E2 | apply leb_gt in E2]
    end; lra.
Qed.

(** From half a hundredth of applied penalty on, the score of a verdict is
    below 1. *)
Lemma assembleVerdict_below_one (document : Document) (related : list Document)
    (fr : Freshness.result) (cr : Contradictions.result) (dr : Drift.result) :
  0 <= MAX_AGE_PENALTY -> 0 <= MAX_CONTRADICTION_PENALTY ->
  0 <= MAX_DRIFT_PENALTY -> 0 <= MAX_SUPPORT_PENALTY ->
  0 <= Freshness.penalty fr -> 0 <= Contradictions.penalty cr -> 0 <= Drift.penalty dr ->
  0.005 < Num.Math_min (Freshness.penalty fr) MAX_AGE_PENALTY
          + appliedSupportPenalty (countQ related) ->
  confidence_score (assembleVerdict document related fr cr dr) < 1.
Proof.
  intros HA HC HD HS Hf Hc Hd Hsum. rewrite assembleVerdict_confidence.
  apply round2_below_one, clamp_below; [lra|].
  pose proof (Math_min_nonneg Hc HC). pose proof (Math_min_nonneg Hd HD). lra.
Qed.

Lemma truthyFlag_true (b : option bool) : truthyFlag b = true <-> b = Some true.
Proof. destruct b as [[|]|]; cbn; split; intros H; try discriminate H; reflexivity. Qed.

(** The decay reasons of a verdict, detector by detector. *)
Lemma analyzeDocument_reasons_facts (document : Document)
    (vs : list (option VersionSnapshot)) (relatedDocs allDocs : list Document)
    (v : Verdict) (document' : Document) :
  analyzeDocument document vs relatedDocs allDocs = (Ok v, document') ->
  let related := relatedOrDiscovered document' relatedDocs allDocs in
  let internal := _internal v in
  exists timeReasons driftReasons supportReasons,
    decay_reasons v
    = timeReasons ++ map contradictionReason (internal_contradictions internal)
      ++ driftReasons ++ supportReasons
    /\ Forall (fun r => reasonType r = time) timeReasons
    /\ Forall (fun r => reasonType r = version_drift) driftReasons
    /\ Forall (fun r => reasonType r = low_support) supportReasons
    /\ List.length timeReasons
       = match freshness_status internal with Freshness.fresh => 0%nat | _ => 1%nat end
    /\ List.length driftReasons
       = (if truthyFlag (drift_has_significant_drift internal) then 1%nat else 0%nat)
    /\ List.length supportReasons
       = match related with
         | [] => if (Score.support_penalty (confidence_breakdown internal) >? 0)%Q
                 then 1%nat else 0%nat
         | _ => 0%nat
         end
    /\ Forall (fun r => reasonType r <> error) (decay_reasons v).
Proof.
  intros Hrun related internal.
  destruct (analyzeDocument_inv _ _ _ _ Hrun) as [dr [Hdr Hv]]. fold related in Hv.
  set (fr := evaluateFreshness document') in *.
  set (cr := detectContradictions document' related) in *.
  destruct (assembleVerdict_internal document' related fr cr dr)
    as [Hi1 [_ [Hi3 [_ [Hi5 Hi6]]]]].
  rewrite <- Hv in Hi1, Hi3, Hi5, Hi6. fold internal in Hi1, Hi3, Hi5, Hi6.
  pose proof (assembleVerdict_reasons document' related fr cr dr) as Hreasons.
  rewrite <- Hv in Hreasons.
  destruct (detectContradictions_fields document' related) as [_ [_ Hcr]]. fold cr in Hcr.
  rewrite Hcr, <- Hi3 in Hreasons.
  destruct (evaluateFreshness_facts document') as [_ [_ [Hfresh _]]]. fold fr in Hfresh.
  destruct (analyzeVersionDrift_shape _ _ Hdr) as [_ [Hnone Hdtype]].
  set (T := match Freshness.decayReason fr with Some r => [r] | None => [] end) in *.
  set (D := match Drift.decayReason dr with Some r => [r] | None => [] end) in *.
  set (L := match related with
            | [] => if (Num.round3 (appliedSupportPenalty (countQ related)) >? 0)%Q
                    then [lowSupportReason] else []
            | _ => []
            end) in *.
  assert (HT : Forall (fun r => reasonType r = time) T).
  { unfold T. destruct (Freshness.decayReason fr) as [r|] eqn:E; constructor; [|constructor].
    apply (evaluateFreshness_reason_type document'), E. }
  assert (HD : Forall (fun r => reasonType r = version_drift) D).
  { unfold D. destruct (Drift.decayReason dr) as [r|] eqn:E; constructor; [|constructor].
    apply (Hdtype r eq_refl). }
  assert (HL : Forall (fun r => reasonType r = low_support) L).
  { unfold L. destruct related; [|constructor].
    destruct (_ >? _)%Q; constructor; [reflexivity | constructor]. }
  exists T, D, L.
  split; [exact Hreasons|]. split; [exact HT|]. split; [exact HD|]. split; [exact HL|].
  split; [|split; [|split]].
  - rewrite Hi1. unfold T.
    destruct (Freshness.decayReason fr) as [r|] eqn:E.
    + destruct (Freshness.status fr) eqn:Es; try reflexivity.
      destruct Hfresh as [Hfresh _]. specialize (Hfresh eq_refl). discriminate Hfresh.
    + destruct Hfresh as [_ Hfresh]. now rewrite (Hfresh eq_refl).
  - rewrite Hi5. unfold D.
    destruct (Drift.decayReason dr) as [r|] eqn:E.
    + destruct (truthyFlag (Drift.hasSignificantDrift dr)) eqn:Et; [reflexivity|].
      destruct Hnone as [_ Hnone]. specialize (Hnone eq_refl). discriminate Hnone.
    + destruct Hnone as [Hnone _]. now rewrite (Hnone eq_refl).
  - rewrite Hi6. unfold L. destruct related; [|reflexivity].
    destruct (_ >? _)%Q; reflexivity.
  - rewrite Hreasons. rewrite !Forall_app. split; [|split; [|split]].
    + eapply Forall_impl; [|exact HT]. cbn. intros r Hr. rewrite Hr. discriminate.
    + apply Forall_forall. intros r Hr. apply in_map_iff in Hr.
      destruct Hr as [c [<- _]]. cbn. discriminate.
    + eapply Forall_impl; [|exact HD]. cbn. intros r Hr. rewrite Hr. discriminate.
    + eapply Forall_impl; [|exact HL]. cbn. intros r Hr. rewrite Hr. discriminate.
Qed.

(** X23.  The decay reasons of a verdict come in a fixed order: the time
    reason of the freshness evaluation, if the document is not fresh; then
    one reason per contradiction of the audit block, in order; then the
    reason of the drift analysis, if it found significant drift; then the
    low_support reason, if there is no related document and the support
    penalty of the breakdown is positive.  No reason of a verdict has the
    type error. *)
Theorem analyzeDocument_reasons (document : Document)
    (vs : list (option VersionSnapshot)) (relatedDocs allDocs : list Document)
    (v : Verdict) (document' : Document) :
  analyzeDocument document vs relatedDocs allDocs = (Ok v, document') ->
  let related := relatedOrDiscovered document' relatedDocs allDocs in
  let internal := _internal v in
  exists timeReasons driftReasons supportReasons,
    decay_reasons v
    = timeReasons ++ map contradictionReason (internal_contradictions internal)
      ++ driftReasons ++ supportReasons
    /\ Forall (fun r => reasonType r = time) timeReasons
    /\ Forall (fun r => reasonType r = version_drift) driftReasons
    /\ Forall (fun r => reasonType r = low_support) supportReasons
    /\ List.length timeReasons
       = match freshness_status internal with Freshness.fresh => 0%nat | _ => 1%nat end
    /\ List.length driftReasons
       = (if truthyFlag (drift_has_significant_drift internal) then 1%nat else 0%nat)
    /\ List.length supportReasons
       = match related with
         | [] => if (Score.support_penalty (confidence_breakdown internal) >? 0)%Q
                 then 1%nat else 0%nat
         | _ => 0%nat
         end
    /\ Forall (fun r => reasonType r <> error) (decay_reasons v).
Proof. apply analyzeDocument_reasons_facts. Qed.

Lemma round3_positive_from (x : Q) : 0.0005 <= x -> 0 < Num.round3 x.
Proof.
  intros H. unfold Num.round3.
  assert (Hk : (1 <= Num.Math_round (x * 1000))%Z).
  { apply Z.le_trans with (Num.Math_round (1 # 2)); [vm_compute; discriminate|].
    apply Math_round_mono. lra. }
  unfold Qlt. cbn [Qnum Qden]. lia.
Qed.

(** The penalties that the detectors hand to the scorer are not negative. *)
Lemma detector_penalties_nonneg (document : Document) (related : list Document)
    (vs : list (option VersionSnapshot)) (dr : Drift.result) :
  analyzeVersionDrift document vs = Ok dr ->
  0 <= Freshness.penalty (evaluateFreshness document)
  /\ 0 <= Contradictions.penalty (detectContradictions document related)
  /\ 0 <= Drift.penalty dr.
Proof.
  intros Hdr. split; [|split].
  - apply evaluateFreshness_facts.
  - destruct (detectContradictions_fields document related) as [_ [Hp _]]. rewrite Hp.
    apply calculateContradictionPenalty_facts.
  - apply (analyzeVersionDrift_shape _ _ Hdr).
Qed.

(** X24.  With maximum penalties for age and support of at least 0.01,
    twice the 0.005 from which a penalty alone brings the rounded confidence
    below 1, and non-negative ones for contradictions and drift (the
    defaults are 0.3, 0.1, 0.4 and 0.2), a verdict that does not report
    decay has no decay reason at all, no recommendation and the summary of the engine; its
    confidence is 1 and its risk low; the document is fresh, free of
    contradictions and of significant drift, and has related documents. *)
Theorem analyzeDocument_unflagged (document : Document)
    (vs : list (option VersionSnapshot)) (relatedDocs allDocs : list Document)
    (v : Verdict) (document' : Document) :
  0.01 <= MAX_AGE_PENALTY -> 0 <= MAX_CONTRADICTION_PENALTY ->
  0 <= MAX_DRIFT_PENALTY -> 0.01 <= MAX_SUPPORT_PENALTY ->
  analyzeDocument document vs relatedDocs allDocs = (Ok v, document') ->
  decay_detected v = false ->
  decay_reasons v = []
  /\ update_recommendations v = []
  /\ what_changed_summary v = "No decay signals detected."%string
  /\ risk_level v = low
  /\ confidence_score v == 1
  /\ freshness_status (_internal v) = Freshness.fresh
  /\ internal_contradictions (_internal v) = []
  /\ drift_has_significant_drift (_internal v) <> Some true
  /\ relatedOrDiscovered document' relatedDocs allDocs <> [].
Proof.
  intros HA' HC HD HS' Hrun Hno.
  assert (HA : 0.005 < MAX_AGE_PENALTY) by lra.
  assert (HS : 0.005 < MAX_SUPPORT_PENALTY) by lra.
  clear HA' HS'.
  destruct (analyzeDocument_inv _ _ _ _ Hrun) as [dr [Hdr Hv]].
  set (related := relatedOrDiscovered document' relatedDocs allDocs) in *.
  set (fr := evaluateFreshness document') in *.
  set (cr := detectContradictions document' related) in *.
  destruct (assembleVerdict_flag document' related fr cr dr) as [Hflag [_ Hle1]].
  cbv zeta in Hflag, Hle1. rewrite <- Hv in Hflag, Hle1.
  pose proof (assembleVerdict_risk document' related fr cr dr) as Hrisk.
  rewrite <- Hv in Hrisk.
  destruct (assembleVerdict_internal document' related fr cr dr)
    as [Hi1 [_ [Hi3 [_ [Hi5 _]]]]].
  rewrite <- Hv in Hi1, Hi3, Hi5.
  pose proof (assembleVerdict_reasons document' related fr cr dr) as Hreasons.
  rewrite <- Hv in Hreasons.
  destruct (assembleVerdict_updates document' related fr cr dr) as [Hsum Hrecs].
  rewrite <- Hv in Hsum, Hrecs. rewrite Hno in Hsum, Hrecs.
  destruct (detector_penalties_nonneg document' related _ Hdr) as [Pf [Pc Pd]].
  fold fr in Pf. fold cr in Pc.
  (* neither below 1 nor at risk *)
  assert (Hconf : ~ confidence_score v < 1).
  { intros Hlt. assert (Ht : decay_detected v = true)
      by (rewrite Hflag; apply shouldFlagDecay_iff; left; exact Hlt).
    congruence. }
  assert (Hlow : risk_level v = low).
  { destruct (risk_level v) eqn:Er; [reflexivity| |];
      (assert (Ht : decay_detected v = true)
         by (rewrite Hflag; apply shouldFlagDecay_iff; right; discriminate));
      congruence. }
  rewrite Hrisk in Hlow.
  apply (determineRiskLevel_facts (confidence_score v) (confidence_score v)) in Hlow.
  cbn [Score.hasContradictions Score.hasSignificantDrift Score.freshnessStatus] in Hlow.
  destruct Hlow as [Hc [Hs [Hcrit _]]].
  assert (Hbelow : 0.005 < Num.Math_min (Freshness.penalty fr) MAX_AGE_PENALTY
                         + appliedSupportPenalty (countQ related) -> False).
  { intros Hsum'. apply Hconf. rewrite Hv.
    apply assembleVerdict_below_one; try lra; assumption. }
  assert (Hmin0 : 0 <= Num.Math_min (Freshness.penalty fr) MAX_AGE_PENALTY)
    by (apply Math_min_nonneg; lra).
  assert (Hsup0 : 0 <= appliedSupportPenalty (countQ related))
    by (apply appliedSupportPenalty_nonneg; [lra | apply countQ_nonneg]).
  assert (Hrel : related <> []).
  { intros E. apply Hbelow.
    pose proof (appliedSupportPenalty_count related) as Es. rewrite E in Es at 2.
    lra. }
  assert (Hfresh : Freshness.status fr = Freshness.fresh).
  { destruct (evaluateFreshness_facts document') as [_ [_ [_ [Hge _]]]]. fold fr in Hge.
    destruct (Freshness.status fr) eqn:Es; [reflexivity| |];
      (exfalso; apply Hbelow;
       assert (H01 : 0.1 <= Freshness.penalty fr) by (apply Hge; discriminate);
       assert (Hm : 0.005 < Num.Math_min (Freshness.penalty fr) MAX_AGE_PENALTY)
         by (unfold Num.Math_min; destruct (_ <=? _)%Q; lra);
       lra). }
  assert (Hcs : Contradictions.contradictions cr = []).
  { destruct (detectContradictions_fields document' related) as [Hh _]. fold cr in Hh.
    rewrite Hc in Hh. destruct (Contradictions.contradictions cr); [reflexivity|].
    discriminate Hh. }
  split; [|split; [exact Hrecs|split; [exact Hsum|split; [|split; [|split; [|split; [|split]]]]]]].
  - rewrite Hreasons.
    destruct (evaluateFreshness_facts document') as [_ [_ [Hnone _]]]. fold fr in Hnone.
    destruct Hnone as [Hnone _]. rewrite (Hnone Hfresh).
    destruct (detectContradictions_fields document' related) as [_ [_ Hcr]]. fold cr in Hcr.
    rewrite Hcr, Hcs.
    destruct (analyzeVersionDrift_shape _ _ Hdr) as [_ [[_ Hnd] _]].
    rewrite Hnd.
    + destruct related; [congruence | reflexivity].
    + destruct (Drift.hasSignificantDrift dr) as [[|]|]; [congruence | |]; reflexivity.
  - rewrite Hrisk.
    apply (determineRiskLevel_facts (confidence_score v) (confidence_score v)).
    cbn [Score.hasContradictions Score.hasSignificantDrift Score.freshnessStatus].
    repeat (split; [assumption|]).
    destruct (Qlt_le_dec (confidence_score v) 1) as [Hlt|Hge]; [contradiction | lra].
  - destruct (Qlt_le_dec (confidence_score v) 1) as [Hlt|Hge]; [contradiction | lra].
  - rewrite Hi1. exact Hfresh.
  - rewrite Hi3. exact Hcs.
  - rewrite Hi5. exact Hs.
  - exact Hrel.
Qed.

(** X25.  With non-negative maximum penalties and a maximum support
    penalty of at least 0.02 (the default is 0.1), a third of which is
    well above the 0.005 from which a penalty alone brings the rounded
    confidence below 1: a document with fewer than
    three related documents, supplied or discovered, always has a positive
    support penalty, a confidence below 1 and a verdict that reports decay,
    and from three related documents on the support penalty is 0; yet the
    low_support reason is given only when there is no related document at
    all, so that with one or two of them the penalty comes without a
    reason. *)
Theorem analyzeDocument_support (document : Document)
    (vs : list (option VersionSnapshot)) (relatedDocs allDocs : list Document)
    (v : Verdict) (document' : Document) :
  0 <= MAX_AGE_PENALTY -> 0 <= MAX_CONTRADICTION_PENALTY ->
  0 <= MAX_DRIFT_PENALTY -> 0.02 <= MAX_SUPPORT_PENALTY ->
  analyzeDocument document vs relatedDocs allDocs = (Ok v, document') ->
  let related := relatedOrDiscovered document' relatedDocs allDocs in
  let penalty := Score.support_penalty (confidence_breakdown (_internal v)) in
  ((List.length related < 3)%nat ->
   0 < penalty /\ confidence_score v < 1 /\ decay_detected v = true)
  /\ ((3 <= List.length related)%nat -> penalty == 0)
  /\ (In lowSupportReason (decay_reasons v) <-> related = [])
  /\ (forall r, In r (decay_reasons v) -> reasonType r = low_support -> r = lowSupportReason).
Proof.
  intros HA HC HD HS' Hrun related penalty.
  assert (HS : 0.015 < MAX_SUPPORT_PENALTY) by lra.
  clear HS'.
  destruct (analyzeDocument_inv _ _ _ _ Hrun) as [dr [Hdr Hv]]. fold related in Hv.
  set (fr := evaluateFreshness document') in *.
  set (cr := detectContradictions document' related) in *.
  destruct (assembleVerdict_flag document' related fr cr dr) as [Hflag _].
  cbv zeta in Hflag. rewrite <- Hv in Hflag.
  destruct (assembleVerdict_internal document' related fr cr dr) as [_ [_ [_ [_ [_ Hi6]]]]].
  rewrite <- Hv in Hi6. fold penalty in Hi6.
  pose proof (assembleVerdict_reasons document' related fr cr dr) as Hreasons.
  rewrite <- Hv in Hreasons.
  destruct (detector_penalties_nonneg document' related _ Hdr) as [Pf [Pc Pd]].
  fold fr in Pf. fold cr in Pc.
  pose proof (appliedSupportPenalty_count related) as Es.
  assert (Hother : forall r,
            In r ((match Freshness.decayReason fr with Some r => [r] | None => [] end)
                  ++ (match Contradictions.decayReasons cr with Some rs => rs | None => [] end)
                  ++ (match Drift.decayReason dr with Some r => [r] | None => [] end)) ->
            reasonType r <> low_support).
  { intros r Hin. rewrite !in_app_iff in Hin. destruct Hin as [Hin | [Hin | Hin]].
    - destruct (Freshness.decayReason fr) as [r0|] eqn:E; [|contradiction].
      destruct Hin as [<- | []].
      rewrite (evaluateFreshness_reason_type document' E). discriminate.
    - destruct (Contradictions.decayReasons cr) as [rs|] eqn:E; [|contradiction].
      pose proof (detectContradictions_reason_types document' related E) as Hrs.
      rewrite Forall_forall in Hrs. rewrite (Hrs r Hin). discriminate.
    - destruct (Drift.decayReason dr) as [r0|] eqn:E; [|contradiction].
      destruct Hin as [<- | []].
      destruct (analyzeVersionDrift_shape _ _ Hdr) as [_ [_ Ht]].
      destruct (Ht r0 E) as [Ht' _]. rewrite Ht'. discriminate. }
  assert (Hsplit : decay_reasons v
                   = ((match Freshness.decayReason fr with Some r => [r] | None => [] end)
                      ++ (match Contradictions.decayReasons cr with
                          | Some rs => rs | None => [] end)
                      ++ (match Drift.decayReason dr with Some r => [r] | None => [] end))
                     ++ (match related with
                         | [] => if (Num.round3 (appliedSupportPenalty (countQ related)) >? 0)%Q
                                 then [lowSupportReason] else []
                         | _ => []
                         end)).
  { rewrite Hreasons, <- !app_assoc. reflexivity. }
  clear Hreasons.
  split; [|split; [|split]].
  - intros Hlen.
    assert (Hthird : 0.005 < appliedSupportPenalty (countQ related)).
    { destruct related as [|a [|b [|c rest]]]; try lra. cbn [List.length] in Hlen. lia. }
    split; [|split].
    + rewrite Hi6. apply round3_positive_from. lra.
    + rewrite Hv. apply assembleVerdict_below_one; try assumption; try lra.
      pose proof (Math_min_nonneg Pf HA). lra.
    + rewrite Hflag. apply shouldFlagDecay_iff. left.
      rewrite Hv. apply assembleVerdict_below_one; try assumption; try lra.
      pose proof (Math_min_nonneg Pf HA). lra.
  - intros Hlen. rewrite Hi6.
    destruct related as [|a [|b [|c rest]]]; cbn [List.length] in Hlen; try lia.
    assert (E0 : Num.round3 (appliedSupportPenalty (countQ (a :: b :: c :: rest)))
                 <= Num.round3 0 /\
                 Num.round3 0 <= Num.round3 (appliedSupportPenalty (countQ (a :: b :: c :: rest))))
      by (split; apply round3_mono; lra).
    rewrite round3_0 in E0. lra.
  - rewrite Hsplit, in_app_iff. split.
    + intros [Hin | Hin].
      * exfalso. apply (Hother _ Hin). reflexivity.
      * destruct related; [reflexivity | contradiction].
    + intros E. right. rewrite E in Es |- *.
      assert (Hpos : 0 < Num.round3 (appliedSupportPenalty (countQ (@nil Document))))
        by (apply round3_positive_from; lra).
      apply gtb_gt in Hpos. rewrite Hpos. left. reflexivity.
  - intros r Hin Ht. rewrite Hsplit, in_app_iff in Hin. destruct Hin as [Hin | Hin].
    + exfalso. apply (Hother _ Hin). exact Ht.
    + destruct related; [|contradiction].
      destruct (_ >? _)%Q; [|contradiction]. destruct Hin as [<- | []]. reflexivity.
Qed.

(** ** Citations *)

Lemma sameId_eq (a b : option string) : sameId a b = true <-> a = b.
Proof.
  destruct a as [x|], b as [y|]; cbn; split; intros H;
    try discriminate H; try reflexivity.
  - apply String.eqb_eq in H. now subst y.
  - injection H as <-. apply String.eqb_refl.
Qed.

Lemma dedupeIds_In (l : list (option string)) (x : option string) :
  In x (dedupeIds l) <-> In x l.
Proof.
  induction l as [|y rest IH]; cbn [dedupeIds]; [reflexivity|].
  cbn [In]. rewrite filter_In, IH. split.
  - intros [H | [H _]]; [left | right]; exact H.
  - intros [H | H]; [left; exact H|].
    destruct (sameId y x) eqn:E.
    + left. now apply sameId_eq.
    + right. split; [exact H | reflexivity].
Qed.

Lemma dedupeIds_NoDup (l : list (option string)) : NoDup (dedupeIds l).
Proof.
  induction l as [|y rest IH]; cbn [dedupeIds]; constructor.
  - intros H. apply filter_In in H. destruct H as [_ H]. cbv beta in H.
    apply negb_true_iff in H.
    assert (E : sameId y y = true) by (now apply sameId_eq). congruence.
  - apply NoDup_filter, IH.
Qed.

Lemma truthyIds_In (l : list (option string)) (c : string) :
  In c (truthyIds l) <-> c <> ""%string /\ In (Some c) l.
Proof.
  unfold truthyIds. rewrite in_flat_map. split.
  - intros [x [Hx Hc]]. destruct x as [s|]; cbn in Hc; [|contradiction].
    destruct (String.eqb s "") eqn:E; cbn in Hc; [contradiction|].
    destruct Hc as [<- | []]. apply String.eqb_neq in E. split; assumption.
  - intros [Hne Hin]. exists (Some c). split; [exact Hin|].
    apply String.eqb_neq in Hne. cbn. rewrite Hne. left. reflexivity.
Qed.

Lemma truthyIds_NoDup (l : list (option string)) : NoDup l -> NoDup (truthyIds l).
Proof.
  unfold truthyIds. induction 1 as [|x rest Hx _ IH]; cbn [flat_map]; [constructor|].
  destruct x as [s|]; cbn [Str.truthy]; [|exact IH].
  destruct (String.eqb s "") eqn:E; cbn [negb app]; [exact IH|].
  constructor; [|exact IH].
  intros Hin. apply Hx. fold (truthyIds rest) in Hin.
  apply truthyIds_In in Hin. apply Hin.
Qed.

(** The sources of the decay reasons of a verdict name related documents. *)
Lemma reason_sources_related (document : Document) (related : list Document)
    (fr : Freshness.result) (dr : Drift.result) (vs : list (option VersionSnapshot))
    (x : option string) :
  fr = evaluateFreshness document ->
  analyzeVersionDrift document vs = Ok dr ->
  In x (flat_map sources
          (decay_reasons
             (assembleVerdict document related fr (detectContradictions document related) dr))) ->
  In x (map id related).
Proof.
  intros Hfr Hdr Hin. rewrite assembleVerdict_reasons in Hin.
  apply in_flat_map in Hin. destruct Hin as [r [Hr Hx]].
  rewrite !in_app_iff in Hr. destruct Hr as [Hr | [Hr | [Hr | Hr]]].
  - subst fr. destruct (Freshness.decayReason (evaluateFreshness document)) as [r0|] eqn:E;
      [|contradiction].
    destruct Hr as [<- | []].
    rewrite (evaluateFreshness_reason_sources document E) in Hx. contradiction.
  - destruct (detectContradictions_fields document related) as [_ [_ Hcr]].
    rewrite Hcr in Hr. apply in_map_iff in Hr. destruct Hr as [c [<- Hc]].
    cbn [contradictionReason sources] in Hx. destruct Hx as [<- | []].
    rewrite detectContradictions_contradictions in Hc. apply in_flat_map in Hc.
    destruct Hc as [d [Hd Hc]]. destruct (compared document d); [|contradiction].
    apply contradictionsWith_between in Hc. destruct Hc as [_ [Hid _]].
    rewrite Hid. apply in_map, Hd.
  - destruct (Drift.decayReason dr) as [r0|] eqn:E; [|contradiction].
    destruct Hr as [<- | []].
    destruct (analyzeVersionDrift_shape _ _ Hdr) as [_ [_ Ht]].
    destruct (Ht r0 E) as [_ Hs]. rewrite Hs in Hx. contradiction.
  - destruct related; [|contradiction].
    destruct (_ >? _)%Q; [|contradiction]. destruct Hr as [<- | []]. contradiction.
Qed.

Lemma findRelatedDocuments_others (document : Document) (allDocs : list Document)
    (threshold : Q) (r : RelatedDocument) :
  In r (findRelatedDocuments document allDocs threshold) ->
  id (doc r) <> id document.
Proof.
  unfold findRelatedDocuments. cbv zeta. intros H.
  apply (Permutation_in _ (sortBySimilarity_perm _)) in H.
  apply in_flat_map in H. destruct H as [c [Hc H]].
  apply in_map_iff in Hc. destruct Hc as [d [<- Hd]].
  apply filter_In in Hd. destruct Hd as [_ Hd]. apply negb_true_iff in Hd.
  unfold keepSimilar, withSimilarity in H. cbn [fst snd] in H.
  destruct (cosineSimilarity _ _) as [s|]; [|destruct H].
  destruct (s >=? threshold)%Q; [|destruct H].
  destruct H as [<- | []]. cbn [doc].
  intros E. apply sameId_eq in E. congruence.
Qed.

(** X26.  The citations of a verdict are exactly the non-empty ids of the
    related documents, supplied or discovered, each once; and when the
    related documents are discovered, the document under analysis is never
    cited. *)
Theorem analyzeDocument_citations (document : Document)
    (vs : list (option VersionSnapshot)) (relatedDocs allDocs : list Document)
    (v : Verdict) (document' : Document) :
  analyzeDocument document vs relatedDocs allDocs = (Ok v, document') ->
  let related := relatedOrDiscovered document' relatedDocs allDocs in
  NoDup (citations v)
  /\ (forall c, In c (citations v)
                <-> c <> ""%string /\ exists d, In d related /\ id d = Some c)
  /\ (relatedDocs = [] -> forall c, In c (citations v) -> id document <> Some c).
Proof.
  intros Hrun related.
  destruct (analyzeDocument_inv _ _ _ _ Hrun) as [dr [Hdr Hv]]. fold related in Hv.
  pose proof (assembleVerdict_citations document' related (evaluateFreshness document')
                (detectContradictions document' related) dr) as Hcit.
  cbv zeta in Hcit. rewrite <- Hv in Hcit.
  assert (Hin : forall c, In c (citations v)
                          <-> c <> ""%string /\ exists d, In d related /\ id d = Some c).
  { intros c. rewrite Hcit, truthyIds_In, dedupeIds_In, in_app_iff. split.
    - intros [Hne [Hs | Hr]]; (split; [exact Hne|]).
      + rewrite Hv in Hs.
        apply (@reason_sources_related document' related _ dr vs _ eq_refl Hdr) in Hs.
        apply in_map_iff in Hs. destruct Hs as [d [Hd1 Hd2]]. exists d. split; assumption.
      + apply in_map_iff in Hr. destruct Hr as [d [Hd1 Hd2]]. exists d. split; assumption.
    - intros [Hne [d [Hd1 Hd2]]]. split; [exact Hne|]. right.
      rewrite <- Hd2. apply in_map, Hd1. }
  split; [|split; [exact Hin|]].
  - rewrite Hcit. apply truthyIds_NoDup, dedupeIds_NoDup.
  - intros Hnone c Hc. apply Hin in Hc. destruct Hc as [_ [d [Hd Hid]]].
    pose proof (analyzeDocument_frame document vs relatedDocs allDocs) as [Hframe _].
    rewrite Hrun in Hframe. cbn [snd] in Hframe.
    unfold related, relatedOrDiscovered in Hd. rewrite Hnone in Hd.
    destruct allDocs as [|a rest]; [contradiction|].
    apply in_map_iff in Hd. destruct Hd as [r [<- Hr]].
    apply findRelatedDocuments_others in Hr. congruence.
Qed.

(** ** Recommendations and summary *)

Lemma generateUpdateRecommendations_sections (document : Document)
    (reasons : list DecayReason) (newerDocs : list Document) :
  Forall (fun r => reasonType r <> error) reasons ->
  map Update.section
      (Update.recommendations (generateUpdateRecommendations document reasons newerDocs))
  = map sectionOf reasons.
Proof.
  unfold generateUpdateRecommendations. cbv zeta. cbn [Update.recommendations].
  induction 1 as [|r rest Hr _ IH]; [reflexivity|].
  cbn [flat_map map]. rewrite map_app, IH. unfold sectionOf at 2.
  destruct (reasonType r); try reflexivity. congruence.
Qed.

Lemma generateWhatChangedSummary_nonempty (reasons : list DecayReason)
    (newerDocs : list Document) :
  generateWhatChangedSummary reasons newerDocs <> ""%string.
Proof.
  unfold generateWhatChangedSummary. destruct reasons as [|r rest]; [discriminate|].
  cbv zeta.
  match goal with |- (if String.eqb ?j "" then _ else _) <> _ =>
    destruct (String.eqb j "") eqn:E; [discriminate | now apply String.eqb_neq in E]
  end.
Qed.

(** X28.  generateWhatChangedSummary never returns an empty summary:
    without reasons it says that no significant change was detected; with
    reasons that are all of type low_support or error it falls back on the
    sentence that asks for a review; and with a reason of type time it
    begins with the sentence about the missing review. *)
Theorem generateWhatChangedSummary_cases (reasons : list DecayReason)
    (newerDocs : list Document) :
  let s := generateWhatChangedSummary reasons newerDocs in
  s <> ""%string
  /\ (reasons = [] -> s = "No significant changes detected."%string)
  /\ (reasons <> [] ->
      Forall (fun r => reasonType r = low_support \/ reasonType r = error) reasons ->
      s = "Decay signals detected. Review recommended."%string)
  /\ (existsb (hasType time) reasons = true ->
      exists rest,
        s = ("The document has not been reviewed recently and may contain outdated information."
             ++ rest)%string).
Proof.
  intros s. split; [apply generateWhatChangedSummary_nonempty|]. split; [|split].
  - intros E. unfold s. rewrite E. reflexivity.
  - intros Hne Hall. unfold s, generateWhatChangedSummary.
    destruct reasons as [|r rest]; [congruence|]. cbv zeta.
    assert (Hnot : forall t, t = time \/ t = contradiction \/ t = version_drift ->
                             existsb (hasType t) (r :: rest) = false).
    { intros t Ht. apply not_true_is_false. intros Hex.
      apply existsb_exists in Hex. destruct Hex as [x [Hx Hty]].
      rewrite Forall_forall in Hall. specialize (Hall x Hx).
      unfold hasType in Hty.
      destruct Ht as [-> | [-> | ->]], Hall as [Hl | Hl]; rewrite Hl in Hty;
        discriminate Hty. }
    rewrite !Hnot by auto. reflexivity.
  - intros Htime. unfold s, generateWhatChangedSummary.
    destruct reasons as [|r rest]; [discriminate Htime|]. cbv zeta. rewrite Htime.
    cbv iota.
    match goal with
    | |- context [Str.join " " ([?p] ++ ?q)] =>
        change ([p] ++ q) with (p :: q);
        destruct q as [|x others];
        [ exists ""%string | exists (" " ++ Str.join " " (x :: others))%string ]
    end.
    + reflexivity.
    + cbn [Str.join]. reflexivity.
Qed.

(** X27.  A verdict that reports decay makes one recommendation per decay
    reason, in the order of the reasons, each under the section of the type
    of its reason; a verdict that does not report decay makes none.  The
    summary of a verdict is never empty; it is the sentence of the engine
    without decay, and with decay but without reasons (the case of a
    support penalty alone with one or two related documents) it says that
    no significant change was detected. *)
Theorem analyzeDocument_recommendations (document : Document)
    (vs : list (option VersionSnapshot)) (relatedDocs allDocs : list Document)
    (v : Verdict) (document' : Document) :
  analyzeDocument document vs relatedDocs allDocs = (Ok v, document') ->
  (decay_detected v = false ->
   update_recommendations v = []
   /\ what_changed_summary v = "No decay signals detected."%string)
  /\ (decay_detected v = true ->
      map rec_section (update_recommendations v) = map sectionOf (decay_reasons v)
      /\ List.length (update_recommendations v) = List.length (decay_reasons v)
      /\ (decay_reasons v = [] ->
          what_changed_summary v = "No significant changes detected."%string))
  /\ what_changed_summary v <> ""%string.
Proof.
  intros Hrun.
  destruct (analyzeDocument_reasons_facts _ _ _ _ Hrun)
    as [T [D [L [_ [_ [_ [_ [_ [_ [_ Hne]]]]]]]]]].
  destruct (analyzeDocument_inv _ _ _ _ Hrun) as [dr [Hdr Hv]].
  set (related := relatedOrDiscovered document' relatedDocs allDocs) in *.
  destruct (assembleVerdict_updates document' related (evaluateFreshness document')
              (detectContradictions document' related) dr) as [Hsum Hrecs].
  rewrite <- Hv in Hsum, Hrecs.
  assert (Hflagged : decay_detected v = true ->
            map rec_section (update_recommendations v) = map sectionOf (decay_reasons v)).
  { intros Hyes. rewrite Hyes in Hrecs. rewrite Hrecs, map_map. cbn [rec_section].
    rewrite <- (generateUpdateRecommendations_sections document'
                  (filter (fun d => dateGt (updatedAt d) (updatedAt document')) related) Hne).
    reflexivity. }
  split; [|split].
  - intros Hno. rewrite Hno in Hsum, Hrecs. split; assumption.
  - intros Hyes. split; [apply Hflagged, Hyes|]. split.
    + rewrite <- (length_map rec_section), (Hflagged Hyes). apply length_map.
    + intros Hnil. rewrite Hyes in Hsum. rewrite Hsum, Hnil. reflexivity.
  - rewrite Hsum. destruct (decay_detected v); cbn [Update.whatChangedSummary].
    + unfold generateUpdateRecommendations. cbv zeta. cbn [Update.whatChangedSummary].
      apply generateWhatChangedSummary_nonempty.
    + discriminate.
Qed.

(** ** Vectors of the local TF-IDF *)

Lemma setProp_In (term : string) (w : Q) (terms : list (string * Q)) (kv : string * Q) :
  In kv (setProp term w terms) -> kv = (term, w) \/ In kv terms.
Proof.
  induction terms as [|[k v] rest IH]; cbn [setProp].
  - intros [<- | []]. left. reflexivity.
  - destruct (String.eqb k term) eqn:E.
    + apply String.eqb_eq in E. subst k. intros [<- | H].
      * left. reflexivity.
      * right. right. exact H.
    + intros [<- | H].
      * right. left. reflexivity.
      * destruct (IH H) as [-> | H']; [left; reflexivity | right; right; exact H'].
Qed.

Lemma setProp_keys (term : string) (w : Q) (terms : list (string * Q)) (k : string) :
  In k (map fst (setProp term w terms)) -> k = term \/ In k (map fst terms).
Proof.
  intros H. apply in_map_iff in H. destruct H as [[k' v'] [<- H]].
  apply setProp_In in H. destruct H as [E | H].
  - injection E as -> ->. left. reflexivity.
  - right. apply (in_map fst) in H. exact H.
Qed.

Lemma setProp_NoDup (term : string) (w : Q) (terms : list (string * Q)) :
  NoDup (map fst terms) -> NoDup (map fst (setProp term w terms)).
Proof.
  induction terms as [|[k v] rest IH]; cbn [setProp map fst]; intros H.
  - constructor; [intros [] | constructor].
  - inversion H as [|? ? Hk Hrest]; subst.
    destruct (String.eqb k term) eqn:E; cbn [map fst].
    + constructor; assumption.
    + constructor; [|apply IH, Hrest].
      intros Hin. apply setProp_keys in Hin. destruct Hin as [-> | Hin].
      * rewrite String.eqb_refl in E. discriminate E.
      * contradiction.
Qed.

Lemma assign_In (term : string) (w : Q) (terms : list (string * Q)) (kv : string * Q) :
  In kv (assign term w terms) -> kv = (term, w) \/ In kv terms.
Proof.
  unfold assign. destruct (String.eqb term "__proto__").
  - intros H. right. exact H.
  - apply setProp_In.
Qed.

Lemma assign_NoDup (term : string) (w : Q) (terms : list (string * Q)) :
  NoDup (map fst terms) -> NoDup (map fst (assign term w terms)).
Proof.
  unfold assign. destruct (String.eqb term "__proto__").
  - intros H. exact H.
  - apply setProp_NoDup.
Qed.

(** What the loop over the listed terms keeps. *)
Lemma keepTerm_invariant (all items : list (string * Q)) (terms : list (string * Q)) :
  incl items all ->
  let kept (l : list (string * Q)) :=
    NoDup (map fst l)
    /\ forall kv, In kv l ->
         exists w, In (fst kv, w) all /\ 0.1 < w /\ snd kv = Num.round3 w in
  kept terms -> kept (fold_left keepTerm items terms).
Proof.
  intros Hincl kept. revert terms.
  induction items as [|[t w] rest IH]; intros terms Hk; [exact Hk|].
  cbn [fold_left]. apply IH.
  - intros x Hx. apply Hincl. right. exact Hx.
  - unfold keepTerm. cbn [fst snd].
    destruct (w >? 0.1)%Q eqn:E; [|exact Hk].
    apply gtb_gt in E. destruct Hk as [Hnd Hall]. split.
    + apply assign_NoDup, Hnd.
    + intros kv Hin. apply assign_In in Hin. destruct Hin as [-> | Hin].
      * exists w. cbn [fst snd]. split; [apply Hincl; left; reflexivity|].
        split; [exact E | reflexivity].
      * apply Hall, Hin.
Qed.

(** X15.  generateTfIdfEmbedding returns a sparse vector with one entry per
    term: no term occurs twice; every weight is the weight of that term in
    the list of the TF-IDF, above 0.1 there, rounded to three decimals, and
    is therefore at least 0.1; and an absent or empty text gives the empty
    vector. *)
Theorem generateTfIdfEmbedding_invariants (text : option string) :
  exists terms,
    generateTfIdfEmbedding text = Sparse terms
    /\ NoDup (map fst terms)
    /\ (forall kv, In kv terms ->
          exists t w, text = Some t
                      /\ In (fst kv, w) (listTerms (Str.toLowerCase t))
                      /\ 0.1 < w
                      /\ snd kv = Num.round3 w
                      /\ 0.1 <= snd kv)
    /\ (Str.truthy text = false -> terms = []).
Proof.
  unfold generateTfIdfEmbedding. destruct text as [t|].
  - destruct (String.eqb t "") eqn:E.
    + exists []. split; [reflexivity|]. split; [constructor|].
      split; [intros kv []|reflexivity].
    + eexists. split; [reflexivity|]. cbv zeta.
      destruct (@keepTerm_invariant (listTerms (Str.toLowerCase t))
                  (listTerms (Str.toLowerCase t)) [])
        as [Hnd Hall].
      * apply incl_refl.
      * split; [constructor | intros kv []].
      * split; [exact Hnd|]. split.
        -- intros kv Hin. destruct (Hall kv Hin) as [w [H1 [H2 H3]]].
           exists t, w. repeat (split; [try reflexivity; assumption|]).
           rewrite H3. pose proof (@round3_mono 0.1 w) as Hm.
           rewrite round3_01 in Hm. specialize (Hm ltac:(lra)). lra.
        -- cbn [Str.truthy]. rewrite E. discriminate.
  - exists []. split; [reflexivity|]. split; [constructor|].
    split; [intros kv []|reflexivity].
Qed.

(** ** Statement contradictions *)







(** ** Reading the age back from a time reason *)

Lemma rmatch_Star (icase : bool) (r1 : regex) (st : mstate) (k : mstate -> option mstate) :
  rmatch icase (Star r1) st k = starLoop icase r1 k (List.length (rest st)) st.
Proof. reflexivity. Qed.

Lemma last_default {A : Type} (x : A) (l : list A) (d1 d2 : A) :
  last (x :: l) d1 = last (x :: l) d2.
Proof.
  revert x. induction l as [|y rest IH]; intros x; [reflexivity|].
  change (last (y :: rest) d1 = last (y :: rest) d2). apply IH.
Qed.

(** A greedy repetition of a class runs through the characters of the
    class and hands over to its continuation, whose success is final. *)
Lemma starLoop_class (icase : bool) (f : ascii -> bool) (k : mstate -> option mstate)
    (ds tail : list ascii) (cs : list (nat * list ascii)) (res : mstate) :
  Forall (fun c => f c = true) ds ->
  match tail with a :: _ => f a = false | [] => True end ->
  forall (p : option ascii) (fuel : nat),
    (List.length ds <= fuel)%nat ->
    k (MState (last (map Some ds) p) tail cs) = Some res ->
    starLoop icase (Cls f) k fuel (MState p (ds ++ tail) cs) = Some res.
Proof.
  intros Hds Htail. induction Hds as [|d ds' Hd _ IH]; intros p fuel Hfuel Hk.
  - cbn [app map last] in *. destruct fuel as [|fuel']; cbn [starLoop]; [exact Hk|].
    cbn [rmatch rest]. destruct tail as [|a t]; [exact Hk|]. rewrite Htail. exact Hk.
  - destruct fuel as [|fuel']; [cbn in Hfuel; lia|].
    cbn [starLoop app rmatch rest caps]. rewrite Hd.
    assert (Hlt : (List.length (ds' ++ tail) <? List.length (d :: ds' ++ tail))%nat = true)
      by (apply Nat.ltb_lt; cbn; lia).
    rewrite Hlt. rewrite (IH (Some d) fuel'); [reflexivity | cbn in Hfuel; lia |].
    destruct ds' as [|a ds'']; [exact Hk|].
    cbn [map] in *. rewrite (last_default _ _ (Some d) p). exact Hk.
Qed.

Lemma chars_app (s1 s2 : string) : Str.chars (s1 ++ s2) = Str.chars s1 ++ Str.chars s2.
Proof.
  unfold Str.chars. induction s1 as [|c s1 IH]; cbn; [reflexivity | now rewrite IH].
Qed.

Lemma uint_digits (d : Decimal.uint) :
  Forall (fun c => Str.isDigit c = true) (Str.chars (NilEmpty.string_of_uint d)).
Proof.
  unfold Str.chars. induction d; cbn [NilEmpty.string_of_uint list_ascii_of_string];
    constructor; try reflexivity; assumption.
Qed.

(** The decimal writing of a positive integer: a digit, then digits. *)
Lemma ofZ_digits (z : Z) :
  (0 < z)%Z ->
  exists d ds, Str.chars (Str.ofZ z) = d :: ds
               /\ Forall (fun c => Str.isDigit c = true) (d :: ds).
Proof.
  intros Hz. destruct z as [|p|p]; try lia.
  unfold Str.ofZ. cbn [Z.to_int NilZero.string_of_int].
  pose proof (uint_digits (Pos.to_uint p)) as Hd.
  unfold NilZero.string_of_uint.
  destruct (Pos.to_uint p) eqn:E;
    try (cbn [NilEmpty.string_of_uint] in *; unfold Str.chars in *;
         cbn [list_ascii_of_string] in *; eexists; eexists; split; [reflexivity | exact Hd]).
  exists "0"%char, []. split; [reflexivity|]. constructor; [reflexivity | constructor].
Qed.

Lemma consumed_prefix (p q : option ascii) (ds tail : list ascii)
    (c1 c2 : list (nat * list ascii)) :
  consumed (MState p (ds ++ tail) c1) (MState q tail c2) = ds.
Proof.
  unfold consumed. cbn [rest]. rewrite length_app.
  replace (List.length ds + List.length tail - List.length tail)%nat
    with (List.length ds + 0)%nat by lia.
  rewrite firstn_app_2. cbn [firstn]. apply app_nil_r.
Qed.

Lemma rmatch_Seq (icase : bool) (r1 r2 : regex) (st : mstate) (k : mstate -> option mstate) :
  rmatch icase (Seq r1 r2) st k = rmatch icase r1 st (fun st1 => rmatch icase r2 st1 k).
Proof. reflexivity. Qed.

Lemma rmatch_Chr (icase : bool) (c a : ascii) (p : option ascii) (t : list ascii)
    (cs : list (nat * list ascii)) (k : mstate -> option mstate) :
  sameChar icase c a = true ->
  rmatch icase (Chr c) (MState p (a :: t) cs) k = k (MState (Some a) t cs).
Proof. intros H. cbn [rmatch rest caps]. now rewrite H. Qed.

Lemma rmatch_Opt (icase : bool) (r : regex) (st : mstate) (k : mstate -> option mstate)
    (res : mstate) :
  rmatch icase r st k = Some res -> rmatch icase (Opt r) st k = Some res.
Proof. intros H. unfold Opt. cbn [rmatch]. now rewrite H. Qed.

Ltac literal_steps :=
  repeat (first [rewrite rmatch_Seq | rewrite rmatch_Chr by reflexivity]; cbv beta).

Lemma daysAgo_rest (p : option ascii) (tail : list ascii) (cs : list (nat * list ascii)) :
  rmatch true
    (Seq (Star space)
         (Seq (Lit "day") (Seq (Opt (Chr "s")) (Seq (Star space) (Lit "ago")))))
    (MState p (Str.chars " days ago" ++ tail) cs) Some
  = Some (MState (Some "o"%char) tail cs).
Proof.
  rewrite rmatch_Seq, rmatch_Star.
  apply (@starLoop_class true Str.isSpace _ [" "%char] (Str.chars "days ago" ++ tail)).
  - constructor; [reflexivity | constructor].
  - reflexivity.
  - cbn. lia.
  - cbn [map last]. unfold Lit.
    cbn [Str.chars list_ascii_of_string litChars app].
    literal_steps. apply rmatch_Opt. literal_steps. rewrite rmatch_Star.
    apply (@starLoop_class true Str.isSpace _ [" "%char] ("a" :: "g" :: "o" :: tail)%char).
    + constructor; [reflexivity | constructor].
    + reflexivity.
    + cbn. lia.
    + cbn [map last]. literal_steps. reflexivity.
Qed.

Lemma rmatch_Grp (icase : bool) (i : nat) (r1 : regex) (st : mstate)
    (k : mstate -> option mstate) :
  rmatch icase (Grp i r1) st k
  = rmatch icase r1 st
      (fun st1 => k (MState (prev st1) (rest st1) ((i, consumed st st1) :: caps st1))).
Proof. reflexivity. Qed.

Lemma rmatch_Cls (icase : bool) (f : ascii -> bool) (a : ascii) (p : option ascii)
    (t : list ascii) (cs : list (nat * list ascii)) (k : mstate -> option mstate) :
  rmatch icase (Cls f) (MState p (a :: t) cs) k
  = if f a then k (MState (Some a) t cs) else None.
Proof. reflexivity. Qed.

(** At a run of digits followed by [ days ago] the pattern matches and
    captures the run. *)
Lemma daysAgo_at_digits (p : option ascii) (d : ascii) (ds tail : list ascii) :
  Forall (fun c => Str.isDigit c = true) (d :: ds) ->
  rmatch true daysAgoPattern (MState p ((d :: ds) ++ Str.chars " days ago" ++ tail) []) Some
  = Some (MState (Some "o"%char) tail [(1%nat, d :: ds)]).
Proof.
  intros Hd. inversion Hd as [|? ? Hd0 Hds]; subst.
  unfold daysAgoPattern, Plus, digit.
  rewrite rmatch_Seq, rmatch_Grp, rmatch_Seq.
  cbn [app]. rewrite rmatch_Cls, Hd0. rewrite rmatch_Star.
  apply (@starLoop_class true Str.isDigit _ ds (Str.chars " days ago" ++ tail)).
  - exact Hds.
  - reflexivity.
  - cbn [rest]. rewrite length_app. lia.
  - cbn [prev rest caps].
    change (d :: ds ++ Str.chars " days ago" ++ tail)
      with ((d :: ds) ++ (Str.chars " days ago" ++ tail)).
    rewrite consumed_prefix. apply daysAgo_rest.
Qed.

Lemma daysAgo_skip (p : option ascii) (c : ascii) (s skipped : list ascii) :
  Str.isDigit c = false ->
  exec_at true daysAgoPattern p (c :: s) skipped
  = exec_at true daysAgoPattern (Some c) s (c :: skipped).
Proof.
  intros H.
  assert (E : rmatch true daysAgoPattern (MState p (c :: s) []) Some = None).
  { unfold daysAgoPattern, Plus, digit.
    rewrite rmatch_Seq, rmatch_Grp, rmatch_Seq, rmatch_Cls, H. reflexivity. }
  cbn [exec_at]. cbv zeta. rewrite E. reflexivity.
Qed.

Lemma exec_at_hit (icase : bool) (r : regex) (p : option ascii) (s skipped : list ascii)
    (st' : mstate) :
  rmatch icase r (MState p s []) Some = Some st' ->
  exec_at icase r p s skipped
  = Some (Found (rev skipped) (consumed (MState p s []) st') (caps st') st').
Proof.
  intros H. destruct s; cbn [exec_at]; cbv zeta; rewrite H; reflexivity.
Qed.

(** [extractDays] on the description of a time reason written with a
    positive age. *)
Lemma extractDays_description (age : Z) (rest : string) :
  (0 < age)%Z ->
  extractDays ("Document last updated " ++ Str.ofZ age ++ " days ago (" ++ rest)
  = Str.ofZ age.
Proof.
  intros Hage. destruct (ofZ_digits Hage) as [d [ds [Ed Hd]]].
  unfold extractDays, exec.
  rewrite chars_app, chars_app, Ed.
  change (Str.chars (" days ago (" ++ rest))
    with (Str.chars " days ago" ++ Str.chars (" (" ++ rest)).
  cbn [Str.chars list_ascii_of_string app].
  repeat (rewrite daysAgo_skip by reflexivity).
  change (d :: ds ++ ?x) with ((d :: ds) ++ x).
  erewrite exec_at_hit; [|apply daysAgo_at_digits; exact Hd].
  unfold group. cbn [groups caps find fst snd Nat.eqb].
  unfold Str.ofChars. rewrite <- Ed. unfold Str.chars.
  now rewrite string_of_list_ascii_of_string.
Qed.

(** X29.  The update generator reads the age back from the time reason of
    the freshness evaluator: for every document with a time reason, the
    evaluation has an age, a positive number of days, and extractDays
    returns its decimal writing from the description of the reason, never
    the fallback N; the recommendation for the reason quotes that age. *)
Theorem extractDays_reads_age (document : Document) (reason : DecayReason) :
  Freshness.decayReason (evaluateFreshness document) = Some reason ->
  exists age : Z,
    Freshness.ageDays (evaluateFreshness document) = Some age
    /\ (0 < age)%Z
    /\ extractDays (description reason) = Str.ofZ age
    /\ exists more,
         Update.suggested_text (generateTimeBasedUpdate document reason)
         = ("[REVIEW NEEDED] This " ++ Str.interp (type document) ++ " was last updated "
            ++ Str.ofZ age ++ " days ago." ++ more)%string.
Proof.
  unfold evaluateFreshness. cbv zeta.
  destruct (getThresholds_cases (type document)) as [[_ [w [c [Ht Hord]]]] | [_ Ht]];
    rewrite Ht; cbn [thresholdsOf memberThresholds Freshness.critical_days
                     Freshness.warning_days].
  2: { rewrite !ageAtLeast_undefined. cbn [Freshness.decayReason]. discriminate. }
  destruct (calculateAgeDays (dateOr (lastVerifiedAt document) (updatedAt document)))
    as [a|]; [|cbn [ageAtLeast Freshness.decayReason]; discriminate].
  assert (Hgoal : forall (kind : string) (threshold : Z),
            (0 < a)%Z ->
            let r := {| reasonType := time;
                        description :=
                          ("Document last updated " ++ showAge (Some a) ++ " days ago ("
                           ++ Str.interp (type document) ++ kind
                           ++ showDays (Some threshold) ++ " days)")%string;
                        sources := [] |} in
            extractDays (description r) = Str.ofZ a
            /\ exists more,
                 Update.suggested_text (generateTimeBasedUpdate document r)
                 = ("[REVIEW NEEDED] This " ++ Str.interp (type document)
                    ++ " was last updated " ++ Str.ofZ a ++ " days ago." ++ more)%string).
  { intros kind threshold Ha r.
    assert (E : extractDays (description r) = Str.ofZ a).
    { unfold r. cbn [description showAge showDays]. apply extractDays_description, Ha. }
    split; [exact E|].
    unfold generateTimeBasedUpdate. cbn [Update.suggested_text]. rewrite E.
    eexists. reflexivity. }
  destruct (ageAtLeast (Some a) (Some c)) eqn:Ec.
  - apply ageAtLeast_true in Ec. cbn [Freshness.decayReason Freshness.ageDays].
    intros H. injection H as <-. exists a.
    split; [reflexivity|]. split; [lia|].
    apply (Hgoal " critical threshold: "%string c). lia.
  - destruct (ageAtLeast (Some a) (Some w)) eqn:Ew.
    + apply ageAtLeast_true in Ew. cbn [Freshness.decayReason Freshness.ageDays].
      intros H. injection H as <-. exists a.
      split; [reflexivity|]. split; [lia|].
      apply (Hgoal " warning threshold: "%string w). lia.
    + cbn [Freshness.decayReason]. discriminate.
Qed.

(** ** Reading the section back from a contradiction reason *)

(** At a quote, a run without quotes and a quote, the pattern matches and
    captures the run. *)
Lemma quoted_at (p : option ascii) (d : ascii) (ds tail : list ascii) :
  Forall (fun c => negb (Ascii.eqb c "034") = true) (d :: ds) ->
  rmatch false quotedPattern
    (MState p ("034"%char :: (d :: ds) ++ "034"%char :: tail) []) Some
  = Some (MState (Some "034"%char) tail [(1%nat, d :: ds)]).
Proof.
  intros Hd. inversion Hd as [|? ? Hd0 Hds]; subst.
  unfold quotedPattern, Plus.
  rewrite rmatch_Seq. rewrite rmatch_Chr by reflexivity. cbv beta.
  rewrite rmatch_Seq, rmatch_Grp, rmatch_Seq. cbn [app].
  rewrite rmatch_Cls. cbv beta. rewrite Hd0. rewrite rmatch_Star.
  apply (@starLoop_class false (fun c => negb (Ascii.eqb c "034")) _ ds
           ("034"%char :: tail)).
  - exact Hds.
  - reflexivity.
  - cbn [rest]. rewrite length_app. lia.
  - cbn [prev rest caps].
    change (d :: ds ++ "034"%char :: tail) with ((d :: ds) ++ ("034"%char :: tail)).
    rewrite consumed_prefix. rewrite rmatch_Chr by reflexivity. reflexivity.
Qed.

Lemma extractSection_quoted (text rest : string) :
  text <> ""%string -> withoutQuote text ->
  extractSection (Str.dquote ++ text ++ Str.dquote ++ rest) = Str.prefix 50 text.
Proof.
  intros Hne Hq. unfold withoutQuote in Hq.
  unfold extractSection, exec.
  rewrite chars_app, chars_app, chars_app.
  change (Str.chars Str.dquote) with ["034"%char]. cbn [app].
  destruct (Str.chars text) as [|d ds] eqn:Et.
  - exfalso. apply Hne. unfold Str.chars in Et.
    rewrite <- (string_of_list_ascii_of_string text), Et. reflexivity.
  - erewrite exec_at_hit; [|apply quoted_at; exact Hq].
    unfold group. cbn [groups caps find fst snd Nat.eqb].
    unfold Str.ofChars. rewrite <- Et. unfold Str.chars.
    now rewrite string_of_list_ascii_of_string.
Qed.

Lemma truncate_withoutQuote (text : string) (maxLen : nat) :
  text <> ""%string -> withoutQuote text ->
  truncate text maxLen <> ""%string /\ withoutQuote (truncate text maxLen).
Proof.
  intros Hne Hq. unfold truncate.
  destruct (String.length text <=? maxLen)%nat; [split; assumption|].
  destruct (prefix_split (maxLen - 3) text) as [rest Hrest].
  split.
  - destruct (Str.prefix (maxLen - 3) text); discriminate.
  - unfold withoutQuote in *. rewrite chars_app. apply Forall_app. split.
    + rewrite Hrest, chars_app in Hq. apply Forall_app in Hq. apply Hq.
    + repeat constructor.
Qed.

(** X30.  The update generator reads its section back from the reason of a
    contradiction: when the statement of the document under review is not
    empty and holds no double quote, extractSection returns the first 50
    characters of the statement as the reason quotes it (cut to 60
    characters), and this is the section of the recommendation, of at most
    50 characters. *)
Theorem extractSection_reads_statement (document : Document)
    (c : Contradictions.Contradiction) (newerDocs : list Document) :
  let stmt := Contradictions.statement (Contradictions.thisDocument c) in
  let reason := contradictionReason c in
  stmt <> ""%string -> withoutQuote stmt ->
  extractSection (description reason) = Str.prefix 50 (truncate stmt 60)
  /\ Update.section (generateContradictionUpdate document reason newerDocs)
     = Str.prefix 50 (truncate stmt 60)
  /\ (String.length (Update.section (generateContradictionUpdate document reason newerDocs))
      <= 50)%nat
  /\ sectionOf reason = Str.prefix 50 (truncate stmt 60).
Proof.
  intros stmt reason Hne Hq.
  destruct (truncate_withoutQuote 60 Hne Hq) as [Tne Tq].
  assert (E : extractSection (description reason) = Str.prefix 50 (truncate stmt 60)).
  { unfold reason, contradictionReason. cbn [description]. fold stmt.
    apply extractSection_quoted; assumption. }
  split; [exact E|]. split; [|split].
  - unfold generateContradictionUpdate. cbv zeta. cbn [Update.section]. exact E.
  - unfold generateContradictionUpdate. cbv zeta. cbn [Update.section]. rewrite E.
    rewrite prefix_length. lia.
  - unfold sectionOf. cbn [reason contradictionReason reasonType]. exact E.
Qed.

(** ** Key statements *)

Lemma dropSpaces_head (l : list ascii) :
  match Str.dropSpaces l with c :: _ => Str.isSpace c = false | [] => True end.
Proof.
  induction l as [|c t IH]; cbn [Str.dropSpaces]; [exact I|].
  destruct (Str.isSpace c) eqn:E; [exact IH | exact E].
Qed.

Lemma dropSpaces_fixed (l : list ascii) :
  match l with c :: _ => Str.isSpace c = false | [] => True end ->
  Str.dropSpaces l = l.
Proof. destruct l as [|c t]; cbn [Str.dropSpaces]; [reflexivity|]. now intros ->. Qed.

Lemma dropSpaces_suffix (l : list ascii) : exists dropped, l = dropped ++ Str.dropSpaces l.
Proof.
  induction l as [|c t IH]; cbn [Str.dropSpaces]; [exists []; reflexivity|].
  destruct (Str.isSpace c).
  - destruct IH as [dropped E]. exists (c :: dropped). cbn [app]. now rewrite <- E.
  - exists []. reflexivity.
Qed.

(** A trimmed list of characters neither begins nor ends with white
    space. *)
Lemma trimChars_ends (l : list ascii) :
  match Str.trimChars l with c :: _ => Str.isSpace c = false | [] => True end
  /\ match rev (Str.trimChars l) with c :: _ => Str.isSpace c = false | [] => True end.
Proof.
  unfold Str.trimChars. rewrite rev_involutive.
  pose proof (dropSpaces_head l) as Ha.
  set (a := Str.dropSpaces l) in *.
  pose proof (dropSpaces_head (rev a)) as Hb.
  split; [|exact Hb].
  destruct (dropSpaces_suffix (rev a)) as [dropped E].
  set (b := Str.dropSpaces (rev a)) in *.
  destruct a as [|c t].
  - exact I.
  - assert (Er : c :: t = rev b ++ rev dropped).
    { rewrite <- rev_app_distr, <- E, rev_involutive. reflexivity. }
    destruct (rev b) as [|x r] eqn:Eb.
    + exfalso. assert (Hbn : b = []) by (rewrite <- (rev_involutive b), Eb; reflexivity).
      cbn [app] in Er. unfold b in Hbn.
      assert (Hall : Forall (fun ch => Str.isSpace ch = true) (rev (c :: t))).
      { clear - Hbn. induction (rev (c :: t)) as [|y l' IH]; [constructor|].
        cbn [Str.dropSpaces] in Hbn. destruct (Str.isSpace y) eqn:Ey; [|discriminate Hbn].
        constructor; [exact Ey | apply IH, Hbn]. }
      rewrite Forall_forall in Hall.
      assert (Hc : Str.isSpace c = true) by (apply Hall, in_rev; rewrite rev_involutive;
                                             left; reflexivity).
      congruence.
    + cbn [app] in Er. injection Er as <- _. exact Ha.
Qed.

Lemma trimChars_idempotent (l : list ascii) : Str.trimChars (Str.trimChars l) = Str.trimChars l.
Proof.
  destruct (trimChars_ends l) as [H1 H2].
  unfold Str.trimChars at 1.
  rewrite (dropSpaces_fixed _ H1), (dropSpaces_fixed _ H2). apply rev_involutive.
Qed.

Lemma trim_idempotent (s : string) : Str.trim (Str.trim s) = Str.trim s.
Proof.
  unfold Str.trim, Str.chars, Str.ofChars.
  rewrite list_ascii_of_string_of_list_ascii. now rewrite trimChars_idempotent.
Qed.

(** X10.  extractKeyStatements: every statement returned is a trimmed
    sentence of more than 20 characters in which one of the four factual
    patterns is found; an absent or empty text has no key statement. *)
Theorem extractKeyStatements_statements (text : option string) :
  Forall (fun s => (20 < String.length s)%nat
                   /\ Str.trim s = s
                   /\ exists pattern, In pattern factualPatterns
                                      /\ test (fst pattern) (snd pattern) s = true)
         (extractKeyStatements text)
  /\ (Str.truthy text = false -> extractKeyStatements text = []).
Proof.
  unfold extractKeyStatements. destruct text as [t|].
  - destruct (String.eqb t "") eqn:E.
    + split; [constructor | reflexivity].
    + split; [|cbn [Str.truthy]; rewrite E; discriminate].
      cbv zeta. apply Forall_forall. intros s Hs.
      apply filter_In in Hs. destruct Hs as [Hs Hp].
      apply filter_In in Hs. destruct Hs as [Hs Hl].
      apply in_map_iff in Hs. destruct Hs as [piece [<- _]].
      split; [now apply Nat.ltb_lt in Hl|]. split; [apply trim_idempotent|].
      apply existsb_exists in Hp. exact Hp.
  - split; [constructor | reflexivity].
Qed.

End Services.

(* ================================================================== *)
(** * The clock *)
(* ================================================================== *)

(** X4.  As the clock advances a document never gets fresher: its status
    never moves back towards fresh and its penalty never decreases. *)
Theorem evaluateFreshness_clock_monotone (now1 now2 : Z) (document : Document) :
  (now1 <= now2)%Z ->
  let r1 := evaluateFreshness now1 document in
  let r2 := evaluateFreshness now2 document in
  (statusRank (Freshness.status r1) <= statusRank (Freshness.status r2))%Z
  /\ Freshness.penalty r1 <= Freshness.penalty r2.
Proof.
  intros Hle r1 r2. unfold r1, r2, evaluateFreshness, calculateAgeDays. cbv zeta.
  destruct (getThresholds_cases (type document)) as [[_ [w [c [Ht Hord]]]] | [_ Ht]];
    rewrite Ht; cbn [thresholdsOf memberThresholds Freshness.critical_days
                     Freshness.warning_days].
  2: { rewrite !ageAtLeast_undefined.
       cbn [Freshness.status Freshness.penalty statusRank].
       split; [lia | apply Qle_refl]. }
  destruct (getTime (dateOr (lastVerifiedAt document) (updatedAt document))) as [t|].
  - assert (Ha : ((now1 - t) / msPerDay <= (now2 - t) / msPerDay)%Z).
    { apply Z.div_le_mono; [reflexivity | lia]. }
    set (a1 := ((now1 - t) / msPerDay)%Z) in *.
    set (a2 := ((now2 - t) / msPerDay)%Z) in *.
    destruct (ageAtLeast (Some a1) (Some c)) eqn:C1;
      [apply ageAtLeast_true in C1 | apply ageAtLeast_false in C1];
      (destruct (ageAtLeast (Some a2) (Some c)) eqn:C2;
       [apply ageAtLeast_true in C2 | apply ageAtLeast_false in C2]);
      (destruct (ageAtLeast (Some a1) (Some w)) eqn:W1;
       [apply ageAtLeast_true in W1 | apply ageAtLeast_false in W1]);
      (destruct (ageAtLeast (Some a2) (Some w)) eqn:W2;
       [apply ageAtLeast_true in W2 | apply ageAtLeast_false in W2]);
      try lia;
      cbn [Freshness.status Freshness.penalty statusRank ageQ daysOf];
      (split; [lia|]).
    + apply Qle_refl.
    + apply round3_mono. apply (warningPenalty_bounds (conj W1 C1)).
    + apply round3_mono. lra.
    + apply round3_mono. apply warningPenalty_mono; lia.
    + apply round3_mono.
      pose proof (warningPenalty_bounds (conj W2 C2)) as [Hlo _]. lra.
    + apply Qle_refl.
  - cbn [ageAtLeast Freshness.status Freshness.penalty statusRank].
    split; [lia | apply Qle_refl].
Qed.


(* ================================================================== *)
(** * The properties on the concrete platform *)
(* ================================================================== *)

Lemma Demo_sqrt_exact : sqrt_exact_on_squares Demo.sqrt.
Proof.
  intros k [a b] Hk Hx. unfold Demo.sqrt. cbn [Qnum Qden].
  unfold Qeq in Hx. cbn [Qnum Qden inject_Z] in Hx.
  assert (Ea : a = (k * k * Zpos b)%Z) by lia.
  assert (EN : (a * Zpos b * 10000000000000000 = (k * Zpos b * 100000000) * (k * Zpos b * 100000000))%Z).
  { rewrite Ea. ring. }
  rewrite EN, Z.sqrt_square by nia.
  unfold Qeq. cbn [Qnum Qden inject_Z]. rewrite Pos2Z.inj_mul. ring.
Qed.

Lemma Demo_sqrt_accurate : sqrt_accurate Demo.sqrt.
Proof.
  intros [a b] Hx. unfold Demo.sqrt. cbn [Qnum Qden].
  assert (Ha : (0 < a)%Z).
  { unfold Qlt in Hx. cbn [Qnum Qden] in Hx. lia. }
  set (N := (a * Zpos b * 10000000000000000)%Z).
  assert (HN : (10000000000000000 <= N)%Z) by (unfold N; nia).
  pose proof (Z.sqrt_spec N ltac:(lia)) as [Hlo Hhi].
  assert (Hs : (100000000 <= Z.sqrt N)%Z).
  { change 100000000%Z with (Z.sqrt 10000000000000000).
    apply Z.sqrt_le_mono. exact HN. }
  set (s := Z.sqrt N) in *.
  unfold Z.succ in Hhi.
  split; [|split].
  - unfold Qlt. cbn [Qnum Qden]. lia.
  - unfold Qle, Qmult. cbn [Qnum Qden]. rewrite !Pos2Z.inj_mul.
    assert (H1 : (9999 * N <= 10000 * (s * s))%Z) by nia.
    unfold N in H1.
    assert (Hb : (0 < Zpos b)%Z) by lia.
    nia.
  - unfold Qle, Qmult. cbn [Qnum Qden]. rewrite !Pos2Z.inj_mul.
    assert (Hb : (0 < Zpos b)%Z) by lia.
    unfold N in Hlo. nia.
Qed.

(** The services on the concrete platform, with the default penalties. *)
Abbreviation demoAnalyzeDocument :=
  (analyzeDocument Demo.now Demo.sqrt Demo.arrayMethod Demo.listTerms None Demo.embedContent
     Demo.toLocaleDateString 0.3%Q 0.4%Q 0.2%Q 0.1%Q) (only parsing).
Abbreviation demoBatchAnalyze :=
  (batchAnalyze Demo.now Demo.sqrt Demo.arrayMethod Demo.listTerms None Demo.embedContent
     Demo.toLocaleDateString 0.3%Q 0.4%Q 0.2%Q 0.1%Q) (only parsing).
Abbreviation demoBatchStep :=
  (batchStep Demo.now Demo.sqrt Demo.arrayMethod Demo.listTerms None Demo.embedContent
     Demo.toLocaleDateString 0.3%Q 0.4%Q 0.2%Q 0.1%Q) (only parsing).

Lemma goodDoc_analysis :
  demoAnalyzeDocument Demo.goodDoc [] [] []
  = (Ok (Demo.unsupportedVerdict (Some 0%Z)),
     setEmbedding Demo.goodDoc (Sparse [("content"%string, 307 # 1000)])).
Proof. vm_compute. reflexivity. Qed.

(** C1 at the note of the batch, and at confidence 0.5 with medium risk. *)
Lemma decay_detected_iff_witness :
  (decay_detected (Demo.unsupportedVerdict (Some 0%Z)) = true
   <-> (confidence_score (Demo.unsupportedVerdict (Some 0%Z)) < 1
        \/ risk_level (Demo.unsupportedVerdict (Some 0%Z)) <> low))
  /\ (shouldFlagDecay 0.5 medium = true <-> (0.5 < 1 \/ medium <> low))
  /\ shouldFlagDecay 1 low = false
  /\ (~ (0.5 == 1 /\ medium = low) -> shouldFlagDecay 0.5 medium = true).
Proof.
  apply (@decay_detected_iff Demo.now Demo.sqrt Demo.arrayMethod Demo.listTerms None Demo.embedContent
           Demo.toLocaleDateString 0.3 0.4 0.2 0.1 Demo.goodDoc [] [] []
           (Demo.unsupportedVerdict (Some 0%Z))
           (setEmbedding Demo.goodDoc (Sparse [("content"%string, 307 # 1000)]))
           0.5 medium).
  - vm_compute. reflexivity.
  - apply Qle_bool_iff. reflexivity.
Defined.

(** C2 on the batch of the engine's tests: the document with
    [content: null] is analyzed like the note beside it, and gets a verdict
    where the claim asks for an error record. *)
Lemma batchAnalyze_null_content_is_analyzed :
  fst (demoBatchAnalyze [Demo.goodDoc; Demo.nullContentDoc] [])
  = [ Analysis (Some "batch-3"%string) (Some "Good Doc"%string)
        (Demo.unsupportedVerdict (Some 0%Z));
      Analysis (Some "batch-4"%string) None (Demo.unsupportedVerdict None) ].
Proof. vm_compute. reflexivity. Qed.

(** C2 at the batch of the engine's tests followed by a document that has
    a null entry among its versions: three records; the document without
    content gets a verdict, the one with the null entry the error record
    with the message of the TypeError; and under the provider openai the
    note, which has no embedding, gets the error record with the message
    of the provider. *)
Lemma batchAnalyze_one_record_each_witness :
  List.length
    (fst (demoBatchAnalyze [Demo.goodDoc; Demo.nullContentDoc; Demo.nullVersionDoc] []))
  = 3%nat
  /\ (exists v, fst (demoBatchStep [] Demo.nullContentDoc)
                = Analysis (id Demo.nullContentDoc) (title Demo.nullContentDoc) v)
  /\ recorded Demo.nullVersionDoc
       (Throw "Cannot read properties of null (reading 'embedding')")
       (fst (demoBatchStep [] Demo.nullVersionDoc))
  /\ recorded Demo.goodDoc
       (Throw "OpenAI embeddings deprecated. Use EMBEDDING_PROVIDER=gemini")
       (fst (batchStep Demo.now Demo.sqrt Demo.arrayMethod Demo.listTerms
               (Some "openai"%string) Demo.embedContent Demo.toLocaleDateString
               0.3 0.4 0.2 0.1 [] Demo.goodDoc)).
Proof.
  destruct (@batchAnalyze_one_record_each Demo.now Demo.sqrt Demo.arrayMethod Demo.listTerms
              None Demo.embedContent Demo.toLocaleDateString 0.3 0.4 0.2 0.1
              [Demo.goodDoc; Demo.nullContentDoc; Demo.nullVersionDoc] []
              Demo.nullContentDoc)
    as [Hlen [_ [_ [_ [Hrec _]]]]].
  destruct (@batchAnalyze_one_record_each Demo.now Demo.sqrt Demo.arrayMethod Demo.listTerms
              None Demo.embedContent Demo.toLocaleDateString 0.3 0.4 0.2 0.1
              [] [] Demo.nullVersionDoc)
    as [_ [_ [_ [Hnull _]]]].
  destruct (@batchAnalyze_one_record_each Demo.now Demo.sqrt Demo.arrayMethod Demo.listTerms
              (Some "openai"%string) Demo.embedContent Demo.toLocaleDateString
              0.3 0.4 0.2 0.1 [] [] Demo.goodDoc)
    as [_ [_ [Hprov _]]].
  split; [exact Hlen|]. split; [exact (Hrec eq_refl eq_refl)|].
  split; [exact (Hnull eq_refl eq_refl)|].
  destruct (Hprov eq_refl) as [message [Hm Hr]].
  vm_compute in Hm. injection Hm as <-. exact Hr.
Defined.




(** C10 at the document of the batch that has no date. *)
Lemma evaluateFreshness_without_dates_witness :
  Freshness.ageDays (evaluateFreshness Demo.now Demo.nullContentDoc) = None
  /\ Freshness.status (evaluateFreshness Demo.now Demo.nullContentDoc) = Freshness.fresh
  /\ Freshness.penalty (evaluateFreshness Demo.now Demo.nullContentDoc) == 0
  /\ Freshness.decayReason (evaluateFreshness Demo.now Demo.nullContentDoc) = None.
Proof.
  destruct (@evaluateFreshness_without_dates Demo.now Demo.nullContentDoc)
    as [_ [H1 [_ [_ [H2 [H3 H4]]]]]].
  - reflexivity.
  - reflexivity.
  - repeat split; assumption.
Defined.

Lemma Demo_listTerms_withoutNumbers :
  exists item, In item (Demo.listTerms withoutNumbers) /\ 0.1 < snd item
               /\ fst item <> "__proto__"%string.
Proof.
  exists ("deployments"%string, 307 # 1000). split; [|split].
  - vm_compute. left. reflexivity.
  - reflexivity.
  - discriminate.
Defined.

(** C5 on the concrete platform. *)
Lemma detectContradictions_numeric_conflict_witness :
  Contradictions.hasContradictions
    (detectContradictions Demo.sqrt Demo.arrayMethod Demo.listTerms Demo.subject5 [Demo.related15]) = true
  /\ Contradictions.penalty
       (detectContradictions Demo.sqrt Demo.arrayMethod Demo.listTerms Demo.subject5 [Demo.related15])
     == 0.15
  /\ Contradictions.decayReasons
       (detectContradictions Demo.sqrt Demo.arrayMethod Demo.listTerms Demo.subject5 [Demo.related15])
     = Some [contradictionReason (minutesContradiction Demo.subject5 Demo.related15)]
  /\ sources (contradictionReason (minutesContradiction Demo.subject5 Demo.related15))
     = [Some "doc-2"%string].
Proof.
  destruct (@detectContradictions_numeric_conflict Demo.sqrt Demo.arrayMethod Demo.listTerms
              Demo.subject5 Demo.related15 Demo_sqrt_accurate
              Demo_listTerms_withoutNumbers eq_refl eq_refl eq_refl eq_refl)
    as [H1 [_ [H2 [_ [H3 [_ [H4 _]]]]]]].
  repeat split; assumption.
Defined.

Lemma versioned_greatest :
  greatest (numbers (map (driftOf Demo.sqrt Demo.arrayMethod Demo.listTerms Demo.versioned)
                         [Demo.version2; Demo.version1]))
           (1000 # 1000).
Proof.
  split.
  - vm_compute. right. left. reflexivity.
  - intros x Hx. vm_compute in Hx.
    destruct Hx as [<- | [<- | []]]; apply Qle_bool_iff; reflexivity.
Defined.

(** C6 at a document with two prior versions, of which the older one has
    drifted. *)
Lemma analyzeVersionDrift_penalty_and_reason_witness :
  exists r,
    analyzeVersionDrift Demo.sqrt Demo.arrayMethod Demo.listTerms Demo.versioned
      [Some Demo.version2; Some Demo.version1] = Ok r
    /\ Drift.penalty r == 0.2
    /\ Drift.decayReason r
       = Some {| reasonType := version_drift;
                 description :=
                   "Significant semantic change detected from version 1 to 3 (drift score: 1)";
                 sources := [] |}.
Proof.
  destruct (@analyzeVersionDrift_penalty_and_reason Demo.now Demo.sqrt Demo.arrayMethod
              Demo.listTerms Demo.toLocaleDateString 0.3 0.4 0.2 0.1
              Demo.versioned [Demo.version2; Demo.version1])
    as [r [H1 [H2 [_ [H3 _]]]]].
  exists r. split; [exact H1|]. split; [exact (H2 _ versioned_greatest)|].
  rewrite H3. vm_compute. reflexivity.
Defined.

(** C7 at a pool of three candidates, with thresholds 0.3 and 0.9: the
    candidate that shares two of the three words is found, at similarity
    0.667. *)
Lemma findRelatedDocuments_spec_witness :
  map (fun r => (id (doc r), similarity r))
      (findRelatedDocuments Demo.sqrt Demo.arrayMethod Demo.listTerms Demo.versioned
         Demo.pool 0.3)
  = [(Some "doc-7"%string, 667 # 1000)]
  /\ Forall (fun r => sameId (id (doc r)) (id Demo.versioned) = false)
            (findRelatedDocuments Demo.sqrt Demo.arrayMethod Demo.listTerms Demo.versioned
               Demo.pool 0.3)
  /\ StronglySorted bySimilarity
       (findRelatedDocuments Demo.sqrt Demo.arrayMethod Demo.listTerms Demo.versioned
          Demo.pool 0.3)
  /\ (List.length
        (findRelatedDocuments Demo.sqrt Demo.arrayMethod Demo.listTerms Demo.versioned
           Demo.pool 0.9)
      <= List.length
           (findRelatedDocuments Demo.sqrt Demo.arrayMethod Demo.listTerms Demo.versioned
              Demo.pool 0.3))%nat.
Proof.
  destruct (@findRelatedDocuments_spec Demo.sqrt Demo.arrayMethod Demo.listTerms
              Demo.versioned Demo.pool 0.3 0.9)
    as [H1 [_ [_ [_ [H2 [H3 _]]]]]].
  - apply Qle_bool_iff. reflexivity.
  - split; [vm_compute; reflexivity|].
    split; [exact H1 | split; [exact H2 | exact H3]].
Defined.

(** C8 on the concrete platform: the dense branch returns one third, and
    NaN on a second array that is empty; and the similarity of the sparse
    vectors of the texts alpha constructor and delta epsilon, which share no
    term, is NaN. *)
Lemma calculateSimilarity_dense_unrounded_witness :
  (exists q, calculateSimilarity Demo.sqrt Demo.arrayMethod (Dense [1; 0; 0])
               (Dense [1; 2; 2]) = Some q
             /\ q == 1 # 3
             /\ forall k : Z, ~ q == k # 1000)
  /\ calculateSimilarity Demo.sqrt Demo.arrayMethod (Dense [1]) (Dense []) = None
  /\ cosineSimilarity Demo.sqrt Demo.arrayMethod
       (Some (generateTfIdfEmbedding Demo.listTerms (Some "alpha constructor"%string)))
       (Some (generateTfIdfEmbedding Demo.listTerms (Some "delta epsilon"%string)))
     = None.
Proof.
  destruct (@calculateSimilarity_dense_unrounded Demo.sqrt Demo.arrayMethod Demo.listTerms
              Demo_sqrt_exact)
    as [H1 [_ [H2 [_ [_ [_ [_ [_ [H3 _]]]]]]]]].
  split; [exact H1|]. split; [exact H2|].
  replace (generateTfIdfEmbedding Demo.listTerms (Some "alpha constructor"%string))
    with (Sparse [("alpha"%string, 307 # 1000); ("constructor"%string, 307 # 1000)])
    by (vm_compute; reflexivity).
  replace (generateTfIdfEmbedding Demo.listTerms (Some "delta epsilon"%string))
    with (Sparse [("delta"%string, 307 # 1000); ("epsilon"%string, 307 # 1000)])
    by (vm_compute; reflexivity).
  apply H3; [discriminate | discriminate |].
  exists "constructor"%string. split; [reflexivity|]. left. split.
  - right. left. reflexivity.
  - intros [H | [H | []]]; discriminate H.
Defined.

(** C9 as stated fails: the note of the batch has no embedding before the
    call and has one after it. *)
Lemma analyzeDocument_sets_embedding :
  embedding Demo.goodDoc = None
  /\ embedding (snd (demoAnalyzeDocument Demo.goodDoc [] [] []))
     = Some (Sparse [("content"%string, 307 # 1000)])
  /\ snd (demoAnalyzeDocument Demo.goodDoc [] [] []) <> Demo.goodDoc.
Proof.
  rewrite goodDoc_analysis. cbn [snd]. repeat split.
  intros H. discriminate H.
Qed.

(* ================================================================== *)
(** * The further properties on the concrete platform *)
(* ================================================================== *)

(** X1 at the default maximum penalties: an age penalty of 0.133 instead of
    none, with three supporting documents either way. *)
Lemma calculateConfidence_monotone_witness :
  Score.confidence (calculateConfidence 0.3 0.4 0.2 0.1 Demo.params133)
  <= Score.confidence
       (calculateConfidence 0.3 0.4 0.2 0.1
          {| Score.agePenalty := 0; Score.contradictionPenalty := 0;
             Score.driftPenalty := 0; Score.supportingDocsCount := 3 |}).
Proof.
  apply (@calculateConfidence_monotone 0.3 0.4 0.2 0.1
           {| Score.agePenalty := 0; Score.contradictionPenalty := 0;
              Score.driftPenalty := 0; Score.supportingDocsCount := 3 |}
           Demo.params133);
    apply Qle_bool_iff; reflexivity.
Defined.

(** X4 at the SOP updated 40 days ago, today and fifty days from now: in
    warning today, critical then. *)
Lemma evaluateFreshness_clock_monotone_witness :
  (statusRank (Freshness.status (evaluateFreshness Demo.now Demo.sop40))
   <= statusRank
        (Freshness.status (evaluateFreshness (Demo.now + 50 * msPerDay) Demo.sop40)))%Z
  /\ Freshness.penalty (evaluateFreshness Demo.now Demo.sop40)
     <= Freshness.penalty (evaluateFreshness (Demo.now + 50 * msPerDay) Demo.sop40).
Proof.
  apply (@evaluateFreshness_clock_monotone Demo.now (Demo.now + 50 * msPerDay) Demo.sop40).
  vm_compute. discriminate.
Defined.


(** X23 at the SOP updated 40 days ago, analysed alone: a time reason, no
    contradiction, no drift, and the low_support reason. *)
Lemma analyzeDocument_reasons_witness :
  exists v document',
    demoAnalyzeDocument Demo.sop40 [] [] [] = (Ok v, document')
    /\ map reasonType (decay_reasons v) = [time; low_support]
    /\ exists timeReasons driftReasons supportReasons,
         decay_reasons v
         = timeReasons ++ map contradictionReason (internal_contradictions (_internal v))
           ++ driftReasons ++ supportReasons
         /\ Forall (fun r => reasonType r = time) timeReasons
         /\ Forall (fun r => reasonType r = version_drift) driftReasons
         /\ Forall (fun r => reasonType r = low_support) supportReasons.
Proof.
  eexists. eexists. split; [vm_compute; reflexivity|]. split; [reflexivity|].
  destruct (@analyzeDocument_reasons Demo.now Demo.sqrt Demo.arrayMethod Demo.listTerms None
              Demo.embedContent Demo.toLocaleDateString 0.3 0.4 0.2 0.1
              Demo.sop40 [] [] [] _ _ eq_refl)
    as [T [D [L [H1 [H2 [H3 [H4 _]]]]]]].
  exists T, D, L. repeat (split; [assumption|]). assumption.
Defined.

(** X24 at the note of the batch with the three documents of the pool
    supplied as related documents: nothing is reported. *)
Lemma analyzeDocument_unflagged_witness :
  exists v document',
    demoAnalyzeDocument Demo.goodDoc [] Demo.pool [] = (Ok v, document')
    /\ decay_detected v = false
    /\ decay_reasons v = []
    /\ update_recommendations v = []
    /\ what_changed_summary v = "No decay signals detected."%string
    /\ risk_level v = low
    /\ confidence_score v == 1.
Proof.
  eexists. eexists. split; [vm_compute; reflexivity|]. split; [reflexivity|].
  assert (HA : 0.01 <= 0.3) by (apply Qle_bool_iff; reflexivity).
  assert (HC : 0 <= 0.4) by (apply Qle_bool_iff; reflexivity).
  assert (HD : 0 <= 0.2) by (apply Qle_bool_iff; reflexivity).
  assert (HS : 0.01 <= 0.1) by (apply Qle_bool_iff; reflexivity).
  destruct (@analyzeDocument_unflagged Demo.now Demo.sqrt Demo.arrayMethod Demo.listTerms None
              Demo.embedContent Demo.toLocaleDateString 0.3 0.4 0.2 0.1
              Demo.goodDoc [] Demo.pool [] _ _ HA HC HD HS eq_refl eq_refl)
    as [H1 [H2 [H3 [H4 [H5 _]]]]].
  repeat (split; [assumption|]). assumption.
Defined.

(** X25 at the note of the batch with one related document supplied: a
    support penalty, a verdict that reports decay, and no reason for it. *)
Lemma analyzeDocument_support_witness :
  exists v document',
    demoAnalyzeDocument Demo.goodDoc [] [Demo.versioned] [] = (Ok v, document')
    /\ decay_reasons v = []
    /\ 0 < Score.support_penalty (confidence_breakdown (_internal v))
    /\ confidence_score v < 1
    /\ decay_detected v = true
    /\ ~ In lowSupportReason (decay_reasons v).
Proof.
  eexists. eexists. split; [vm_compute; reflexivity|]. split; [reflexivity|].
  assert (HA : 0 <= 0.3) by (apply Qle_bool_iff; reflexivity).
  assert (HC : 0 <= 0.4) by (apply Qle_bool_iff; reflexivity).
  assert (HD : 0 <= 0.2) by (apply Qle_bool_iff; reflexivity).
  assert (HS : 0.02 <= 0.1) by (apply Qle_bool_iff; reflexivity).
  destruct (@analyzeDocument_support Demo.now Demo.sqrt Demo.arrayMethod Demo.listTerms None
              Demo.embedContent Demo.toLocaleDateString 0.3 0.4 0.2 0.1
              Demo.goodDoc [] [Demo.versioned] [] _ _ HA HC HD HS eq_refl)
    as [H1 [_ [H3 _]]].
  destruct (H1 ltac:(vm_compute; repeat constructor)) as [P1 [P2 P3]].
  split; [exact P1|]. split; [exact P2|]. split; [exact P3|].
  intros Hin. apply H3 in Hin. discriminate Hin.
Defined.

(** X26 at the versioned document with its pool: the one similar document
    of the pool is cited, the document itself is not. *)
Lemma analyzeDocument_citations_witness :
  exists v document',
    demoAnalyzeDocument Demo.versioned [] [] Demo.pool = (Ok v, document')
    /\ citations v = ["doc-7"%string]
    /\ NoDup (citations v)
    /\ (forall c, In c (citations v) -> id Demo.versioned <> Some c).
Proof.
  eexists. eexists. split; [vm_compute; reflexivity|]. split; [reflexivity|].
  destruct (@analyzeDocument_citations Demo.now Demo.sqrt Demo.arrayMethod Demo.listTerms None
              Demo.embedContent Demo.toLocaleDateString 0.3 0.4 0.2 0.1
              Demo.versioned [] [] Demo.pool _ _ eq_refl)
    as [H1 [_ H3]].
  split; [exact H1 | exact (H3 eq_refl)].
Defined.

(** X27 at the SOP updated 40 days ago, analysed alone: one recommendation
    for the time reason, one for the lack of support. *)
Lemma analyzeDocument_recommendations_witness :
  exists v document',
    demoAnalyzeDocument Demo.sop40 [] [] [] = (Ok v, document')
    /\ map rec_section (update_recommendations v)
       = ["Document Review Required"; "Verification Needed"]%string
    /\ map rec_section (update_recommendations v) = map sectionOf (decay_reasons v)
    /\ what_changed_summary v <> ""%string.
Proof.
  eexists. eexists. split; [vm_compute; reflexivity|]. split; [reflexivity|].
  destruct (@analyzeDocument_recommendations Demo.now Demo.sqrt Demo.arrayMethod Demo.listTerms None
              Demo.embedContent Demo.toLocaleDateString 0.3 0.4 0.2 0.1
              Demo.sop40 [] [] [] _ _ eq_refl)
    as [_ [H2 H3]].
  split; [apply (H2 eq_refl) | exact H3].
Defined.

(** X29 at the SOP updated 40 days ago. *)
Lemma extractDays_reads_age_witness :
  exists reason,
    Freshness.decayReason (evaluateFreshness Demo.now Demo.sop40) = Some reason
    /\ extractDays (description reason) = "40"%string.
Proof.
  eexists. split; [vm_compute; reflexivity|].
  destruct (@extractDays_reads_age Demo.now Demo.sop40 _ eq_refl)
    as [age [Ha [_ [He _]]]].
  vm_compute in Ha. injection Ha as <-. exact He.
Defined.

(** X30 at the contradiction of the detector's tests. *)
Lemma extractSection_reads_statement_witness :
  extractSection
    (description (contradictionReason (minutesContradiction Demo.subject5 Demo.related15)))
  = "Deployments must complete within 5 minutes"%string.
Proof.
  assert (Hne : fiveMinutes <> ""%string) by discriminate.
  assert (Hq : withoutQuote fiveMinutes) by (vm_compute; repeat constructor).
  destruct (@extractSection_reads_statement Demo.toLocaleDateString Demo.subject5
              (minutesContradiction Demo.subject5 Demo.related15) [] Hne Hq)
    as [H _].
  exact H.
Defined.
